(** * AetherMind workflow node executors

    A shallow embedding of the three node executors of
    [src/lib/workflow/executors]: the remote-tool (MCP) executor [mcp.ts],
    the agent executor and the HTTP executor [agent.ts].

    JavaScript values are modelled by a JSON-like inductive type;
    exceptions by an [Outcome] sum; the workflow state by a record that is
    threaded explicitly through the executors; everything that lives
    outside the two source files (SDK clients, [fetch], the tool-server
    resolver, variable substitution, [JSON.parse], the process
    environment) is a parameter of the section that uses it.

    Modelling limits, stated once: strings are byte strings and
    [toLowerCase] maps ASCII letters only; numbers are integers;
    properties inherited from prototypes other than [length] are not
    modelled; the wording of engine-raised [TypeError]s follows V8. *)

From Stdlib Require Import String Ascii List ZArith Bool Lia.
From Stdlib Require Import DecimalString DecimalPos DecimalN.
From stdpp Require Import gmap strings.
Import ListNotations.
Local Open Scope string_scope.

(* ================================================================= *)
(** ** JavaScript values and exceptions *)

Module JS.

#[local] Set Warnings "-register-all".

Inductive JSValue : Type :=
| JUndefined
| JNull
| JBool (b : bool)
| JNum (n : Z)
| JStr (s : string)
| JArr (items : list JSValue)
| JObj (fields : list (string * JSValue)).

(** What a [throw] carries: an [Error] instance (with its message) or any
    other value.  [exn_message] is the recurring source idiom
    [error instanceof Error ? error.message : 'Unknown error']. *)
Inductive Exn : Type :=
| JsError (message : string)
| JsNonError (v : JSValue).

Definition exn_message (e : Exn) : string :=
  match e with
  | JsError m => m
  | JsNonError _ => "Unknown error"
  end.

Inductive Outcome (A : Type) : Type :=
| Returned (a : A)
| Thrown (e : Exn).
Arguments Returned {A} a.
Arguments Thrown {A} e.

Definition obind {A B} (m : Outcome A) (k : A -> Outcome B) : Outcome B :=
  match m with
  | Returned a => k a
  | Thrown e => Thrown e
  end.

Notation "'let!' x ':=' m 'in' k" := (obind m (fun x => k))
  (at level 10, x name, m at level 100, k at level 200).

Fixpoint omap {A B} (f : A -> Outcome B) (l : list A) : Outcome (list B) :=
  match l with
  | [] => Returned []
  | a :: l' =>
      let! b := f a in
      let! bs := omap f l' in
      Returned (b :: bs)
  end.

(** *** Truthiness, [||] and [??] *)

Definition truthy (v : JSValue) : bool :=
  match v with
  | JUndefined | JNull => false
  | JBool b => b
  | JNum n => negb (n =? 0)%Z
  | JStr s => negb (s =? "")
  | JArr _ | JObj _ => true
  end.

Definition is_nullish (v : JSValue) : bool :=
  match v with
  | JUndefined | JNull => true
  | _ => false
  end.

Definition is_undefined (v : JSValue) : bool :=
  match v with
  | JUndefined => true
  | _ => false
  end.

Definition js_or (a b : JSValue) : JSValue := if truthy a then a else b.
Definition js_coalesce (a b : JSValue) : JSValue := if is_nullish a then b else a.

(** An optional string field ([data.x] that is a string or missing);
    [||] with a default treats the empty string as missing. *)
Definition str_truthy (o : option string) : bool :=
  match o with
  | Some s => negb (s =? "")
  | None => false
  end.

Definition str_or (o : option string) (d : string) : string :=
  match o with
  | Some s => if s =? "" then d else s
  | None => d
  end.

Definition of_opt_str (o : option string) : JSValue :=
  match o with
  | Some s => JStr s
  | None => JUndefined
  end.

(** *** Strings *)

Definition includes (s sub : string) : bool :=
  match index 0 sub s with
  | Some _ => true
  | None => false
  end.

Definition startsWith (s p : string) : bool := String.prefix p s.

Definition endsWith (s p : string) : bool :=
  let n := String.length s in
  let k := String.length p in
  (k <=? n)%nat && (substring (n - k) k s =? p).

Definition lower_ascii (c : ascii) : ascii :=
  let n := nat_of_ascii c in
  if ((65 <=? n) && (n <=? 90))%nat then ascii_of_nat (n + 32) else c.

Fixpoint toLowerCase (s : string) : string :=
  match s with
  | EmptyString => EmptyString
  | String c s' => String (lower_ascii c) (toLowerCase s')
  end.

(** [s.split(sep)] for a one-character separator: never empty. *)
Fixpoint split_on (sep : ascii) (s : string) : list string :=
  match s with
  | EmptyString => [EmptyString]
  | String c s' =>
      if Ascii.eqb c sep then EmptyString :: split_on sep s'
      else match split_on sep s' with
           | h :: t => String c h :: t
           | [] => [String c EmptyString]
           end
  end.

Fixpoint join (sep : string) (l : list string) : string :=
  match l with
  | [] => ""
  | [s] => s
  | s :: l' => s +:+ sep +:+ join sep l'
  end.

(** Longest prefix whose characters satisfy [p], and the rest. *)
Fixpoint span (p : ascii -> bool) (s : string) : string * string :=
  match s with
  | EmptyString => (EmptyString, EmptyString)
  | String c s' =>
      if p c then let (a, b) := span p s' in (String c a, b)
      else (EmptyString, s)
  end.

Definition is_digit (c : ascii) : bool :=
  let n := nat_of_ascii c in ((48 <=? n) && (n <=? 57))%nat.

Definition is_alpha (c : ascii) : bool :=
  let n := nat_of_ascii c in
  (((65 <=? n) && (n <=? 90)) || ((97 <=? n) && (n <=? 122)))%nat.

(** The regular-expression class [\w]. *)
Definition is_word_char (c : ascii) : bool :=
  is_alpha c || is_digit c || Ascii.eqb c "_".

(** Decimal numerals. *)
Definition dec (n : N) : string := NilZero.string_of_uint (N.to_uint n).

Definition dec_Z (z : Z) : string := NilZero.string_of_int (Z.to_int z).

(** [parseInt] on a string of decimal digits (the only strings it is
    applied to). *)
Definition parseInt (digits : string) : N :=
  match NilEmpty.uint_of_string digits with
  | Some d => N.of_uint d
  | None => 0
  end.

(** *** Property access *)

Fixpoint assoc (k : string) (fs : list (string * JSValue)) : option JSValue :=
  match fs with
  | [] => None
  | (k', v) :: fs' => if k' =? k then Some v else assoc k fs'
  end.

Definition char_at (s : string) (i : nat) : JSValue :=
  match String.get i s with
  | Some c => JStr (String c EmptyString)
  | None => JUndefined
  end.

(** [v[key]] for a value that is neither [undefined] nor [null], as far
    as the value's own entries decide it: the entries of an object, the
    items and [length] of an array, the characters and [length] of a
    string.  What a value finds on its prototype chain is not modelled;
    [in_model] below tells the reads this function decides as JavaScript
    does. *)
Definition own_prop (v : JSValue) (key : string) : JSValue :=
  match v with
  | JObj fs => default JUndefined (assoc key fs)
  | JArr l =>
      if key =? "length" then JNum (Z.of_nat (length l))
      else let (ds, rest) := span is_digit key in
           if (rest =? "") && (dec (parseInt ds) =? key)
           then nth (N.to_nat (parseInt ds)) l JUndefined
           else JUndefined
  | JStr s =>
      if key =? "length" then JNum (Z.of_nat (String.length s))
      else let (ds, rest) := span is_digit key in
           if (rest =? "") && (dec (parseInt ds) =? key)
           then char_at s (N.to_nat (parseInt ds))
           else JUndefined
  | _ => JUndefined
  end.

(** [v[n]] with a numeric index, same proviso. *)
Definition own_index (v : JSValue) (n : N) : JSValue :=
  match v with
  | JObj fs => default JUndefined (assoc (dec n) fs)
  | JArr l => nth (N.to_nat n) l JUndefined
  | JStr s => char_at s (N.to_nat n)
  | _ => JUndefined
  end.

Definition type_error_read (v : JSValue) (key : string) : Exn :=
  JsError ("Cannot read properties of "
           +:+ (if is_undefined v then "undefined" else "null")
           +:+ " (reading '" +:+ key +:+ "')").

(** [v[key]] and [v.key]: a [TypeError] on [undefined] and [null]. *)
Definition js_get (v : JSValue) (key : string) : Outcome JSValue :=
  if is_nullish v then Thrown (type_error_read v key)
  else Returned (own_prop v key).

Definition js_get_index (v : JSValue) (n : N) : Outcome JSValue :=
  if is_nullish v then Thrown (type_error_read v (dec n))
  else Returned (own_index v n).

(** [v?.[key]] and [v?.[n]]: optional chaining never throws. *)
Definition js_opt_get (v : JSValue) (key : string) : JSValue :=
  if is_nullish v then JUndefined else own_prop v key.

Definition js_opt_index (v : JSValue) (n : N) : JSValue :=
  if is_nullish v then JUndefined else own_index v n.

(** *** The reads the model covers *)

(** The property names a plain object inherits from [Object.prototype]
    (ECMAScript, 20.1.3 and Annex B.2.2). *)
Definition object_prototype_names : list string :=
  ["constructor"; "hasOwnProperty"; "isPrototypeOf"; "propertyIsEnumerable";
   "toLocaleString"; "toString"; "valueOf"; "__proto__";
   "__defineGetter__"; "__defineSetter__"; "__lookupGetter__"; "__lookupSetter__"].

Definition inherited_name (key : string) : bool :=
  existsb (String.eqb key) object_prototype_names.

(** Whether JavaScript's [v[key]] is what [own_prop v key] says.  On an
    object: the key is an entry of its own, or a name absent from
    [Object.prototype] as well.  On an array or a string: the key is
    [length] or a run of digits, which no prototype defines.  On a number
    or a boolean, whose every property is inherited: never.  On
    [undefined] and [null] nothing is read ([?.] gives [undefined], a
    plain read throws), which [js_opt_get] and [js_get] model. *)
Definition in_model (v : JSValue) (key : string) : bool :=
  match v with
  | JUndefined | JNull => true
  | JObj fs =>
      match assoc key fs with
      | Some _ => true
      | None => negb (inherited_name key)
      end
  | JArr _ | JStr _ =>
      (key =? "length")
      || (let (_, rest) := span is_digit key in negb (key =? "") && (rest =? ""))
  | JBool _ | JNum _ => false
  end.

End JS.
Export JS.

(* ================================================================= *)
(** ** Field extraction ([mcp.ts], lines 8-69) *)

Module Extract.

(** The match of [/^(\w+)\[(\d+)\]$/] against one path segment: the array
    name and the digits of the index. *)
Definition match_array_part (part : string) : option (string * string) :=
  let (name, rest) := span is_word_char part in
  match name, rest with
  | String _ _, String "[" rest1 =>
      let (digits, rest2) := span is_digit rest1 in
      match digits, rest2 with
      | String _ _, String "]" EmptyString => Some (name, digits)
      | _, _ => None
      end
  | _, _ => None
  end.

(** One iteration of the loop body of [getNestedValue], before the
    [undefined] test. *)
Definition step_part (current : JSValue) (part : string) : Outcome JSValue :=
  match match_array_part part with
  | Some (arrayName, index) =>
      let! arr := js_get current arrayName in
      Returned (js_opt_index arr (parseInt index))
  | None => Returned (js_opt_get current part)
  end.

Fixpoint walk_parts (parts : list string) (current : JSValue) : Outcome JSValue :=
  match parts with
  | [] => Returned current
  | part :: rest =>
      let! next := step_part current part in
      if is_undefined next then Returned next else walk_parts rest next
  end.

Definition getNestedValue (obj : JSValue) (path : string) : Outcome JSValue :=
  walk_parts (split_on "." path) obj.

Definition extractField (data : JSValue) (field : string)
    (customPath : option string) : Outcome JSValue :=
  if field =? "full" then Returned data
  else if (field =? "custom") && str_truthy customPath
  then getNestedValue data (str_or customPath "")
  else if field =? "markdown" then
    let! v := js_get data "markdown" in Returned (js_or v data)
  else if field =? "html" then
    let! v := js_get data "html" in Returned (js_or v data)
  else if field =? "metadata" then
    let! v := js_get data "metadata" in Returned (js_or v (JObj []))
  else if field =? "results" then
    let! v := js_get data "results" in Returned (js_or v data)
  else if field =? "urls" then
    let! results := js_get data "results" in
    match results with
    | JArr rs =>
        let! urls := omap (fun r => js_get r "url") rs in Returned (JArr urls)
    | _ =>
        match own_prop data "urls" with
        | JArr us => Returned (JArr us)
        | _ =>
            match own_prop data "links" with
            | JArr ls => Returned (JArr ls)
            | _ => Returned data
            end
        end
    end
  else if field =? "first" then
    let! results := js_get data "results" in
    Returned (js_or (js_opt_index results 0) (js_or (own_index data 0) data))
  else if field =? "json" then
    let! v := js_get data "json" in
    Returned (js_or v (js_or (own_prop data "data") data))
  else
    let! v := js_get data field in Returned (js_or v data).

(** *** The named reads of an extraction

    Indexed reads ([arr?.[n]], [data[0]]) are own reads on every value;
    the named ones are within the model when [in_model] says so. *)

Definition step_in_model (current : JSValue) (part : string) : bool :=
  match match_array_part part with
  | Some (arrayName, _) => in_model current arrayName
  | None => in_model current part
  end.

(** Every segment [getNestedValue] reads on its way is within the
    model. *)
Fixpoint walk_in_model (parts : list string) (current : JSValue) : bool :=
  match parts with
  | [] => true
  | part :: rest =>
      step_in_model current part
      && match step_part current part with
         | Returned next => if is_undefined next then true else walk_in_model rest next
         | Thrown _ => true
         end
  end.

(** The named reads of the [switch] of [extractField]. *)
Definition field_in_model (data : JSValue) (field : string) : bool :=
  if field =? "markdown" then in_model data "markdown"
  else if field =? "html" then in_model data "html"
  else if field =? "metadata" then in_model data "metadata"
  else if field =? "results" then in_model data "results"
  else if field =? "urls" then
    in_model data "results"
    && match own_prop data "results" with
       | JArr rs => forallb (fun r => in_model r "url") rs
       | _ => in_model data "urls" && in_model data "links"
       end
  else if field =? "first" then in_model data "results"
  else if field =? "json" then in_model data "json" && in_model data "data"
  else in_model data field.

Definition extraction_in_model (data : JSValue) (field : string)
    (customPath : option string) : bool :=
  if field =? "full" then true
  else if (field =? "custom") && str_truthy customPath
  then walk_in_model (split_on "." (str_or customPath "")) data
  else field_in_model data field.

End Extract.

(* ================================================================= *)
(** ** Workflow nodes, execution state and the executors' monad *)

Module Workflow.

(** A chat message: [{ role, content }]. *)
Record Message : Type := { role : string; content : string }.

(** [WorkflowState]: the [variables] object and the [chatHistory] array. *)
Record WorkflowState : Type := {
  variables : gmap string JSValue;
  chatHistory : list Message
}.

(** [state.variables?.name]: [undefined] when the variable is not set. *)
Definition var (st : WorkflowState) (name : string) : JSValue :=
  default JUndefined (variables st !! name).

(** [state.variables.name = v]. *)
Definition set_var (name : string) (v : JSValue) (st : WorkflowState) : WorkflowState :=
  {| variables := <[name := v]> (variables st); chatHistory := chatHistory st |}.

(** A resolved tool-server configuration (both executors read it as
    [any]; these are the members they read). *)
Record McpServer : Type := {
  srv_name : option string;
  srv_toolName : option string;
  srv_url : string;
  srv_accessToken : option string;
  srv_authToken : option string;
  srv_description : option string;
  srv_schema : JSValue
}.

Record HttpHeader : Type := { h_key : option string; h_value : option string }.

(** [node.data]: the step configuration, one optional member per option
    the three executors read. *)
Record NodeData : Type := {
  nodeName : option string;
  instructions : option string;
  model : option string;
  includeChatHistory : bool;
  outputFormat : option string;
  mcpTools : list McpServer;
  mcpServerIds : list string;
  mcpServers : list McpServer;
  mcpServerId : option string;
  mcpAction : option string;
  scrapeUrl : option string;
  mapUrl : option string;
  crawlUrl : option string;
  searchQuery : option string;
  searchLimit : option Z;
  crawlLimit : option Z;
  useJsonMode : bool;
  outputField : option string;
  customOutputPath : option string;
  httpUrl : option string;
  httpMethod : option string;
  httpHeaders : list HttpHeader;
  httpAuthType : option string;
  httpAuthToken : option string;
  httpBody : option string
}.

Record WorkflowNode : Type := { node_id : string; node_data : NodeData }.

(** Calls that leave the process, in the order they are issued. *)
Inductive Event : Type :=
| EvResolve (ids : list string)
| EvFirecrawl (action : string)
| EvProvider (provider : string)
| EvToolFetch (url : string)
| EvHttpFetch (url : string).

(** An executor run: it reads and may write the state, may throw, and
    leaves a trace of outside calls.  State and trace survive a throw. *)
Definition Exec (A : Type) : Type :=
  WorkflowState -> list Event -> Outcome A * WorkflowState * list Event.

Definition ret {A} (a : A) : Exec A := fun st tr => (Returned a, st, tr).
Definition throw {A} (e : Exn) : Exec A := fun st tr => (Thrown e, st, tr).
Definition lift {A} (o : Outcome A) : Exec A := fun st tr => (o, st, tr).

Definition bind {A B} (m : Exec A) (k : A -> Exec B) : Exec B :=
  fun st tr =>
    match m st tr with
    | (Returned a, st', tr') => k a st' tr'
    | (Thrown e, st', tr') => (Thrown e, st', tr')
    end.

(** [try { m } catch (error) { h error }]. *)
Definition try_catch {A} (m : Exec A) (h : Exn -> Exec A) : Exec A :=
  fun st tr =>
    match m st tr with
    | (Returned a, st', tr') => (Returned a, st', tr')
    | (Thrown e, st', tr') => h e st' tr'
    end.

Definition get_state : Exec WorkflowState := fun st tr => (Returned st, st, tr).

Definition put_var (name : string) (v : JSValue) : Exec unit :=
  fun st tr => (Returned tt, set_var name v st, tr).

(** An awaited outside call whose result is [o]. *)
Definition call {A} (ev : Event) (o : Outcome A) : Exec A :=
  fun st tr => (o, st, (tr ++ [ev])%list).

Notation "'do!' x ':=' m 'in' k" := (bind m (fun x => k))
  (at level 10, x name, m at level 100, k at level 200).

Definition outcome_of {A} (r : Outcome A * WorkflowState * list Event) : Outcome A := r.1.1.
Definition state_of {A} (r : Outcome A * WorkflowState * list Event) : WorkflowState := r.1.2.
Definition trace_of {A} (r : Outcome A * WorkflowState * list Event) : list Event := r.2.

(** The degraded-mode policy, written the same way in both executors:
    [USE_FALLBACK_DATA === 'true' || DEMO_MODE !== 'false']. *)
Definition env_is (env : string -> option string) (name value : string) : bool :=
  match env name with
  | Some v => v =? value
  | None => false
  end.

Definition useFallback (env : string -> option string) : bool :=
  env_is env "USE_FALLBACK_DATA" "true" || negb (env_is env "DEMO_MODE" "false").

End Workflow.
Export Workflow.

(** What both source files import from the rest of the repository and
    from the JavaScript runtime. *)
Record Runtime : Type := {
  env : string -> option string;                       (* process.env *)
  substituteVariables : string -> WorkflowState -> string;
  JSON_parse : string -> option JSValue;               (* None: SyntaxError *)
  JSON_stringify : JSValue -> string                   (* on defined values *)
}.

Definition parse_error : Exn := JsError "Unexpected token in JSON".

Definition js_JSON_parse (R : Runtime) (s : string) : Outcome JSValue :=
  match JSON_parse R s with
  | Some v => Returned v
  | None => Thrown parse_error
  end.

(* ================================================================= *)
(** ** The remote-tool executor ([mcp.ts], lines 71-440) *)

Module MCP.

(** The resolver, with the interface the specification declares for it
    ([resolve(id) -> ToolServerConfig | absent]), and the Firecrawl SDK
    client ([FirecrawlApp], built with the server key). *)
Record Services : Type := {
  resolveMCPServer : string -> option McpServer;
  firecrawl_key : option string;                       (* getServerAPIKeys().firecrawl *)
  firecrawl_scrape : string -> string -> list string -> Outcome JSValue;
  firecrawl_search : string -> string -> Z -> Outcome JSValue;
  firecrawl_map : string -> string -> Outcome JSValue;
  firecrawl_crawl : string -> string -> Z -> Outcome JSValue
}.

(** One element of [results]. *)
Record ResultEntry : Type := {
  server : string;
  tool : option string;
  success : bool;
  entry_error : option string;
  entry_data : option JSValue
}.

Record ToolCallRecord : Type := {
  tc_name : string;
  tc_arguments : JSValue;
  tc_output : JSValue
}.

(** The object [executeMCPNode] returns; [None] is a member that the
    object literal does not have. *)
Record MCPResult : Type := {
  error : option string;
  results : list ResultEntry;
  extractedField : option string;
  output : option JSValue;
  mcpServers_out : list (option string);
  toolCalls : list ToolCallRecord;
  _fallback : bool
}.

Definition is_repo_char (c : ascii) : bool :=
  is_alpha c || is_digit c || Ascii.eqb c "-".

(** A match of [/([a-zA-Z0-9-]+\/[a-zA-Z0-9-]+)/] that starts at the head
    of [s]. *)
Definition repo_match_here (s : string) : option string :=
  let (owner, rest) := span is_repo_char s in
  match owner, rest with
  | String _ _, String "/" rest1 =>
      let (repo, _) := span is_repo_char rest1 in
      match repo with
      | String _ _ => Some (owner +:+ "/" +:+ repo)
      | EmptyString => None
      end
  | _, _ => None
  end.

(** The leftmost match of that expression in [s]. *)
Fixpoint repo_match (s : string) : option string :=
  match repo_match_here s with
  | Some m => Some m
  | None =>
      match s with
      | EmptyString => None
      | String _ s' => repo_match s'
      end
  end.

Definition server_name_lower (serverConfig : McpServer) : Outcome string :=
  match srv_name serverConfig with
  | Some n => Returned (toLowerCase n)
  | None => Thrown (type_error_read JUndefined "toLowerCase")
  end.

Definition executeGenericMCPServer (R : Runtime) (serverConfig : McpServer)
    (state : WorkflowState) : Outcome (string * JSValue) :=
  let input := js_or (var state "input") (var state "lastOutput") in
  let! serverName := server_name_lower serverConfig in
  if includes serverName "deepwiki" || includes serverName "devin" then
    let! inputText :=
      match input with
      | JStr s => Returned s
      | JUndefined => Thrown (type_error_read JUndefined "includes")
      | v => Returned (JSON_stringify R v)
      end in
    let repository :=
      JStr (default "anthropics/anthropic-sdk-python" (repo_match inputText)) in
    let '(tool, params) :=
      if includes inputText "wiki structure" || includes inputText "topics"
      then ("read_wiki_structure", [("repository", repository)])
      else if includes inputText "wiki content" || includes inputText "documentation"
      then ("read_wiki_contents", [("repository", repository)])
      else ("ask_question", [("repository", repository); ("question", JStr inputText)]) in
    Returned
      (tool,
       JObj [("server", JStr "DeepWiki");
             ("tool", JStr tool);
             ("params", JObj params);
             ("note", JStr "DeepWiki MCP execution is not yet implemented. This is a placeholder response.");
             ("input", JStr inputText);
             ("suggestedImplementation",
              JStr ("Call the DeepWiki MCP server API at " +:+ srv_url serverConfig))])
  else
    Thrown (JsError ("MCP server " +:+ String "034" (str_or (srv_name serverConfig) "")
                     +:+ String "034" " execution not yet implemented. Server URL: "
                     +:+ srv_url serverConfig)).

(** [getUrl] and [getSearchQuery], the closures of the Firecrawl branch. *)
Definition getUrl (R : Runtime) (nodeData : NodeData) (state : WorkflowState) : string :=
  let explicitUrl :=
    if str_truthy (scrapeUrl nodeData) then scrapeUrl nodeData
    else if str_truthy (mapUrl nodeData) then mapUrl nodeData
    else crawlUrl nodeData in
  let substituted := substituteVariables R (str_or explicitUrl "") state in
  if str_truthy explicitUrl && negb (substituted =? "") && startsWith substituted "http"
  then substituted
  else
    let lastOutput := var state "lastOutput" in
    match lastOutput with
    | JStr s =>
        if startsWith s "http" then s
        else match var state "input" with
             | JStr i => if startsWith i "http" then i else "https://example.com"
             | _ => "https://example.com"
             end
    | _ =>
        match js_opt_get lastOutput "url" with
        | JStr u =>
            if negb (u =? "") then u
            else match var state "input" with
                 | JStr i => if startsWith i "http" then i else "https://example.com"
                 | _ => "https://example.com"
                 end
        | _ =>
            match var state "input" with
            | JStr i => if startsWith i "http" then i else "https://example.com"
            | _ => "https://example.com"
            end
        end
    end.

Definition getSearchQuery (R : Runtime) (nodeData : NodeData) (state : WorkflowState) : string :=
  let substituted := substituteVariables R (str_or (searchQuery nodeData) "") state in
  if str_truthy (searchQuery nodeData) && negb (substituted =? "")
  then substituted
  else
    let from_input :=
      match var state "input" with
      | JStr i => if negb (startsWith i "http") then i else "latest tech news"
      | _ => "latest tech news"
      end in
    match var state "lastOutput" with
    | JStr s => if negb (startsWith s "http") then s else from_input
    | _ => from_input
    end.

Definition hit (url title description : string) (position : Z) : JSValue :=
  JObj [("url", JStr url); ("title", JStr title);
        ("description", JStr description); ("position", JNum position)].

Definition generateFallbackSearchResults (query : string) : JSValue :=
  let queryLower := toLowerCase query in
  let isStock := includes queryLower "stock" || includes queryLower "yahoo finance"
                 || includes queryLower "ticker" in
  let isAmazon := includes queryLower "amazon" || includes queryLower "product" in
  if isStock then
    JObj [("web", JArr [
      hit "https://finance.yahoo.com/quote/NVDA"
          "NVIDIA Corporation (NVDA) - Yahoo Finance"
          "NVIDIA Corporation (NVDA) stock quote, history, news and other vital information. Current price: $150.25 | Change: +$2.50 (+1.69%) | Market Cap: $3.7T | P/E Ratio: 75.2 | 52 Week High: $180.00 | 52 Week Low: $39.23"
          1;
      hit "https://finance.yahoo.com/news/nvidia-stock-analysis"
          "NVIDIA Stock Analysis and Latest News"
          "Latest news: Strong earnings report, AI chip demand continues to grow. Analysts maintain buy rating with price target of $200."
          2;
      hit "https://finance.yahoo.com/quote/NVDA/key-statistics"
          "NVIDIA Key Statistics"
          "Trading volume: 45.2M | Beta: 1.68 | EPS: $2.00 | Dividend: $0.16 | Ex-dividend date: 2025-03-05"
          3])]
  else if isAmazon then
    JObj [("web", JArr [
      hit "https://www.amazon.com/dp/B08XYZ1234"
          "Logitech MX Master 3S Wireless Mouse - Amazon"
          "Price: $99.99 | Rating: 4.7/5 stars (12,345 reviews) | Features: Ergonomic design, 7,000 DPI sensor, 70-day battery, USB-C charging, multi-device connectivity"
          1;
      hit "https://www.amazon.com/dp/B09ABC5678"
          "Razer DeathAdder V3 Pro Wireless Gaming Mouse"
          "Price: $149.99 | Rating: 4.6/5 stars (8,901 reviews) | Features: 30,000 DPI sensor, 90-hour battery, lightweight 63g design, optical switches"
          2;
      hit "https://www.amazon.com/dp/B07DEF4567"
          "Apple Magic Mouse - Wireless Mouse"
          "Price: $79.00 | Rating: 4.2/5 stars (5,678 reviews) | Features: Multi-touch surface, rechargeable battery, seamless integration with Mac"
          3])]
  else
    JObj [("web", JArr [
      hit "https://techcrunch.com/2025/01/ai-trends-2025"
          "Top AI Trends Shaping 2025: What to Watch"
          "Key trends include multimodal AI models, agentic AI systems, edge AI deployment, and AI safety regulations. Industry experts predict significant growth in AI adoption across sectors."
          1;
      hit "https://www.mckinsey.com/ai-trends-2025"
          "AI Trends 2025: Market Analysis and Predictions"
          "Market research shows AI spending will reach $200B by 2025. Key areas: generative AI tools, AI-powered automation, and AI-enhanced decision-making systems."
          2;
      hit "https://venturebeat.com/ai/ai-trends-2025"
          "The Future of AI: 10 Trends to Watch in 2025"
          "Experts highlight trends in AI governance, responsible AI development, AI-native applications, and the convergence of AI with other emerging technologies."
          3;
      hit "https://www.gartner.com/ai-trends-2025"
          "Gartner AI Trends Report 2025"
          "Gartner identifies key AI trends: AI democratization, AI trust and transparency, AI-augmented development, and the rise of composite AI architectures."
          4;
      hit "https://www.forbes.com/ai-trends-2025"
          "AI in 2025: What Business Leaders Need to Know"
          "Business-focused analysis of AI trends including ROI metrics, AI integration strategies, and the impact of AI on workforce productivity and business models."
          5])].

Definition num_or (o : option Z) (d : Z) : Z :=
  match o with
  | Some n => if (n =? 0)%Z then d else n
  | None => d
  end.

(** The [switch (action)] of the Firecrawl branch: one SDK call. *)
Definition firecrawl_call (R : Runtime) (S : Services) (apiKey : string)
    (nodeData : NodeData) (action : string) : Exec JSValue :=
  do! st := get_state in
  if action =? "scrape" then
    call (EvFirecrawl action)
      (firecrawl_scrape S apiKey (getUrl R nodeData st)
         (if useJsonMode nodeData then ["json"] else ["markdown"; "html"]))
  else if action =? "search" then
    call (EvFirecrawl action)
      (firecrawl_search S apiKey (getSearchQuery R nodeData st)
         (num_or (searchLimit nodeData) 5))
  else if action =? "map" then
    call (EvFirecrawl action) (firecrawl_map S apiKey (getUrl R nodeData st))
  else if action =? "crawl" then
    call (EvFirecrawl action)
      (firecrawl_crawl S apiKey (getUrl R nodeData st)
         (num_or (crawlLimit nodeData) 10))
  else throw (JsError ("Unknown Firecrawl action: " +:+ action)).

(** "Extract specific field based on configuration". *)
Definition project_output (nodeData : NodeData) (result : JSValue) : Outcome JSValue :=
  if str_truthy (outputField nodeData)
     && negb (str_or (outputField nodeData) "" =? "full")
  then Extract.extractField result (str_or (outputField nodeData) "")
         (customOutputPath nodeData)
  else Returned result.

Definition firecrawl_success (R : Runtime) (S : Services) (apiKey : string)
    (nodeData : NodeData) (action : string) : Exec MCPResult :=
  do! result := firecrawl_call R S apiKey nodeData action in
  do! outputData := lift (project_output nodeData result) in
  do! _ := put_var "lastOutput" outputData in
  do! st := get_state in
  ret {| error := None;
         results := [ {| server := "Firecrawl"; tool := Some action; success := true;
                         entry_error := None; entry_data := Some result |} ];
         extractedField := outputField nodeData;
         output := Some outputData;
         mcpServers_out := [Some "Firecrawl"];
         toolCalls :=
           [ {| tc_name := "firecrawl_" +:+ action;
                tc_arguments :=
                  JObj [("action", JStr action);
                        ("url", JStr (getUrl R nodeData st));
                        ("query", JStr (getSearchQuery R nodeData st))];
                tc_output := result |} ];
         _fallback := false |}.

Definition firecrawl_catch (R : Runtime) (nodeData : NodeData) (action : string)
    (error : Exn) : Exec MCPResult :=
  if useFallback (env R) && (action =? "search") then
    do! st := get_state in
    let query := getSearchQuery R nodeData st in
    let fallbackResults := generateFallbackSearchResults query in
    do! outputData := lift (project_output nodeData fallbackResults) in
    do! _ := put_var "lastOutput" outputData in
    ret {| error := None;
           results := [ {| server := "Firecrawl"; tool := Some action; success := false;
                           entry_error := Some "Using fallback data";
                           entry_data := Some fallbackResults |} ];
           extractedField := outputField nodeData;
           output := Some outputData;
           mcpServers_out := [Some "Firecrawl"];
           toolCalls :=
             [ {| tc_name := "firecrawl_" +:+ action;
                  tc_arguments := JObj [("action", JStr action); ("query", JStr query)];
                  tc_output := fallbackResults |} ];
           _fallback := true |}
  else
    throw (JsError ("Firecrawl " +:+ action +:+ " failed: " +:+ exn_message error)).

Definition firecrawl_branch (R : Runtime) (S : Services) (nodeData : NodeData)
    : Exec MCPResult :=
  if str_truthy (firecrawl_key S) then
    let apiKey := str_or (firecrawl_key S) "" in
    let action := str_or (mcpAction nodeData) "scrape" in
    try_catch (firecrawl_success R S apiKey nodeData action)
              (firecrawl_catch R nodeData action)
  else
    throw (JsError ("FIRECRAWL_API_KEY not configured. Add it to your .env.local file:"
                    +:+ String "010" "FIRECRAWL_API_KEY=your_key_here")).

(** The generic named-server branch of the loop body: its own
    [try]/[catch], which pushes one entry onto [results] either way. *)
Definition generic_branch (R : Runtime) (serverConfig : McpServer)
    (results : list ResultEntry) : Exec (list ResultEntry) :=
  let name := str_or (srv_name serverConfig) "" in
  try_catch
    (do! st := get_state in
     do! result := lift (executeGenericMCPServer R serverConfig st) in
     do! _ := put_var "lastOutput" result.2 in
     ret (results ++ [ {| server := name; tool := Some (str_or (Some result.1) "unknown");
                          success := true; entry_error := None;
                          entry_data := Some result.2 |} ])%list)
    (fun error =>
       ret (results ++ [ {| server := name; tool := None; success := false;
                            entry_error := Some (exn_message error);
                            entry_data := None |} ])%list).

(** [for (const serverConfig of mcpServers)] and the final [return]. *)
Fixpoint run_servers (R : Runtime) (S : Services) (nodeData : NodeData)
    (all remaining : list McpServer) (results : list ResultEntry) : Exec MCPResult :=
  match remaining with
  | [] =>
      ret {| error := None; results := results; extractedField := None;
             output := None; mcpServers_out := map srv_name all;
             toolCalls := []; _fallback := false |}
  | serverConfig :: rest =>
      do! lname := lift (server_name_lower serverConfig) in
      if includes lname "firecrawl" then firecrawl_branch R S nodeData
      else
        do! results' := generic_branch R serverConfig results in
        run_servers R S nodeData all rest results'
  end.

Definition no_server_result : MCPResult :=
  {| error := Some "No MCP servers configured or could not resolve server";
     results := []; extractedField := None; output := None;
     mcpServers_out := []; toolCalls := []; _fallback := false |}.

(** "Resolve MCP server configuration" (lines 139-150): the inline list,
    replaced by the resolved server when the node carries a server id that
    resolves. *)
Definition resolved_servers (S : Services) (nodeData : NodeData) : list McpServer :=
  if str_truthy (mcpServerId nodeData) then
    match resolveMCPServer S (str_or (mcpServerId nodeData) "") with
    | Some resolvedServer => [resolvedServer]
    | None => mcpServers nodeData
    end
  else mcpServers nodeData.

Definition executeMCPNode (R : Runtime) (S : Services) (node : WorkflowNode)
    (apiKey : option string) : Exec MCPResult :=
  let nodeData := node_data node in
  do! mcpServers :=
    if str_truthy (mcpServerId nodeData) then
      call (EvResolve [str_or (mcpServerId nodeData) ""])
           (Returned (resolved_servers S nodeData))
    else ret (resolved_servers S nodeData) in
  match mcpServers with
  | [] => ret no_server_result
  | _ :: _ => run_servers R S nodeData mcpServers mcpServers []
  end.

End MCP.

(* ================================================================= *)
(** ** The HTTP executor ([agent.ts], second file, [executeHTTPNode]) *)

Module HTTP.

Record Request : Type := {
  req_url : string;
  req_method : string;
  req_headers : gmap string string;
  req_body : option string
}.

(** A [fetch] response: its status line, its header entries, and what
    [response.json()] and [response.text()] settle to. *)
Record Response : Type := {
  resp_status : Z;
  resp_statusText : string;
  resp_headers : list (string * string);
  resp_json : Outcome JSValue;
  resp_text : Outcome string
}.

(** [response.ok]: the status is in the range 200-299 (Fetch standard). *)
Definition resp_ok (r : Response) : bool :=
  ((200 <=? resp_status r) && (resp_status r <=? 299))%Z.

Record Services : Type := {
  fetch : Request -> Outcome Response;
  btoa : string -> Outcome string
}.

(** The object [executeHTTPNode] returns. *)
Record HTTPResult : Type := {
  status : Z;
  statusText : string;
  headers : gmap string string;
  data : JSValue;
  url : string;
  method : string
}.

(** [result[key] = value] on an object under construction. *)
Fixpoint obj_set (k : string) (v : JSValue) (fs : list (string * JSValue))
    : list (string * JSValue) :=
  match fs with
  | [] => [(k, v)]
  | (k', v') :: fs' => if k' =? k then (k, v) :: fs' else (k', v') :: obj_set k v fs'
  end.

Fixpoint substituteInObject (sub : string -> string) (obj : JSValue) : JSValue :=
  match obj with
  | JStr s => JStr (sub s)
  | JArr l => JArr (map (substituteInObject sub) l)
  | JObj fs =>
      JObj (fold_left
              (fun result kv =>
                 let '(key, value) := kv in
                 obj_set (sub key) (substituteInObject sub value) result)
              fs [])
  | _ => obj
  end.

(** The header loop: entries with a key and a value are assigned in
    order. *)
Definition build_headers (R : Runtime) (state : WorkflowState)
    (hs : list HttpHeader) : gmap string string :=
  fold_left
    (fun headers h =>
       if str_truthy (h_key h) && str_truthy (h_value h)
       then <[str_or (h_key h) "" := substituteVariables R (str_or (h_value h) "") state]> headers
       else headers)
    hs ∅.

(** "Handle environment variable substitution": a token of the shape
    [${NAME}] is replaced by [process.env.NAME] when that is set. *)
Definition resolve_env_token (R : Runtime) (authToken : string) : string :=
  if startsWith authToken "${" && endsWith authToken "}" then
    let envVar := substring 2 (String.length authToken - 3) authToken in
    str_or (env R envVar) authToken
  else authToken.

Definition add_auth (R : Runtime) (S : Services) (state : WorkflowState)
    (nodeData : NodeData) (headers : gmap string string)
    : Outcome (gmap string string) :=
  let authType := str_or (httpAuthType nodeData) "" in
  let authToken :=
    resolve_env_token R (substituteVariables R (str_or (httpAuthToken nodeData) "") state) in
  if (authType =? "bearer") && str_truthy (httpAuthToken nodeData) then
    Returned (<["Authorization" := "Bearer " +:+ authToken]> headers)
  else if (authType =? "api-key") && str_truthy (httpAuthToken nodeData) then
    Returned (<["X-API-Key" := authToken]> headers)
  else if (authType =? "basic") && str_truthy (httpAuthToken nodeData) then
    let! encoded := btoa S authToken in
    Returned (<["Authorization" := "Basic " +:+ encoded]> headers)
  else Returned headers.

Definition build_body (R : Runtime) (state : WorkflowState) (nodeData : NodeData)
    (method : string) : option string :=
  if ((method =? "POST") || (method =? "PUT") || (method =? "PATCH"))
     && str_truthy (httpBody nodeData)
  then
    let bodyStr := substituteVariables R (str_or (httpBody nodeData) "") state in
    match JSON_parse R bodyStr with
    | Some parsed =>
        Some (JSON_stringify R
                (substituteInObject (fun s => substituteVariables R s state) parsed))
    | None => Some bodyStr
    end
  else None.

(** [await response.json().catch(() => response.text())]. *)
Definition read_body (response : Response) : Outcome JSValue :=
  match resp_json response with
  | Returned v => Returned v
  | Thrown _ => let! t := resp_text response in Returned (JStr t)
  end.

Definition executeHTTPNode (R : Runtime) (S : Services) (node : WorkflowNode)
    : Exec HTTPResult :=
  let nodeData := node_data node in
  try_catch
    (do! state := get_state in
     let url := substituteVariables R (str_or (httpUrl nodeData) "") state in
     let method := str_or (httpMethod nodeData) "GET" in
     let headers0 := build_headers R state (httpHeaders nodeData) in
     do! headers := lift (add_auth R S state nodeData headers0) in
     let body := build_body R state nodeData method in
     do! response :=
       call (EvHttpFetch url)
            (fetch S {| req_url := url; req_method := method;
                        req_headers := headers; req_body := body |}) in
     do! responseData := lift (read_body response) in
     if negb (resp_ok response) then
       throw (JsError ("HTTP " +:+ dec_Z (resp_status response) +:+ ": "
                       +:+ resp_statusText response))
     else
       ret {| status := resp_status response;
              statusText := resp_statusText response;
              headers := fold_left (fun o kv => <[kv.1 := kv.2]> o)
                                   (resp_headers response) ∅;
              data := responseData;
              url := url;
              method := method |})
    (fun error => throw (JsError ("HTTP request failed: " +:+ exn_message error))).

End HTTP.

(* ================================================================= *)
(** ** The agent executor ([agent.ts], first file, [executeAgentNode]) *)

Module Agent.

(** The [apiKeys] argument. *)
Record ApiKeys : Type := {
  anthropic : option string;
  groq : option string;
  openai : option string;
  firecrawl : option string;
  gemini : option string;
  aimlapi : option string
}.

(** [LLMUsage]: every member is optional. *)
Record LLMUsage : Type := {
  input_tokens : option Z;
  output_tokens : option Z;
  total_tokens : option Z;
  prompt_tokens : option Z;
  completion_tokens : option Z
}.

Definition zero_usage : LLMUsage :=
  {| input_tokens := Some 0%Z; output_tokens := Some 0%Z; total_tokens := Some 0%Z;
     prompt_tokens := Some 0%Z; completion_tokens := Some 0%Z |}.

(** The object [{}] read as a usage record. *)
Definition empty_usage : LLMUsage :=
  {| input_tokens := None; output_tokens := None; total_tokens := None;
     prompt_tokens := None; completion_tokens := None |}.

(** [x || 0] on an optional count. *)
Definition tok (o : option Z) : Z := MCP.num_or o 0.

(** [response.usage || {}]. *)
Definition usage_or_empty (o : option LLMUsage) : LLMUsage := default empty_usage o.

(** *** What the provider SDKs exchange *)

Record ContentBlock : Type := {
  b_type : string;
  b_text : string;
  b_name : JSValue;
  b_server_name : option string;
  b_input : JSValue;
  b_id : JSValue;
  b_is_error : bool;
  b_content : JSValue
}.

Record AnthropicResponse : Type := {
  a_content : list ContentBlock;
  a_usage : option LLMUsage
}.

Record McpServerDecl : Type := {
  decl_url : string;
  decl_name : option string;
  decl_authorization_token : option string
}.

Record ToolCall : Type := {
  call_id : string;
  fn_name : string;
  fn_arguments : string
}.

(** [response.choices[i].message]. *)
Record ChoiceMessage : Type := {
  m_content : option string;
  m_tool_calls : list ToolCall
}.

Inductive ChatMsg : Type :=
| PlainMsg (m : Message)
| AssistantMsg (m : ChoiceMessage)
| ToolMsg (tool_call_id : string) (tool_content : string).

Record ToolDecl : Type := {
  td_name : string;
  td_description : string;
  td_properties : JSValue;
  td_required : JSValue
}.

Record ChatRequest : Type := {
  cr_model : string;
  cr_messages : list ChatMsg;
  cr_tools : list ToolDecl;
  cr_max_tokens : option Z
}.

Record ChatCompletion : Type := {
  choices : list ChoiceMessage;
  cc_usage : option LLMUsage
}.

Record InvokeResult : Type := {
  inv_content : string;
  inv_usage : option LLMUsage
}.

Record GroqTool : Type := { server_label : string; server_url : string }.

Record OutputItem : Type := {
  o_type : string;
  o_id : JSValue;
  o_name : JSValue;
  o_input : JSValue
}.

Record GroqResponse : Type := {
  output_text : option string;
  gr_usage : option LLMUsage;
  gr_output : list OutputItem
}.

Record GeminiUsage : Type := {
  promptTokenCount : option Z;
  candidatesTokenCount : option Z;
  totalTokenCount : option Z
}.

Record GeminiResponse : Type := {
  gem_text : Outcome string;
  usageMetadata : option GeminiUsage
}.

(** Which canned text the failure fallback picks, with the value it
    interpolates. *)
Inductive FallbackTemplate : Type :=
| TplAnalysisTicker (ticker : JSValue)
| TplAnalysisProduct (product : JSValue)
| TplAnalysisTopic (researchTopic : JSValue)
| TplAnalysisGeneric
| TplSummary
| TplReport (stockName : JSValue)
| TplRecommend (productName : JSValue)
| TplExtract
| TplDefault.

(** The resolver module, with the interface the specification declares
    for it ([resolveMany(ids[]) -> ToolServerConfig[]] and the pure
    [migrate]); the provider SDK clients (the first argument of each is
    the API key the client is built with); the tool-server POST of the
    OpenAI tool loop ([fetch] followed by [json()]); the clock; and the
    text of the canned template literals of lines 531-777. *)
Record Services : Type := {
  migrateMCPData : NodeData -> NodeData;
  resolveMCPServers : list string -> list McpServer;
  anthropic_beta_create :
    string -> string -> list Message -> list McpServerDecl -> Outcome AnthropicResponse;
  anthropic_create : string -> string -> list Message -> Outcome AnthropicResponse;
  openai_chat_create : string -> option string -> ChatRequest -> Outcome ChatCompletion;
  chat_invoke : string -> option string -> string -> list Message -> Outcome InvokeResult;
  groq_responses_create :
    string -> string -> string -> list GroqTool -> Outcome GroqResponse;
  gemini_generateContent : string -> string -> string -> Outcome GeminiResponse;
  tool_post : string -> option string -> string -> Outcome JSValue;
  date_now : Z;
  fallback_text : FallbackTemplate -> string
}.

(** What a provider branch leaves in the locals [responseText], [usage]
    and [toolCalls]. *)
Record Completion : Type := {
  responseText : string;
  usage : LLMUsage;
  toolCalls : list JSValue
}.

(** The object [executeAgentNode] returns. *)
Record AgentResult : Type := {
  __agentValue : JSValue;
  __agentToolCalls : list JSValue;
  __chatHistoryUpdates : list Message;
  __variableUpdates : gmap string JSValue;
  _fallback : bool
}.

(** [s.replace(pat, rep)] with a string pattern: the first occurrence. *)
Definition replace_first (s pat rep : string) : string :=
  match index 0 pat s with
  | Some i =>
      substring 0 i s +:+ rep
      +:+ substring (i + String.length pat) (String.length s - (i + String.length pat)) s
  | None => s
  end.

Definition name_has_arcade (mcp : McpServer) : bool :=
  match srv_name mcp with
  | Some n => includes (toLowerCase n) "arcade"
  | None => false
  end.

(** [mcp.name || mcp.toolName || 'unknown_tool']. *)
Definition tool_label (mcp : McpServer) : string :=
  str_or (srv_name mcp) (str_or (srv_toolName mcp) "unknown_tool").

(** [m.name || m.toolName], possibly [undefined]. *)
Definition tool_key (mcp : McpServer) : option string :=
  if str_truthy (srv_name mcp) then srv_name mcp else srv_toolName mcp.

Fixpoint emap {A B} (f : A -> Exec B) (l : list A) : Exec (list B) :=
  match l with
  | [] => ret []
  | a :: l' =>
      do! b := f a in
      do! bs := emap f l' in
      ret (b :: bs)
  end.

(** *** Provider A: Anthropic (lines 123-202) *)

Definition anthropic_mcp_servers (keys : ApiKeys) (realMcpTools : list McpServer)
    : list McpServerDecl :=
  map (fun mcp =>
         {| decl_url :=
              if includes (srv_url mcp) "{FIRECRAWL_API_KEY}"
              then replace_first (srv_url mcp) "{FIRECRAWL_API_KEY}"
                                 (str_or (firecrawl keys) "")
              else srv_url mcp;
            decl_name := srv_name mcp;
            decl_authorization_token := srv_accessToken mcp |})
      realMcpTools.

Definition is_tool_use (item : ContentBlock) : bool :=
  (b_type item =? "tool_use") || (b_type item =? "mcp_tool_use").

Definition is_tool_result (item : ContentBlock) : bool :=
  (b_type item =? "tool_result") || (b_type item =? "mcp_tool_result").

Definition anthropic_tool_output (result : ContentBlock) : JSValue :=
  if b_is_error result then JObj [("error", b_content result)]
  else match b_content result with
       | JArr items => js_or (js_opt_get (own_index (JArr items) 0) "text") (JArr items)
       | c => c
       end.

(** [toolUses.map((item, idx) => ...)], pairing with [toolResults[idx]]. *)
Fixpoint pair_tool_calls (toolUses toolResults : list ContentBlock) : list JSValue :=
  match toolUses with
  | [] => []
  | item :: uses' =>
      let toolCall :=
        [("type", JStr (b_type item)); ("name", b_name item);
         ("server_name", JStr (str_or (b_server_name item) "MCP"));
         ("arguments", b_input item); ("tool_use_id", b_id item)] in
      match toolResults with
      | result :: results' =>
          JObj (toolCall ++ [("output", anthropic_tool_output result)])%list
          :: pair_tool_calls uses' results'
      | [] => JObj toolCall :: pair_tool_calls uses' []
      end
  end.

Definition anthropic_branch (S : Services) (keys : ApiKeys) (key modelName : string)
    (messages : list Message) (mcpTools : list McpServer) : Exec Completion :=
  match mcpTools with
  | _ :: _ =>
      let realMcpTools := filter (fun mcp => negb (name_has_arcade mcp)) mcpTools in
      do! response :=
        call (EvProvider "anthropic")
             (anthropic_beta_create S key modelName messages
                (anthropic_mcp_servers keys realMcpTools)) in
      let toolUses := filter is_tool_use (a_content response) in
      let toolResults := filter is_tool_result (a_content response) in
      let textBlocks := filter (fun item => b_type item =? "text") (a_content response) in
      ret {| responseText := join (String "010" "") (map b_text textBlocks);
             usage := usage_or_empty (a_usage response);
             toolCalls := pair_tool_calls toolUses toolResults |}
  | [] =>
      do! response :=
        call (EvProvider "anthropic") (anthropic_create S key modelName messages) in
      do! text :=
        lift (match a_content response with
              | first :: _ =>
                  Returned (if b_type first =? "text" then b_text first else "")
              | [] => Thrown (type_error_read JUndefined "type")
              end) in
      ret {| responseText := text;
             usage := usage_or_empty (a_usage response);
             toolCalls := [] |}
  end.

(** *** Provider B: OpenAI (lines 203-327) *)

Definition openai_tools (mcpTools : list McpServer) : list ToolDecl :=
  map (fun mcp =>
         {| td_name := tool_label mcp;
            td_description := str_or (srv_description mcp) "No description";
            td_properties := js_or (js_opt_get (srv_schema mcp) "properties") (JObj []);
            td_required := js_or (js_opt_get (srv_schema mcp) "required") (JArr []) |})
      mcpTools.

(** [response.choices[0].message]. *)
Definition first_choice (response : ChatCompletion) : Outcome ChoiceMessage :=
  match choices response with
  | m :: _ => Returned m
  | [] => Thrown (type_error_read JUndefined "message")
  end.

(** One element of the [Promise.all] of lines 239-286: the tool call with
    its own [try]/[catch], so it always yields a tool-role message. *)
Definition run_tool_call (R : Runtime) (S : Services) (mcpTools : list McpServer)
    (tc : ToolCall) : Exec ChatMsg :=
  try_catch
    (match find (fun m => match tool_key m with
                          | Some k => k =? fn_name tc
                          | None => false
                          end) mcpTools with
     | None => throw (JsError ("MCP server not found for tool: " +:+ fn_name tc))
     | Some mcpServer =>
         do! args := lift (js_JSON_parse R (fn_arguments tc)) in
         do! result :=
           call (EvToolFetch (srv_url mcpServer))
                (tool_post S (srv_url mcpServer)
                   (if str_truthy (srv_authToken mcpServer)
                    then srv_authToken mcpServer else None)
                   (JSON_stringify R
                      (JObj [("jsonrpc", JStr "2.0"); ("id", JNum (date_now S));
                             ("method", JStr "tools/call");
                             ("params", JObj [("name", JStr (fn_name tc));
                                              ("arguments", args)])]))) in
         do! payload := lift (js_get result "result") in
         ret (ToolMsg (call_id tc) (JSON_stringify R (js_or payload result)))
     end)
    (fun error =>
       ret (ToolMsg (call_id tc)
              (JSON_stringify R (JObj [("error", JStr (exn_message error))])))).

(** Lines 299-304: the usage of the first call spread, with the three
    counters replaced by sums over both calls. *)
Definition add_usage (usage : LLMUsage) (finalUsage : option LLMUsage) : LLMUsage :=
  let final := usage_or_empty finalUsage in
  {| input_tokens := input_tokens usage;
     output_tokens := output_tokens usage;
     total_tokens := Some (tok (total_tokens usage) + tok (total_tokens final))%Z;
     prompt_tokens := Some (tok (prompt_tokens usage) + tok (prompt_tokens final))%Z;
     completion_tokens :=
       Some (tok (completion_tokens usage) + tok (completion_tokens final))%Z |}.

Definition tool_msg_content (m : ChatMsg) : string :=
  match m with
  | ToolMsg _ c => c
  | _ => ""
  end.

(** Lines 307-312: the tool calls with their parsed arguments and
    outputs. *)
Fixpoint track_tool_calls (R : Runtime) (calls : list ToolCall)
    (toolResults : list ChatMsg) : Outcome (list JSValue) :=
  match calls with
  | [] => Returned []
  | tc :: calls' =>
      let! args := js_JSON_parse R (fn_arguments tc) in
      let! out :=
        match toolResults with
        | r :: _ => js_JSON_parse R (tool_msg_content r)
        | [] => Returned JNull
        end in
      let! rest := track_tool_calls R calls' (tl toolResults) in
      Returned (JObj [("id", JStr (call_id tc)); ("name", JStr (fn_name tc));
                      ("arguments", args); ("output", out)] :: rest)
  end.

Definition first_request (modelName : string) (messages : list Message)
    (mcpTools : list McpServer) : ChatRequest :=
  {| cr_model := modelName; cr_messages := map PlainMsg messages;
     cr_tools := openai_tools mcpTools; cr_max_tokens := None |}.

Definition second_request (modelName : string) (messages : list Message)
    (message : ChoiceMessage) (toolResults : list ChatMsg) : ChatRequest :=
  {| cr_model := modelName;
     cr_messages := (map PlainMsg messages ++ [AssistantMsg message] ++ toolResults)%list;
     cr_tools := []; cr_max_tokens := None |}.

(** Lines 238-304: the tool calls are executed, the second completion is
    requested with their results, and [responseText] and [usage] are
    assigned.  The result is those two locals and [toolResults]. *)
Definition openai_tool_round (R : Runtime) (S : Services) (key modelName : string)
    (messages : list Message) (mcpTools : list McpServer)
    (message : ChoiceMessage) (usage1 : LLMUsage)
    : Exec (string * LLMUsage * list ChatMsg) :=
  do! toolResults := emap (run_tool_call R S mcpTools) (m_tool_calls message) in
  do! finalResponse :=
    call (EvProvider "openai")
         (openai_chat_create S key None
            (second_request modelName messages message toolResults)) in
  do! finalMessage := lift (first_choice finalResponse) in
  ret (str_or (m_content finalMessage) "",
       add_usage usage1 (cc_usage finalResponse),
       toolResults).

Definition openai_branch (R : Runtime) (S : Services) (key modelName : string)
    (messages : list Message) (mcpTools : list McpServer) : Exec Completion :=
  match mcpTools with
  | _ :: _ =>
      do! response :=
        call (EvProvider "openai")
             (openai_chat_create S key None (first_request modelName messages mcpTools)) in
      do! message := lift (first_choice response) in
      let usage1 := usage_or_empty (cc_usage response) in
      match m_tool_calls message with
      | _ :: _ =>
          do! round := openai_tool_round R S key modelName messages mcpTools
                         message usage1 in
          let '(text, usage2, toolResults) := round in
          do! tracked := lift (track_tool_calls R (m_tool_calls message) toolResults) in
          ret {| responseText := text; usage := usage2; toolCalls := tracked |}
      | [] =>
          ret {| responseText := str_or (m_content message) "";
                 usage := usage1; toolCalls := [] |}
      end
  | [] =>
      do! response :=
        call (EvProvider "openai") (chat_invoke S key None modelName messages) in
      ret {| responseText := inv_content response;
             usage := usage_or_empty (inv_usage response);
             toolCalls := [] |}
  end.

(** *** Provider C: Groq (lines 328-380) *)

Definition groq_base : string := "https://api.groq.com/openai/v1".

Definition last_content (messages : list Message) : string :=
  match last messages with
  | Some m => content m
  | None => ""
  end.

Definition groq_branch (S : Services) (key modelName : string)
    (messages : list Message) (mcpTools : list McpServer) : Exec Completion :=
  match mcpTools with
  | _ :: _ =>
      let tools :=
        map (fun mcp => {| server_label := tool_label mcp; server_url := srv_url mcp |})
            mcpTools in
      do! response :=
        call (EvProvider "groq")
             (groq_responses_create S key modelName (last_content messages) tools) in
      ret {| responseText := str_or (output_text response) "";
             usage := usage_or_empty (gr_usage response);
             toolCalls :=
               map (fun o => JObj [("id", o_id o); ("name", o_name o);
                                   ("arguments", o_input o); ("output", JNull)])
                   (filter (fun o => o_type o =? "tool_use") (gr_output response)) |}
  | [] =>
      do! response :=
        call (EvProvider "groq") (chat_invoke S key (Some groq_base) modelName messages) in
      ret {| responseText := inv_content response;
             usage := usage_or_empty (inv_usage response);
             toolCalls := [] |}
  end.

(** *** Provider D: Gemini (lines 381-431) *)

Definition geminiModelMap (name : string) : option string :=
  if name =? "gemini-1.5-flash" then Some "gemini-2.5-flash"
  else if name =? "gemini-1.5-pro" then Some "gemini-2.5-flash"
  else if name =? "gemini-2.5-flash" then Some "gemini-2.5-flash"
  else None.

Definition gemini_model (modelName : string) : string :=
  let stripped := replace_first modelName "gemini/" "" in
  replace_first (default stripped (geminiModelMap stripped)) "models/" "".

Definition gemini_prompt (messages : list Message) : string :=
  join (String "010" (String "010" ""))
       (map (fun msg =>
               if role msg =? "user" then content msg
               else if role msg =? "assistant" then "Assistant: " +:+ content msg
               else content msg)
            messages).

Definition gemini_usage (meta : option GeminiUsage) : LLMUsage :=
  let count (f : GeminiUsage -> option Z) : option Z :=
    Some (tok (match meta with Some m => f m | None => None end)) in
  {| input_tokens := count promptTokenCount;
     output_tokens := count candidatesTokenCount;
     total_tokens := count totalTokenCount;
     prompt_tokens := count promptTokenCount;
     completion_tokens := count candidatesTokenCount |}.

Definition gemini_branch (S : Services) (key modelName : string)
    (messages : list Message) : Exec Completion :=
  do! response :=
    call (EvProvider "gemini")
         (gemini_generateContent S key (gemini_model modelName) (gemini_prompt messages)) in
  do! text := lift (gem_text response) in
  ret {| responseText := text;
         usage := gemini_usage (usageMetadata response);
         toolCalls := [] |}.

(** *** Provider E: AI/ML API (lines 432-475) *)

Definition aimlapi_base : string := "https://api.aimlapi.com/v1".

Definition modelMap (name : string) : option string :=
  if name =? "llama-3.1-70b" then Some "meta-llama/Meta-Llama-3.1-70B-Instruct-Turbo"
  else if name =? "llama-3.1-8b" then Some "meta-llama/Meta-Llama-3.1-8B-Instruct-Turbo"
  else if name =? "flux-1.1-pro" then Some "black-forest-labs/FLUX.1.1-pro"
  else None.

Definition aimlapi_model (modelName : string) : string :=
  let stripped := replace_first modelName "aimlapi/" "" in
  default stripped (modelMap stripped).

Definition aimlapi_usage (u : option LLMUsage) : LLMUsage :=
  let u' := usage_or_empty u in
  {| input_tokens := Some (tok (prompt_tokens u'));
     output_tokens := Some (tok (completion_tokens u'));
     total_tokens := Some (tok (total_tokens u'));
     prompt_tokens := Some (tok (prompt_tokens u'));
     completion_tokens := Some (tok (completion_tokens u')) |}.

Definition aimlapi_branch (S : Services) (key modelName : string)
    (messages : list Message) : Exec Completion :=
  let formattedMessages :=
    map (fun msg =>
           PlainMsg {| role := if role msg =? "user" then "user" else "assistant";
                       content := content msg |})
        messages in
  do! response :=
    call (EvProvider "aimlapi")
         (openai_chat_create S key (Some aimlapi_base)
            {| cr_model := aimlapi_model modelName; cr_messages := formattedMessages;
               cr_tools := []; cr_max_tokens := Some 4096%Z |}) in
  ret {| responseText :=
           match choices response with
           | m :: _ => str_or (m_content m) ""
           | [] => ""
           end;
         usage := aimlapi_usage (cc_usage response);
         toolCalls := [] |}.

(** *** Model string and provider dispatch (lines 86-98, 123-478) *)

Definition default_model : string := "anthropic/claude-sonnet-4-5-20250929".

(** [(provider, modelName)]: split at the first slash, or [openai]. *)
Definition parse_model (modelString : string) : string * string :=
  match index 0 "/" modelString with
  | Some firstSlashIndex =>
      (substring 0 firstSlashIndex modelString,
       substring (firstSlashIndex + 1)
                 (String.length modelString - (firstSlashIndex + 1)) modelString)
  | None => ("openai", modelString)
  end.

Definition no_key_message (provider : string) : string :=
  "No API key available for provider: " +:+ provider.

Definition dispatch (R : Runtime) (S : Services) (keys : ApiKeys)
    (provider modelName : string) (messages : list Message)
    (mcpTools : list McpServer) : Exec Completion :=
  if (provider =? "anthropic") && str_truthy (anthropic keys) then
    anthropic_branch S keys (str_or (anthropic keys) "") modelName messages mcpTools
  else if (provider =? "openai") && str_truthy (openai keys) then
    openai_branch R S (str_or (openai keys) "") modelName messages mcpTools
  else if (provider =? "groq") && str_truthy (groq keys) then
    groq_branch S (str_or (groq keys) "") modelName messages mcpTools
  else if (provider =? "gemini") && str_truthy (gemini keys) then
    gemini_branch S (str_or (gemini keys) "") modelName messages
  else if (provider =? "aimlapi") && str_truthy (aimlapi keys) then
    aimlapi_branch S (str_or (aimlapi keys) "") modelName messages
  else throw (JsError (no_key_message provider)).

(** *** The mock-response short-circuit (lines 40-72) *)

(** [typeof v === 'object']. *)
Definition is_object (v : JSValue) : bool :=
  match v with
  | JNull | JArr _ | JObj _ => true
  | _ => false
  end.

(** [mockConfig[nodeKey] ?? (nodeName ? mockConfig[nodeName] : undefined)
     ?? mockConfig.default ?? mockOutput]. *)
Definition mock_lookup (mockConfig : JSValue) (node : WorkflowNode) : JSValue :=
  js_coalesce
    (js_coalesce
       (js_coalesce
          (own_prop mockConfig (node_id node))
          (if str_truthy (nodeName (node_data node))
           then own_prop mockConfig (str_or (nodeName (node_data node)) "")
           else JUndefined))
       (own_prop mockConfig "default"))
    mockConfig.

(** The value of [mockOutput] when the short-circuit is taken; [None]
    when execution goes on to the provider. *)
Definition mock_output (R : Runtime) (node : WorkflowNode) : option JSValue :=
  if str_truthy (env R "MOCK_AGENT_RESPONSE") then
    let raw := str_or (env R "MOCK_AGENT_RESPONSE") "" in
    let mockConfig := default (JStr raw) (JSON_parse R raw) in
    let mockOutput :=
      if truthy mockConfig && is_object mockConfig
      then mock_lookup mockConfig node
      else mockConfig in
    if is_undefined mockOutput then None else Some mockOutput
  else None.

(** [typeof v === 'string' ? v : JSON.stringify(v)]. *)
Definition text_of (R : Runtime) (v : JSValue) : string :=
  match v with
  | JStr s => s
  | _ => JSON_stringify R v
  end.

(** The proposed chat-history updates: a user turn and an assistant turn
    when the step opts into chat history, nothing otherwise. *)
Definition chat_updates (data : NodeData) (assistantText : string) : list Message :=
  if includeChatHistory data then
    [ {| role := "user"; content := str_or (instructions data) "" |};
      {| role := "assistant"; content := assistantText |} ]
  else [].

Definition agent_result (value : JSValue) (calls : list JSValue)
    (updates : list Message) (fallback : bool) : AgentResult :=
  {| __agentValue := value;
     __agentToolCalls := calls;
     __chatHistoryUpdates := updates;
     __variableUpdates := {[ "lastOutput" := value ]};
     _fallback := fallback |}.

(** Lines 488-495. *)
Definition shape_output (R : Runtime) (data : NodeData) (text : string) : JSValue :=
  if str_or (outputFormat data) "" =? "JSON"
  then default (JStr text) (JSON_parse R text)
  else JStr text.

(** Lines 78-84. *)
Definition build_messages (data : NodeData) (state : WorkflowState)
    (contextualPrompt : string) : list Message :=
  let user := {| role := "user"; content := contextualPrompt |} in
  if includeChatHistory data && (0 <? length (chatHistory state))%nat
  then (chatHistory state ++ [user])%list
  else [user].

(** The [try] block of [executeAgentNode]. *)
Definition agent_try (R : Runtime) (S : Services) (node : WorkflowNode)
    (apiKeys : option ApiKeys) : Exec AgentResult :=
  let data := node_data node in
  do! state := get_state in
  let prompt :=
    substituteVariables R (str_or (instructions data) "Process the input") state in
  let migratedData := migrateMCPData S data in
  do! tools :=
    match mcpServerIds migratedData with
    | _ :: _ =>
        call (EvResolve (mcpServerIds migratedData))
             (Returned (resolveMCPServers S (mcpServerIds migratedData)))
    | [] => ret (mcpTools migratedData)
    end in
  match apiKeys with
  | None => throw (JsError "API keys are required for server-side execution")
  | Some keys =>
      match mock_output R node with
      | Some mockOutput =>
          ret (agent_result mockOutput [] (chat_updates data (text_of R mockOutput)) false)
      | None =>
          let messages := build_messages data state prompt in
          let '(provider, modelName) := parse_model (str_or (model data) default_model) in
          do! completion := dispatch R S keys provider modelName messages tools in
          let output := shape_output R data (responseText completion) in
          ret (agent_result output (toolCalls completion)
                 (chat_updates data (responseText completion)) false)
      end
  end.

(** *** The [catch] block (lines 504-809) *)

Definition pick_fallback (node : WorkflowNode) (state : WorkflowState) : FallbackTemplate :=
  let data := node_data node in
  let name := toLowerCase (str_or (nodeName data) (node_id node)) in
  let input := js_or (var state "input") (JObj []) in
  let hint (k : string) : JSValue :=
    if is_object input
    then js_or (own_prop input k) (js_opt_get (own_prop input "input") k)
    else JNull in
  let ticker := hint "ticker" in
  let product := hint "product" in
  let researchTopic := hint "research_topic" in
  if includes name "gemini"
     || (includes name "analysis" && negb (includes name "recommend")) then
    if truthy ticker then TplAnalysisTicker ticker
    else if truthy product then TplAnalysisProduct product
    else if truthy researchTopic then TplAnalysisTopic researchTopic
    else TplAnalysisGeneric
  else if includes name "summary" || includes name "summarize"
          || (includes name "aimlapi" && includes name "summary") then TplSummary
  else if includes name "report"
          || (includes name "write" && includes name "report") then
    TplReport (js_or ticker (JStr "Stock"))
  else if includes name "recommend" || includes name "analyze-recommend" then
    TplRecommend (js_or product (JStr "Product"))
  else if includes name "extract" || includes name "extract-product" then TplExtract
  else TplDefault.

Definition missing_key_text : string :=
  "Missing API key. Please add your LLM provider key in Settings.".

Definition rate_limited_text : string :=
  "Rate limited. Please wait a moment and try again.".

Definition no_key_configured_text : string :=
  "No API key configured. Please add a Gemini, AI/ML API, Anthropic, OpenAI, or Groq API key in your .env.local file.".

Definition agent_catch (R : Runtime) (S : Services) (node : WorkflowNode)
    (error : Exn) : Exec AgentResult :=
  let data := node_data node in
  let errorMessage := exn_message error in
  if useFallback (env R) then
    do! state := get_state in
    let fallbackResponse := fallback_text S (pick_fallback node state) in
    ret (agent_result (JStr fallbackResponse) []
           (chat_updates data fallbackResponse) true)
  else if includes errorMessage "API key" || includes errorMessage "api_key" then
    throw (JsError missing_key_text)
  else if includes errorMessage "rate limit" || includes errorMessage "429" then
    throw (JsError rate_limited_text)
  else if includes errorMessage "No API key available" then
    throw (JsError no_key_configured_text)
  else throw (JsError ("Agent execution failed: " +:+ errorMessage)).

Definition executeAgentNode (R : Runtime) (S : Services) (node : WorkflowNode)
    (apiKeys : option ApiKeys) : Exec AgentResult :=
  try_catch (agent_try R S node apiKeys) (agent_catch R S node).

End Agent.

(* ================================================================= *)
(** ** A concrete runtime, for running the executors on examples *)

Module Demo.

Definition quote : ascii := "034".

Definition quoted (s : string) : string := String quote (s +:+ String quote "").

Definition is_ws (c : ascii) : bool :=
  Ascii.eqb c " " || Ascii.eqb c "010" || Ascii.eqb c "013" || Ascii.eqb c "009".

Fixpoint skip_ws (s : string) : string :=
  match s with
  | String c s' => if is_ws c then skip_ws s' else s
  | EmptyString => EmptyString
  end.

Definition drop (n : nat) (s : string) : string :=
  substring n (String.length s - n) s.

(** A string literal without escapes, read from just after its opening
    quote. *)
Fixpoint read_string (s : string) : option (string * string) :=
  match s with
  | EmptyString => None
  | String c s' =>
      if Ascii.eqb c quote then Some (EmptyString, s')
      else if Ascii.eqb c "\" then None
      else match read_string s' with
           | Some (a, r) => Some (String c a, r)
           | None => None
           end
  end.

Fixpoint parse_items (pv : string -> option (JSValue * string)) (n : nat)
    (s : string) : option (list JSValue * string) :=
  match n with
  | O => None
  | S n' =>
      match pv s with
      | Some (v, r) =>
          match skip_ws r with
          | String "," r' =>
              match parse_items pv n' r' with
              | Some (vs, r'') => Some (v :: vs, r'')
              | None => None
              end
          | String "]" r' => Some ([v], r')
          | _ => None
          end
      | None => None
      end
  end.

Fixpoint parse_members (pv : string -> option (JSValue * string)) (n : nat)
    (s : string) : option (list (string * JSValue) * string) :=
  match n with
  | O => None
  | S n' =>
      match skip_ws s with
      | String q r0 =>
          if Ascii.eqb q quote then
            match read_string r0 with
            | Some (k, r1) =>
                match skip_ws r1 with
                | String ":" r2 =>
                    match pv r2 with
                    | Some (v, r3) =>
                        match skip_ws r3 with
                        | String "," r4 =>
                            match parse_members pv n' r4 with
                            | Some (ms, r5) =>
                                match assoc k ms with
                                | Some later =>
                                    Some ((k, later)
                                          :: filter (fun kv => negb (kv.1 =? k)) ms, r5)
                                | None => Some ((k, v) :: ms, r5)
                                end
                            | None => None
                            end
                        | String "}" r4 => Some ([(k, v)], r4)
                        | _ => None
                        end
                    | None => None
                    end
                | _ => None
                end
            | None => None
            end
          else None
      | EmptyString => None
      end
  end.

(** A parser for the JSON subset of integers, escape-free strings,
    literals, arrays and objects. *)
Fixpoint parse_value (fuel : nat) (s : string) : option (JSValue * string) :=
  match fuel with
  | O => None
  | S f =>
      let s := skip_ws s in
      if String.prefix "null" s then Some (JNull, drop 4 s)
      else if String.prefix "true" s then Some (JBool true, drop 4 s)
      else if String.prefix "false" s then Some (JBool false, drop 5 s)
      else
        match s with
        | String c r =>
            if Ascii.eqb c quote then
              match read_string r with
              | Some (a, r') => Some (JStr a, r')
              | None => None
              end
            else if Ascii.eqb c "[" then
              match skip_ws r with
              | String "]" r' => Some (JArr [], r')
              | _ =>
                  match parse_items (parse_value f) (String.length r) r with
                  | Some (vs, r') => Some (JArr vs, r')
                  | None => None
                  end
              end
            else if Ascii.eqb c "{" then
              match skip_ws r with
              | String "}" r' => Some (JObj [], r')
              | _ =>
                  match parse_members (parse_value f) (String.length r) r with
                  | Some (ms, r') => Some (JObj ms, r')
                  | None => None
                  end
              end
            else if is_digit c then
              let (ds, r') := span is_digit s in
              Some (JNum (Z.of_N (parseInt ds)), r')
            else None
        | EmptyString => None
        end
  end.

Definition parse (s : string) : option JSValue :=
  match parse_value (S (String.length s)) s with
  | Some (v, r) => if skip_ws r =? "" then Some v else None
  | None => None
  end.

Fixpoint stringify (v : JSValue) : string :=
  match v with
  | JUndefined => "undefined"
  | JNull => "null"
  | JBool true => "true"
  | JBool false => "false"
  | JNum n => dec_Z n
  | JStr s => quoted s
  | JArr l => "[" +:+ join "," (map stringify l) +:+ "]"
  | JObj fs =>
      "{" +:+ join "," (map (fun kv => quoted kv.1 +:+ ":" +:+ stringify kv.2) fs) +:+ "}"
  end.

Definition env_of (vars : list (string * string)) (name : string) : option string :=
  snd <$> find (fun kv => kv.1 =? name) vars.

(** A runtime with the given environment; templates are taken to hold no
    placeholder, so substitution leaves them as they are. *)
Definition runtime (vars : list (string * string)) : Runtime :=
  {| env := env_of vars;
     substituteVariables := fun s _ => s;
     JSON_parse := parse;
     JSON_stringify := stringify |}.

Definition empty_state : WorkflowState := {| variables := ∅; chatHistory := [] |}.

Definition server (name url : string) : McpServer :=
  {| srv_name := Some name; srv_toolName := None; srv_url := url;
     srv_accessToken := None; srv_authToken := None; srv_description := None;
     srv_schema := JUndefined |}.

(** *** Stand-ins for the outside services *)

Definition mcp_services (resolve : string -> option McpServer)
    (key : option string) (backend : Outcome JSValue) : MCP.Services :=
  {| MCP.resolveMCPServer := resolve;
     MCP.firecrawl_key := key;
     MCP.firecrawl_scrape := fun _ _ _ => backend;
     MCP.firecrawl_search := fun _ _ _ => backend;
     MCP.firecrawl_map := fun _ _ => backend;
     MCP.firecrawl_crawl := fun _ _ _ => backend |}.

Definition http_services (response : Outcome HTTP.Response) : HTTP.Services :=
  {| HTTP.fetch := fun _ => response;
     HTTP.btoa := fun s => Returned s |}.

Definition usage_of_prompt (n : Z) : Agent.LLMUsage :=
  {| Agent.input_tokens := None; Agent.output_tokens := None;
     Agent.total_tokens := None; Agent.prompt_tokens := Some n;
     Agent.completion_tokens := None |}.

Definition weather_call : Agent.ToolCall :=
  {| Agent.call_id := "call_1"; Agent.fn_name := "weather";
     Agent.fn_arguments := "{}" |}.

(** A chat backend that asks for one tool call while tools are on offer
    (reporting 10 prompt tokens) and answers once they are not (reporting
    5). *)
Definition chat_backend (req : Agent.ChatRequest) : Outcome Agent.ChatCompletion :=
  match Agent.cr_tools req with
  | _ :: _ =>
      Returned {| Agent.choices :=
                    [ {| Agent.m_content := None;
                         Agent.m_tool_calls := [weather_call] |} ];
                  Agent.cc_usage := Some (usage_of_prompt 10) |}
  | [] =>
      Returned {| Agent.choices :=
                    [ {| Agent.m_content := Some "It is sunny.";
                         Agent.m_tool_calls := [] |} ];
                  Agent.cc_usage := Some (usage_of_prompt 5) |}
  end.

Definition offline : Exn := JsError "network unreachable".

Definition fallback_heading (t : Agent.FallbackTemplate) : string :=
  match t with
  | Agent.TplAnalysisTicker _ | Agent.TplAnalysisTopic _ => "## Analysis of Search Results"
  | Agent.TplAnalysisProduct _ => "## Analysis of Amazon Search Results"
  | Agent.TplAnalysisGeneric => "## Analysis Results"
  | Agent.TplSummary => "**Executive Summary: Analysis Results**"
  | Agent.TplReport _ => "# Stock Analysis Report"
  | Agent.TplRecommend _ => "## Product Overview"
  | Agent.TplExtract => "**Product Information Extracted:**"
  | Agent.TplDefault => "Analysis completed successfully."
  end.

Definition agent_services : Agent.Services :=
  {| Agent.migrateMCPData := fun d => d;
     Agent.resolveMCPServers := fun _ => [];
     Agent.anthropic_beta_create := fun _ _ _ _ => Thrown offline;
     Agent.anthropic_create := fun _ _ _ => Thrown offline;
     Agent.openai_chat_create := fun _ _ req => chat_backend req;
     Agent.chat_invoke := fun _ _ _ _ => Thrown offline;
     Agent.groq_responses_create := fun _ _ _ _ => Thrown offline;
     Agent.gemini_generateContent := fun _ _ _ => Thrown offline;
     Agent.tool_post := fun _ _ _ => Returned (JObj [("result", JStr "sunny")]);
     Agent.date_now := 0;
     Agent.fallback_text := fallback_heading |}.

Definition no_keys : Agent.ApiKeys :=
  {| Agent.anthropic := None; Agent.groq := None; Agent.openai := None;
     Agent.firecrawl := None; Agent.gemini := None; Agent.aimlapi := None |}.

Definition openai_only : Agent.ApiKeys :=
  {| Agent.anthropic := None; Agent.groq := None; Agent.openai := Some "sk-test";
     Agent.firecrawl := None; Agent.gemini := None; Agent.aimlapi := None |}.

Definition agent_node (id : string) (name model : option string)
    (history : bool) : WorkflowNode :=
  {| node_id := id;
     node_data :=
       {| nodeName := name; instructions := Some "Summarise the input"; model := model;
          includeChatHistory := history; outputFormat := None;
          mcpTools := []; mcpServerIds := []; mcpServers := []; mcpServerId := None;
          mcpAction := None; scrapeUrl := None; mapUrl := None; crawlUrl := None;
          searchQuery := None; searchLimit := None; crawlLimit := None;
          useJsonMode := false; outputField := None; customOutputPath := None;
          httpUrl := None; httpMethod := None; httpHeaders := [];
          httpAuthType := None; httpAuthToken := None; httpBody := None |} |}.

Definition mcp_node (id : option string) (servers : list McpServer)
    (action query field : option string) : WorkflowNode :=
  {| node_id := "mcp-step";
     node_data :=
       {| nodeName := Some "Research"; instructions := None; model := None;
          includeChatHistory := false; outputFormat := None;
          mcpTools := []; mcpServerIds := []; mcpServers := servers; mcpServerId := id;
          mcpAction := action; scrapeUrl := None; mapUrl := None; crawlUrl := None;
          searchQuery := query; searchLimit := None; crawlLimit := None;
          useJsonMode := false; outputField := field; customOutputPath := None;
          httpUrl := None; httpMethod := None; httpHeaders := [];
          httpAuthType := None; httpAuthToken := None; httpBody := None |} |}.

Definition http_node (target : string) (verb : option string) : WorkflowNode :=
  {| node_id := "http-step";
     node_data :=
       {| nodeName := Some "Fetch"; instructions := None; model := None;
          includeChatHistory := false; outputFormat := None;
          mcpTools := []; mcpServerIds := []; mcpServers := []; mcpServerId := None;
          mcpAction := None; scrapeUrl := None; mapUrl := None; crawlUrl := None;
          searchQuery := None; searchLimit := None; crawlLimit := None;
          useJsonMode := false; outputField := None; customOutputPath := None;
          httpUrl := Some target; httpMethod := verb; httpHeaders := [];
          httpAuthType := None; httpAuthToken := None; httpBody := None |} |}.

Definition http_response (code : Z) (reason : string) (payload : JSValue)
    : HTTP.Response :=
  {| HTTP.resp_status := code; HTTP.resp_statusText := reason;
     HTTP.resp_headers := [("content-type", "application/json")];
     HTTP.resp_json := Returned payload;
     HTTP.resp_text := Thrown (JsError "Body is unusable") |}.

Definition deepwiki : McpServer := server "DeepWiki" "https://mcp.deepwiki.com/mcp".
Definition firecrawl_server : McpServer := server "Firecrawl" "https://mcp.firecrawl.dev".


(** A state with an input and one earlier exchange. *)
Definition busy_state : WorkflowState :=
  {| variables := {[ "input" := JStr "nvidia earnings"; "lastOutput" := JStr "old" ]};
     chatHistory := [ {| role := "user"; content := "hello" |};
                      {| role := "assistant"; content := "hi" |} ] |}.

(** *** The runs used as examples *)

Definition on : Runtime := runtime [].
Definition off : Runtime := runtime [("DEMO_MODE", "false")].

Definition failing_firecrawl : MCP.Services :=
  mcp_services (fun _ => None) (Some "fc-key") (Thrown (JsError "quota exceeded")).

Definition unresolved_step : WorkflowNode :=
  mcp_node (Some "srv_missing") [] None None None.


Definition deepwiki_step : WorkflowNode :=
  mcp_node None [deepwiki] None None None.

Definition groq_step : WorkflowNode :=
  agent_node "writer" (Some "Write Report") (Some "groq/llama-3.3-70b-versatile") true.


Definition items_step : WorkflowNode :=
  http_node "https://api.example.com/items" None.

Definition not_found : HTTP.Response :=
  http_response 404 "Not Found" (JObj [("detail", JStr "quota exceeded")]).

Definition found : HTTP.Response :=
  http_response 200 "OK" (JObj [("items", JArr [JNum 1; JNum 2])]).

Definition weather_tool : McpServer := server "weather" "https://tools.example.com/mcp".

Definition asks_for_tool : Agent.ChoiceMessage :=
  {| Agent.m_content := None; Agent.m_tool_calls := [weather_call] |}.

Definition first_completion : Agent.ChatCompletion :=
  {| Agent.choices := [asks_for_tool];
     Agent.cc_usage := Some (usage_of_prompt 10) |}.

Definition final_completion : Agent.ChatCompletion :=
  {| Agent.choices := [ {| Agent.m_content := Some "It is sunny.";
                           Agent.m_tool_calls := [] |} ];
     Agent.cc_usage := Some (usage_of_prompt 5) |}.

Definition question : list Message := [ {| role := "user"; content := "weather?" |} ].

End Demo.


(* ================================================================= *)
(** ** Notions the statements below are written with *)

Module Props.

(** *** Paths and manual indexing *)

(** A path segment: [name] or [name[index]]. *)
Inductive Segment : Type :=
| Key (name : string)
| At (name : string) (index : N).

Definition seg_name (seg : Segment) : string :=
  match seg with
  | Key name => name
  | At name _ => name
  end.

Definition render_segment (seg : Segment) : string :=
  match seg with
  | Key name => name
  | At name index => name +:+ "[" +:+ dec index +:+ "]"
  end.

(** The path string of a list of segments, as in [a.b[1].c]. *)
Definition render_path (segs : list Segment) : string :=
  join "." (map render_segment segs).

Fixpoint all_chars (p : ascii -> bool) (s : string) : bool :=
  match s with
  | EmptyString => true
  | String c s' => p c && all_chars p s'
  end.

Definition no_dot (c : ascii) : bool := negb (Ascii.eqb c ".").

(** A non-empty name of letters, digits and underscores. *)
Definition is_word (s : string) : bool :=
  negb (s =? "") && all_chars is_word_char s.

(** Manual indexing, as the expression [obj.a.b[1].c] evaluates: each
    step throws on [undefined] and [null]. *)
Definition index_segment (v : JSValue) (seg : Segment) : Outcome JSValue :=
  match seg with
  | Key name => js_get v name
  | At name index => let! arr := js_get v name in js_get_index arr index
  end.

Fixpoint manual_index (segs : list Segment) (v : JSValue) : Outcome JSValue :=
  match segs with
  | [] => Returned v
  | seg :: rest => let! w := index_segment v seg in manual_index rest w
  end.

(** What a segment finds in a value that is neither [undefined] nor
    [null]; [undefined] when the segment is absent from it. *)
Definition find_segment (v : JSValue) (seg : Segment) : JSValue :=
  match seg with
  | Key name => own_prop v name
  | At name index => js_opt_index (own_prop v name) index
  end.

(** *** Frames, servers, surfaced outputs *)

(** A run that leaves the workflow state as it found it. *)
Definition frame {A} (m : Exec A) : Prop :=
  forall st tr, state_of (m st tr) = st.


(** Servers that the loop treats as generic, and as Firecrawl. *)
Definition is_generic (sc : McpServer) : bool :=
  match srv_name sc with
  | Some n => negb (includes (toLowerCase n) "firecrawl")
  | None => false
  end.

Definition is_firecrawl (sc : McpServer) : bool :=
  match srv_name sc with
  | Some n => includes (toLowerCase n) "firecrawl"
  | None => false
  end.

(** The data of the last successful entry of [results]. *)
Definition last_success_data (rs : list MCP.ResultEntry) : option JSValue :=
  fold_left (fun acc e => if MCP.success e then MCP.entry_data e else acc) rs None.

(** The output a remote-tool result surfaces: its [output] member when it
    has one (the Firecrawl paths), else the data of the last server that
    succeeded (the generic path). *)
Definition surfaced_output (r : MCP.MCPResult) : option JSValue :=
  match MCP.output r with
  | Some o => Some o
  | None => last_success_data (MCP.results r)
  end.

(** What the loop maintains: [lastOutput] is the data of the last server
    that succeeded so far, and the state is untouched while none has. *)
Definition loop_inv (st0 : WorkflowState) (results : list MCP.ResultEntry)
    (st : WorkflowState) : Prop :=
  match last_success_data results with
  | Some d => var st "lastOutput" = d
  | None => st = st0
  end.



(** The tool-server id lookup that precedes the key check. *)
Definition lookup_events (S : Agent.Services) (node : WorkflowNode) : list Event :=
  match mcpServerIds (Agent.migrateMCPData S (node_data node)) with
  | [] => []
  | ids => [EvResolve ids]
  end.

(** Whether [apiKeys] supplies a key for the provider the model string
    names. *)
Definition key_supplied (keys : Agent.ApiKeys) (provider : string) : bool :=
  ((provider =? "anthropic") && str_truthy (Agent.anthropic keys))
  || ((provider =? "openai") && str_truthy (Agent.openai keys))
  || ((provider =? "groq") && str_truthy (Agent.groq keys))
  || ((provider =? "gemini") && str_truthy (Agent.gemini keys))
  || ((provider =? "aimlapi") && str_truthy (Agent.aimlapi keys)).

(** The two fixed guidance texts the [catch] block has for a missing
    key. *)
Definition key_guidance : list string :=
  [Agent.missing_key_text; Agent.no_key_configured_text].

(** The provider a node requests. *)
Definition requested_provider (node : WorkflowNode) : string :=
  (Agent.parse_model (str_or (model (node_data node)) Agent.default_model)).1.

(** *** The state and the reads of a run *)

(** The state a generic server leaves behind: [lastOutput] set when it
    answers, nothing changed when it fails. *)
Definition after_generic (R : Runtime) (st : WorkflowState) (sc : McpServer)
    : WorkflowState :=
  state_of (MCP.generic_branch R sc [] st []).

(** The state in which the loop reaches the server that follows [pre]. *)
Definition state_after (R : Runtime) (pre : list McpServer) (st : WorkflowState)
    : WorkflowState :=
  fold_left (after_generic R) pre st.

(** The projection of [data] that a node configures reads nothing but
    what the model covers. *)
Definition projection_in_model (nodeData : NodeData) (data : JSValue) : bool :=
  if str_truthy (outputField nodeData)
     && negb (str_or (outputField nodeData) "" =? "full")
  then Extract.extraction_in_model data (str_or (outputField nodeData) "")
         (customOutputPath nodeData)
  else true.


(** The tool messages the loop of lines 239-286 produces for the calls
    of [message]. *)
Definition loop_results (R : Runtime) (S : Agent.Services) (tools : list McpServer)
    (message : Agent.ChoiceMessage) (st : WorkflowState) (tr : list Event)
    : list Agent.ChatMsg :=
  match outcome_of (Agent.emap (Agent.run_tool_call R S tools)
                      (Agent.m_tool_calls message) st tr) with
  | Returned msgs => msgs
  | Thrown _ => []
  end.

End Props.

(* ================================================================= *)
(** ** Further notions used to state the executors' behaviour *)

Module Notions.

Definition no_bracket (c : ascii) : bool := negb (Ascii.eqb c "[").

(** The registry lookup [executeMCPNode] makes first, when the node
    carries a server id. *)
Definition resolve_events (nodeData : NodeData) : list Event :=
  if str_truthy (mcpServerId nodeData)
  then [EvResolve [str_or (mcpServerId nodeData) ""]]
  else [].

(** A named server that is neither Firecrawl nor DeepWiki. *)
Definition is_unknown (sc : McpServer) : bool :=
  match srv_name sc with
  | Some n =>
      negb (includes (toLowerCase n) "firecrawl")
      && negb (includes (toLowerCase n) "deepwiki")
      && negb (includes (toLowerCase n) "devin")
  | None => false
  end.

(** A DeepWiki server: its name holds [deepwiki] or [devin], and not
    [firecrawl]. *)
Definition is_deepwiki (sc : McpServer) : bool :=
  match srv_name sc with
  | Some n =>
      negb (includes (toLowerCase n) "firecrawl")
      && (includes (toLowerCase n) "deepwiki" || includes (toLowerCase n) "devin")
  | None => false
  end.

(** The entry the loop records for a server without an adapter. *)
Definition not_implemented_entry (sc : McpServer) : MCP.ResultEntry :=
  {| MCP.server := str_or (srv_name sc) "";
     MCP.tool := None;
     MCP.success := false;
     MCP.entry_error :=
       Some ("MCP server " +:+ String "034" (str_or (srv_name sc) "")
             +:+ String "034" " execution not yet implemented. Server URL: "
             +:+ srv_url sc);
     MCP.entry_data := None |}.

(** The four actions the Firecrawl branch knows. *)
Definition is_backend_action (action : string) : bool :=
  (action =? "scrape") || (action =? "search") || (action =? "map")
  || (action =? "crawl").

(** The action a node asks for: [mcpAction || 'scrape']. *)
Definition node_action (nodeData : NodeData) : string :=
  str_or (mcpAction nodeData) "scrape".

Definition firecrawl_key_error : string :=
  "FIRECRAWL_API_KEY not configured. Add it to your .env.local file:"
  +:+ String "010" "FIRECRAWL_API_KEY=your_key_here".

(** What the Firecrawl client answers to the one call a step with a
    known action makes in state [st]. *)
Definition backend_reply (R : Runtime) (S : MCP.Services) (nodeData : NodeData)
    (st : WorkflowState) : Outcome JSValue :=
  let key := str_or (MCP.firecrawl_key S) "" in
  let action := node_action nodeData in
  if action =? "scrape" then
    MCP.firecrawl_scrape S key (MCP.getUrl R nodeData st)
      (if useJsonMode nodeData then ["json"] else ["markdown"; "html"])
  else if action =? "search" then
    MCP.firecrawl_search S key (MCP.getSearchQuery R nodeData st)
      (MCP.num_or (searchLimit nodeData) 5)
  else if action =? "map" then
    MCP.firecrawl_map S key (MCP.getUrl R nodeData st)
  else
    MCP.firecrawl_crawl S key (MCP.getUrl R nodeData st)
      (MCP.num_or (crawlLimit nodeData) 10).

(** *** Requests *)

(** The address [executeHTTPNode] fetches. *)
Definition http_target (R : Runtime) (nodeData : NodeData) (st : WorkflowState)
    : string :=
  substituteVariables R (str_or (httpUrl nodeData) "") st.

(** The headers of the request before authentication is added. *)
Definition custom_headers (R : Runtime) (nodeData : NodeData) (st : WorkflowState)
    : gmap string string :=
  HTTP.build_headers R st (httpHeaders nodeData).

Fixpoint unique (l : list string) : bool :=
  match l with
  | [] => true
  | x :: r => negb (existsb (String.eqb x) r) && unique r
  end.

(** A value all of whose objects have pairwise distinct keys, as every
    object built by [JSON.parse] has, none of them [__proto__] (assigning
    to that key sets the prototype instead of adding an entry). *)
Fixpoint plain_keys (v : JSValue) : bool :=
  match v with
  | JArr l => forallb plain_keys l
  | JObj fs =>
      unique (map fst fs)
      && negb (existsb (String.eqb "__proto__") (map fst fs))
      && forallb (fun kv => plain_keys (snd kv)) fs
  | _ => true
  end.

(** *** Agent steps *)



(** The result the [catch] block builds from a canned text. *)
Definition fallback_result (S : Agent.Services) (node : WorkflowNode)
    (st : WorkflowState) : Agent.AgentResult :=
  let fallbackResponse := Agent.fallback_text S (Agent.pick_fallback node st) in
  Agent.agent_result (JStr fallbackResponse) []
    (Agent.chat_updates (node_data node) fallbackResponse) true.

End Notions.

(* ================================================================= *)
(** ** Further example steps and services *)

Module Cases.
Import Demo.

Definition slack : McpServer := server "Slack" "https://mcp.slack.example/mcp".
Definition notion : McpServer := server "Notion" "https://mcp.notion.example/mcp".

(** Steps over servers without a Firecrawl adapter. *)
Definition generic_step : WorkflowNode :=
  mcp_node None [deepwiki; slack] None None None.

Definition unknown_step : WorkflowNode :=
  mcp_node None [slack; notion] None None None.

(** Firecrawl steps: the default action, an action the branch does not
    know, and a projection of the answer. *)
Definition scrape_step : WorkflowNode :=
  mcp_node None [deepwiki; firecrawl_server] None None None.

Definition dance_step : WorkflowNode :=
  mcp_node None [deepwiki; firecrawl_server] (Some "dance") None None.

Definition markdown_step : WorkflowNode :=
  mcp_node None [firecrawl_server] (Some "scrape") None (Some "markdown").

Definition page : JSValue :=
  JObj [("markdown", JStr "# Title"); ("metadata", JObj [("title", JStr "Title")])].

Definition keyless_firecrawl : MCP.Services :=
  mcp_services (fun _ => None) None (Returned page).

Definition working_firecrawl : MCP.Services :=
  mcp_services (fun _ => None) (Some "fc-key") (Returned page).

Definition empty_firecrawl : MCP.Services :=
  mcp_services (fun _ => None) (Some "fc-key") (Returned JNull).

(** *** Requests *)

(** A response whose body can be read neither as JSON nor as text. *)
Definition broken : HTTP.Response :=
  {| HTTP.resp_status := 502; HTTP.resp_statusText := "Bad Gateway";
     HTTP.resp_headers := [];
     HTTP.resp_json := Thrown (JsError "Unexpected end of JSON input");
     HTTP.resp_text := Thrown (JsError "Body is unusable") |}.

Definition order : JSValue :=
  JObj [("item", JStr "book"); ("tags", JArr [JStr "new"; JNum 2]);
        ("buyer", JObj [("name", JStr "Ada")])].

(** *** Agent steps *)

Definition bad_call : Agent.ToolCall :=
  {| Agent.call_id := "call_2"; Agent.fn_name := "weather";
     Agent.fn_arguments := "{oops" |}.

Definition asks_badly : Agent.ChoiceMessage :=
  {| Agent.m_content := None; Agent.m_tool_calls := [bad_call] |}.

(** A chat backend whose tool call carries arguments that are not JSON. *)
Definition careless_backend (req : Agent.ChatRequest) : Outcome Agent.ChatCompletion :=
  match Agent.cr_tools req with
  | _ :: _ => Returned {| Agent.choices := [asks_badly]; Agent.cc_usage := None |}
  | [] => Returned final_completion
  end.

Definition careless_services : Agent.Services :=
  {| Agent.migrateMCPData := fun d => d;
     Agent.resolveMCPServers := fun _ => [];
     Agent.anthropic_beta_create := fun _ _ _ _ => Thrown offline;
     Agent.anthropic_create := fun _ _ _ => Thrown offline;
     Agent.openai_chat_create := fun _ _ req => careless_backend req;
     Agent.chat_invoke := fun _ _ _ _ => Thrown offline;
     Agent.groq_responses_create := fun _ _ _ _ => Thrown offline;
     Agent.gemini_generateContent := fun _ _ _ => Thrown offline;
     Agent.tool_post := fun _ _ _ => Returned (JObj [("result", JStr "sunny")]);
     Agent.date_now := 0;
     Agent.fallback_text := fallback_heading |}.


End Cases.

(* ================================================================= *)
(** * Properties *)

(** ** Field extraction *)

Module ExtractFacts.
Import Extract Props.

Example extractField_urls_example :
  extractField
    (JObj [("results", JArr [JObj [("url", JStr "a")]; JObj [("url", JStr "b")]])])
    "urls" None
  = Returned (JArr [JStr "a"; JStr "b"]).
Proof. reflexivity. Qed.

Example getNestedValue_example :
  getNestedValue
    (JObj [("a", JObj [("b", JArr [JNum 7; JObj [("c", JStr "hit")]])])])
    "a.b[1].c"
  = Returned (JStr "hit").
Proof. reflexivity. Qed.

Example getNestedValue_missing_link :
  getNestedValue (JObj [("a", JObj [])]) "a.b[1].c" = Returned JUndefined.
Proof. reflexivity. Qed.

(** **** Reading a rendered path back *)

Lemma parseInt_dec n : parseInt (dec n) = n.
Proof.
  unfold parseInt, dec.
  assert (E : NilZero.string_of_uint (N.to_uint n)
              = NilEmpty.string_of_uint (N.to_uint n)).
  { destruct n as [| q]; [reflexivity |]. simpl.
    pose proof (Unsigned.to_uint_nonnil q) as Hq.
    destruct (Pos.to_uint q); [congruence | reflexivity ..]. }
  rewrite E, NilEmpty.usu. apply DecimalN.Unsigned.of_to.
Qed.

Lemma string_of_uint_digits d : all_chars is_digit (NilEmpty.string_of_uint d) = true.
Proof. induction d; simpl; auto. Qed.

Lemma dec_digits n : all_chars is_digit (dec n) = true.
Proof.
  unfold dec. destruct (N.to_uint n); try apply string_of_uint_digits. reflexivity.
Qed.

Lemma dec_nonempty n : exists c s, dec n = String c s.
Proof.
  unfold dec. destruct n as [| q]; simpl; [eauto |].
  destruct (Pos.to_uint q); simpl; eauto.
Qed.

Lemma all_chars_app p a b :
  all_chars p (a +:+ b) = all_chars p a && all_chars p b.
Proof.
  induction a as [| c a IH]; simpl; [reflexivity |].
  rewrite IH. apply andb_assoc.
Qed.

Lemma all_chars_weaken (p q : ascii -> bool) s :
  (forall c, p c = true -> q c = true) ->
  all_chars p s = true -> all_chars q s = true.
Proof.
  intros Hpq. induction s as [| c s IH]; simpl; [reflexivity |].
  intros H. apply andb_true_iff in H as [Hc Hs].
  rewrite (Hpq c Hc). auto.
Qed.

(** [span] stops where the first character outside the class stands. *)
Lemma span_stop p a c b :
  all_chars p a = true -> p c = false ->
  span p (a +:+ String c b) = (a, String c b).
Proof.
  intros Ha Hc. induction a as [| x a IH]; simpl.
  - now rewrite Hc.
  - simpl in Ha. apply andb_true_iff in Ha as [Hx Ha].
    rewrite Hx, (IH Ha). reflexivity.
Qed.

Lemma span_all p a : all_chars p a = true -> span p a = (a, EmptyString).
Proof.
  induction a as [| x a IH]; simpl; [reflexivity |].
  intros H. apply andb_true_iff in H as [Hx Ha]. rewrite Hx, (IH Ha). reflexivity.
Qed.

Lemma match_array_part_at name index :
  is_word name = true ->
  match_array_part (render_segment (At name index)) = Some (name, dec index).
Proof.
  unfold is_word, match_array_part. intros H.
  apply andb_true_iff in H as [Hne Hw]. simpl.
  change ("[" +:+ dec index +:+ "]") with (String "[" (dec index +:+ "]")).
  rewrite (span_stop is_word_char name "[" _ Hw eq_refl).
  destruct name as [| c name]; [discriminate |].
  rewrite (span_stop is_digit (dec index) "]" _ (dec_digits index) eq_refl).
  destruct (dec_nonempty index) as (d & ds & ->). reflexivity.
Qed.

Lemma match_array_part_key name :
  is_word name = true -> match_array_part name = None.
Proof.
  unfold is_word, match_array_part. intros H.
  apply andb_true_iff in H as [_ Hw].
  rewrite (span_all _ _ Hw). destruct name; reflexivity.
Qed.

Lemma word_char_no_dot c : is_word_char c = true -> no_dot c = true.
Proof.
  unfold no_dot. destruct (Ascii.eqb_spec c "."); [subst; discriminate | reflexivity].
Qed.

Lemma digit_no_dot c : is_digit c = true -> no_dot c = true.
Proof.
  unfold no_dot. destruct (Ascii.eqb_spec c "."); [subst; discriminate | reflexivity].
Qed.

Lemma render_segment_no_dot seg :
  is_word (seg_name seg) = true -> all_chars no_dot (render_segment seg) = true.
Proof.
  unfold is_word. intros H. apply andb_true_iff in H as [_ Hw].
  pose proof (all_chars_weaken _ _ _ word_char_no_dot Hw) as Hn.
  destruct seg as [name | name index]; simpl in *; [exact Hn |].
  rewrite !all_chars_app, Hn. simpl.
  rewrite (all_chars_weaken _ _ _ digit_no_dot (dec_digits index)). reflexivity.
Qed.

Lemma split_on_no_dot s : all_chars no_dot s = true -> split_on "." s = [s].
Proof.
  induction s as [| c s IH]; simpl; [reflexivity |].
  intros H. apply andb_true_iff in H as [Hc Hs].
  unfold no_dot in Hc. apply negb_true_iff in Hc. rewrite Hc, (IH Hs). reflexivity.
Qed.

Lemma split_on_app s rest :
  all_chars no_dot s = true ->
  split_on "." (s +:+ String "." rest) = s :: split_on "." rest.
Proof.
  induction s as [| c s IH]; simpl; [reflexivity |].
  intros H. apply andb_true_iff in H as [Hc Hs].
  unfold no_dot in Hc. apply negb_true_iff in Hc. rewrite Hc, (IH Hs). reflexivity.
Qed.

Lemma split_join parts :
  parts <> [] -> Forall (fun s => all_chars no_dot s = true) parts ->
  split_on "." (join "." parts) = parts.
Proof.
  induction parts as [| s parts IH]; [congruence |].
  intros _ H. inversion H as [| ? ? Hs Hparts]; subst.
  destruct parts as [| s' parts'].
  - simpl. apply split_on_no_dot, Hs.
  - change (join "." (s :: s' :: parts'))
      with (s +:+ String "." (join "." (s' :: parts'))).
    rewrite (split_on_app _ _ Hs), IH; [reflexivity | discriminate | assumption].
Qed.

Lemma split_render_path segs :
  segs <> [] -> forallb (fun seg => is_word (seg_name seg)) segs = true ->
  split_on "." (render_path segs) = map render_segment segs.
Proof.
  intros Hne Hw. unfold render_path. apply split_join.
  - destruct segs; [congruence | discriminate].
  - clear Hne. induction segs as [| seg segs IH]; simpl; constructor;
      simpl in Hw; apply andb_true_iff in Hw as [Hseg Hsegs].
    + apply render_segment_no_dot, Hseg.
    + apply IH, Hsegs.
Qed.

Lemma render_path_nonempty segs :
  segs <> [] -> forallb (fun seg => is_word (seg_name seg)) segs = true ->
  (render_path segs =? "") = false.
Proof.
  destruct segs as [| seg rest]; [congruence |]. intros _ H. simpl in H.
  apply andb_true_iff in H as [Hw _]. unfold is_word in Hw.
  apply andb_true_iff in Hw as [Hne _].
  unfold render_path. simpl.
  destruct seg as [name | name index]; simpl in *;
    (destruct name as [| c name]; [discriminate |]);
    destruct (map render_segment rest); reflexivity.
Qed.

(** One loop iteration on a rendered segment. *)
Lemma step_part_render v seg :
  is_word (seg_name seg) = true -> is_nullish v = false ->
  step_part v (render_segment seg) = Returned (find_segment v seg).
Proof.
  intros Hw Hv. unfold step_part. destruct seg as [name | name index]; simpl in Hw.
  - simpl. rewrite (match_array_part_key _ Hw).
    unfold js_opt_get. now rewrite Hv.
  - rewrite (match_array_part_at _ index Hw), parseInt_dec.
    unfold js_get. rewrite Hv. reflexivity.
Qed.

Lemma index_segment_find v seg w :
  index_segment v seg = Returned w ->
  is_nullish v = false /\ w = find_segment v seg.
Proof.
  destruct seg as [name | name index]; simpl; unfold js_get.
  - destruct (is_nullish v); [discriminate |]. intros [= <-]. auto.
  - destruct (is_nullish v); [discriminate |]. simpl. unfold js_get_index, js_opt_index.
    destruct (is_nullish (own_prop v name)); [discriminate |]. intros [= <-]. auto.
Qed.

(** The loop follows manual indexing for as long as that succeeds, and
    stops with [undefined] as soon as a step yields it. *)
Lemma walk_follows_manual pre : forall v w tail,
  forallb (fun seg => is_word (seg_name seg)) pre = true ->
  manual_index pre v = Returned w ->
  walk_parts (map render_segment pre ++ tail) v
  = match pre with
    | [] => walk_parts tail v
    | _ :: _ => if is_undefined w then Returned JUndefined else walk_parts tail w
    end.
Proof.
  induction pre as [| seg rest IH]; intros v w tail Hw Hm; [reflexivity |].
  simpl in Hw. apply andb_true_iff in Hw as [Hseg Hrest].
  simpl in Hm. destruct (index_segment v seg) as [x | e] eqn:Ex; [| discriminate].
  simpl in Hm. destruct (index_segment_find v seg x Ex) as [Hv ->].
  simpl. rewrite (step_part_render v seg Hseg Hv). simpl.
  destruct (is_undefined (find_segment v seg)) eqn:Eu.
  - destruct (find_segment v seg); try discriminate.
    destruct rest as [| seg' rest'].
    + simpl in Hm. injection Hm as <-. reflexivity.
    + simpl in Hm. destruct seg'; discriminate.
  - rewrite (IH _ w tail Hrest Hm).
    destruct rest as [| seg' rest']; [| reflexivity].
    simpl in Hm. injection Hm as <-. rewrite Eu. reflexivity.
Qed.

(** X1. Where manual indexing succeeds, [extractField] with a custom path
    returns the same value. *)
Theorem extractField_custom_agrees_with_manual_indexing :
  forall (obj : JSValue) (segs : list Segment) (v : JSValue),
    segs <> [] ->
    forallb (fun seg => is_word (seg_name seg)) segs = true ->
    manual_index segs obj = Returned v ->
    extractField obj "custom" (Some (render_path segs)) = Returned v.
Proof.
  intros obj segs v Hne Hw Hm.
  unfold extractField. simpl. rewrite (render_path_nonempty segs Hne Hw). simpl.
  unfold getNestedValue. rewrite (split_render_path segs Hne Hw).
  rewrite <- (app_nil_r (map render_segment segs)).
  rewrite (walk_follows_manual segs obj v [] Hw Hm).
  destruct segs; [congruence |]. simpl.
  destruct v; reflexivity.
Qed.

(** Where manual indexing reaches a value that is neither [undefined] nor
    [null] and the next segment is absent from it, [extractField] returns
    [undefined], whatever segments follow. *)
Theorem extractField_custom_absent_segment :
  forall (obj w : JSValue) (pre post : list Segment) (seg : Segment),
    forallb (fun seg => is_word (seg_name seg)) (pre ++ seg :: post) = true ->
    manual_index pre obj = Returned w ->
    is_nullish w = false ->
    find_segment w seg = JUndefined ->
    extractField obj "custom" (Some (render_path (pre ++ seg :: post)))
    = Returned JUndefined.
Proof.
  intros obj w pre post seg Hw Hm Hn Habs.
  assert (Hne : (pre ++ seg :: post)%list <> []) by (destruct pre; discriminate).
  unfold extractField. simpl. rewrite (render_path_nonempty _ Hne Hw). simpl.
  unfold getNestedValue. rewrite (split_render_path _ Hne Hw), map_app.
  rewrite forallb_app in Hw. apply andb_true_iff in Hw as [Hpre Htail].
  simpl in Htail. apply andb_true_iff in Htail as [Hseg _].
  rewrite (walk_follows_manual pre obj w _ Hpre Hm).
  assert (Hstep : walk_parts (map render_segment (seg :: post)) w = Returned JUndefined).
  { simpl. rewrite (step_part_render w seg Hseg Hn), Habs. reflexivity. }
  destruct pre as [| seg0 pre0].
  - simpl in Hm. injection Hm as ->. exact Hstep.
  - destruct w; try discriminate; exact Hstep.
Qed.

(** C10. [extractField(data, "full")] returns [data] itself, whatever its
    shape and whatever custom path is passed along. *)
Theorem extractField_full_identity :
  forall (data : JSValue) (customPath : option string),
    extractField data "full" customPath = Returned data.
Proof. intros data customPath. reflexivity. Qed.

(** C4, at the input where it fails.  With [obj = { a: null }] and the path
    [a.b[0].c], the array-form segment [b[0]] is looked up in [null]:
    [current[arrayName]] is not guarded the way [current?.[part]] is, so
    [extractField] throws a [TypeError] instead of returning
    [undefined]. *)
Theorem extractField_custom_null_container_throws :
  extractField (JObj [("a", JNull)]) "custom" (Some "a.b[0].c")
  = Thrown (JsError "Cannot read properties of null (reading 'b')").
Proof. reflexivity. Qed.

(** The sibling path: the same object with plain segments yields
    [undefined]. *)
Example extractField_custom_null_plain_segment :
  extractField (JObj [("a", JNull)]) "custom" (Some "a.b.c") = Returned JUndefined.
Proof. reflexivity. Qed.

End ExtractFacts.

(** ** The executors' monad *)

Module ExecFacts.
Import Props.

Lemma frame_ret {A} (a : A) : frame (ret a).
Proof. intros st tr. reflexivity. Qed.

Lemma frame_throw {A} (e : Exn) : frame (@throw A e).
Proof. intros st tr. reflexivity. Qed.

Lemma frame_lift {A} (o : Outcome A) : frame (lift o).
Proof. intros st tr. reflexivity. Qed.

Lemma frame_call {A} (ev : Event) (o : Outcome A) : frame (call ev o).
Proof. intros st tr. reflexivity. Qed.

Lemma frame_get_state : frame get_state.
Proof. intros st tr. reflexivity. Qed.

Lemma frame_bind {A B} (m : Exec A) (k : A -> Exec B) :
  frame m -> (forall a, frame (k a)) -> frame (bind m k).
Proof.
  intros Hm Hk st tr. unfold bind.
  specialize (Hm st tr). unfold state_of in *.
  destruct (m st tr) as [[[a | e] st'] tr']; simpl in *; subst.
  - apply Hk.
  - reflexivity.
Qed.

Lemma frame_try_catch {A} (m : Exec A) (h : Exn -> Exec A) :
  frame m -> (forall e, frame (h e)) -> frame (try_catch m h).
Proof.
  intros Hm Hh st tr. unfold try_catch.
  specialize (Hm st tr). unfold state_of in *.
  destruct (m st tr) as [[[a | e] st'] tr']; simpl in *; subst.
  - reflexivity.
  - apply Hh.
Qed.

Lemma frame_emap {A B} (f : A -> Exec B) (l : list A) :
  (forall a, frame (f a)) -> frame (Agent.emap f l).
Proof.
  intros Hf. induction l as [| a l IH]; simpl.
  - apply frame_ret.
  - apply frame_bind; [apply Hf | intros b].
    apply frame_bind; [apply IH | intros bs]. apply frame_ret.
Qed.




(** Reading back a variable that was just written. *)
Lemma var_set_var (st : WorkflowState) (name : string) (v : JSValue) :
  var (set_var name v st) name = v.
Proof. unfold var, set_var. simpl. rewrite lookup_insert_eq. reflexivity. Qed.

End ExecFacts.

(** ** The remote-tool executor *)

Module MCPFacts.
Import MCP Props ExecFacts.











Section Loop.
Variables (R : Runtime) (S : Services) (nodeData : NodeData).

Lemma generic_branch_returns sc results st tr :
  exists results' st' tr',
    generic_branch R sc results st tr = (Returned results', st', tr').
Proof.
  unfold generic_branch, try_catch, bind, get_state, lift, put_var, ret.
  destruct (executeGenericMCPServer R sc st) as [[tool data] | e]; simpl; eauto.
Qed.

Lemma run_servers_generic all sc rest results st tr :
  is_generic sc = true ->
  exists results' st' tr',
    run_servers R S nodeData all (sc :: rest) results st tr
    = run_servers R S nodeData all rest results' st' tr'.
Proof.
  unfold is_generic. intros H. simpl. unfold server_name_lower.
  destruct (srv_name sc) as [n |] eqn:En; [| discriminate].
  apply negb_true_iff in H.
  unfold bind at 1, lift. rewrite H.
  destruct (generic_branch_returns sc results st tr) as (results' & st' & tr' & E).
  unfold bind. rewrite E. eauto.
Qed.

Lemma run_servers_skip all pre : forall rest results st tr,
  forallb is_generic pre = true ->
  exists results' st' tr',
    run_servers R S nodeData all (pre ++ rest) results st tr
    = run_servers R S nodeData all rest results' st' tr'.
Proof.
  induction pre as [| sc pre IH]; intros rest results st tr H.
  - simpl. eauto.
  - simpl in H. apply andb_true_iff in H as [Hsc Hpre].
    destruct (run_servers_generic all sc (pre ++ rest) results st tr Hsc)
      as (r1 & s1 & t1 & E1).
    destruct (IH rest r1 s1 t1 Hpre) as (r2 & s2 & t2 & E2).
    exists r2, s2, t2. rewrite <- E2, <- E1. reflexivity.
Qed.

Lemma run_servers_firecrawl all fc rest results st tr :
  is_firecrawl fc = true ->
  run_servers R S nodeData all (fc :: rest) results st tr
  = firecrawl_branch R S nodeData st tr.
Proof.
  unfold is_firecrawl. intros H. simpl. unfold server_name_lower.
  destruct (srv_name fc) as [n |]; [| discriminate].
  unfold bind, lift. rewrite H. reflexivity.
Qed.

(** A generic server calls nothing outside, and what it does to the
    state depends on the state alone. *)
Lemma generic_branch_state sc results st tr :
  exists results',
    generic_branch R sc results st tr = (Returned results', after_generic R st sc, tr).
Proof.
  unfold after_generic, generic_branch, try_catch, bind, get_state, lift, put_var, ret.
  destruct (executeGenericMCPServer R sc st) as [[tool data] | e]; simpl; eauto.
Qed.

Lemma run_servers_skip_at all pre : forall rest results st tr,
  forallb is_generic pre = true ->
  exists results',
    run_servers R S nodeData all (pre ++ rest) results st tr
    = run_servers R S nodeData all rest results' (state_after R pre st) tr.
Proof.
  induction pre as [| sc pre IH]; intros rest results st tr H.
  - simpl. eauto.
  - simpl in H. apply andb_true_iff in H as [Hsc Hpre].
    unfold is_generic in Hsc.
    change ((sc :: pre) ++ rest)%list with (sc :: (pre ++ rest))%list.
    cbn [run_servers]. unfold server_name_lower.
    destruct (srv_name sc) as [n |] eqn:En; [| discriminate].
    apply negb_true_iff in Hsc.
    unfold bind at 1, lift. rewrite Hsc.
    destruct (generic_branch_state sc results st tr) as (r1 & E1).
    unfold bind. rewrite E1.
    destruct (IH rest r1 (after_generic R st sc) tr Hpre) as (r2 & E2).
    exists r2. rewrite E2. reflexivity.
Qed.

End Loop.



(** C9. A node without inline servers whose server id does not resolve
    (or that has no id at all) gets the error result back: nothing is
    thrown and the state is left as it was. *)
Theorem executeMCPNode_unresolved_returns_error :
  forall (R : Runtime) (S : Services) (node : WorkflowNode)
         (apiKey : option string) (st : WorkflowState) (tr : list Event),
    mcpServers (node_data node) = [] ->
    (forall id, mcpServerId (node_data node) = Some id ->
                resolveMCPServer S id = None) ->
    exists res msg,
      outcome_of (executeMCPNode R S node apiKey st tr) = Returned res
      /\ error res = Some msg
      /\ state_of (executeMCPNode R S node apiKey st tr) = st.
Proof.
  intros R S node apiKey st tr Hinline Hres.
  assert (E : resolved_servers S (node_data node) = []).
  { unfold resolved_servers.
    destruct (mcpServerId (node_data node)) as [id |] eqn:Eid; simpl; [| assumption].
    destruct (id =? ""); simpl; [assumption |].
    rewrite (Hres id eq_refl). assumption. }
  exists no_server_result, "No MCP servers configured or could not resolve server".
  unfold executeMCPNode, bind.
  destruct (str_truthy (mcpServerId (node_data node)));
    unfold call, ret; rewrite E; simpl; auto.
Qed.



End MCPFacts.

(** ** The agent executor *)

Module AgentFacts.
Import Agent Props ExecFacts.

Ltac frame_step :=
  match goal with
  | |- frame (ret _) => apply frame_ret
  | |- frame (throw _) => apply frame_throw
  | |- frame (lift _) => apply frame_lift
  | |- frame (call _ _) => apply frame_call
  | |- frame get_state => apply frame_get_state
  | |- frame (bind _ _) => apply frame_bind; [| intros ?]
  | |- frame (try_catch _ _) => apply frame_try_catch; [| intros ?]
  | |- frame (emap _ _) => apply frame_emap; intros ?
  | |- frame (match ?x with _ => _ end) => destruct x
  end.

Ltac frame_auto := repeat frame_step.

Section Frame.
Variables (R : Runtime) (S : Services).

Lemma frame_run_tool_call tools tc : frame (run_tool_call R S tools tc).
Proof. unfold run_tool_call. frame_auto. Qed.

Lemma frame_anthropic keys key m msgs tools :
  frame (anthropic_branch S keys key m msgs tools).
Proof. unfold anthropic_branch. frame_auto. Qed.

Lemma frame_openai key m msgs tools : frame (openai_branch R S key m msgs tools).
Proof.
  unfold openai_branch, openai_tool_round. frame_auto.
  apply frame_run_tool_call.
Qed.

Lemma frame_groq key m msgs tools : frame (groq_branch S key m msgs tools).
Proof. unfold groq_branch. frame_auto. Qed.

Lemma frame_gemini key m msgs : frame (gemini_branch S key m msgs).
Proof. unfold gemini_branch. frame_auto. Qed.

Lemma frame_aimlapi key m msgs : frame (aimlapi_branch S key m msgs).
Proof. unfold aimlapi_branch. frame_auto. Qed.

Lemma frame_dispatch keys provider m msgs tools :
  frame (dispatch R S keys provider m msgs tools).
Proof.
  unfold dispatch.
  repeat match goal with
         | |- frame (if ?c then _ else _) => destruct c
         end;
    auto using frame_anthropic, frame_openai, frame_groq, frame_gemini,
               frame_aimlapi, frame_throw.
Qed.

Lemma frame_agent_try node apiKeys : frame (agent_try R S node apiKeys).
Proof.
  unfold agent_try. frame_auto. apply frame_dispatch.
Qed.

Lemma frame_agent_catch node e : frame (agent_catch R S node e).
Proof. unfold agent_catch. frame_auto. Qed.

Lemma frame_executeAgentNode node apiKeys :
  frame (executeAgentNode R S node apiKeys).
Proof.
  unfold executeAgentNode.
  apply frame_try_catch; [apply frame_agent_try | apply frame_agent_catch].
Qed.

(** Whatever [executeAgentNode] returns was built by [agent_result] from
    a value and the chat updates for some assistant text. *)
Lemma agent_try_result node apiKeys st tr res :
  outcome_of (agent_try R S node apiKeys st tr) = Returned res ->
  exists value calls text,
    res = agent_result value calls (chat_updates (node_data node) text) false.
Proof.
  unfold agent_try, bind, get_state, outcome_of.
  destruct (mcpServerIds (migrateMCPData S (node_data node))); unfold call, ret;
    (destruct apiKeys as [keys |]; [| discriminate]);
    (destruct (mock_output R node) as [mockOutput |];
     [ simpl; intros [= <-]; eauto |]);
    destruct (parse_model _) as [provider modelName];
    match goal with
    | |- context [dispatch ?a ?b ?c ?d ?e ?f ?g ?h ?i] =>
        destruct (dispatch a b c d e f g h i) as [[[completion | e0] st'] tr']
    end; simpl; intros [= <-]; eauto.
Qed.

Lemma agent_catch_result node e st tr res :
  outcome_of (agent_catch R S node e st tr) = Returned res ->
  exists value calls text,
    res = agent_result value calls (chat_updates (node_data node) text) true.
Proof.
  unfold agent_catch, bind, get_state, ret, throw, outcome_of.
  repeat match goal with
         | |- context [if ?c then _ else _] => destruct c
         end; simpl; intros [= <-]; eauto.
Qed.

Lemma executeAgentNode_result node apiKeys st tr res :
  outcome_of (executeAgentNode R S node apiKeys st tr) = Returned res ->
  exists value calls text fallback,
    res = agent_result value calls (chat_updates (node_data node) text) fallback.
Proof.
  unfold executeAgentNode, try_catch.
  destruct (agent_try R S node apiKeys st tr) as [[[res0 | e] st'] tr'] eqn:E.
  - intros [= <-].
    destruct (agent_try_result node apiKeys st tr res0) as (v & c & t & ->); eauto.
    now rewrite E.
  - intros H. destruct (agent_catch_result node e st' tr' res H) as (v & c & t & ->).
    eauto.
Qed.

End Frame.

(** C8. [executeAgentNode] leaves the state argument as it found it,
    [chatHistory] and [variables] alike; what it proposes is in the result:
    [__variableUpdates] holds just [lastOutput], and
    [__chatHistoryUpdates] the user and assistant turns of this step (or
    nothing when the step does not use chat history). *)
Theorem executeAgentNode_never_mutates_state :
  forall (R : Runtime) (S : Services) (node : WorkflowNode)
         (apiKeys : option ApiKeys) (st : WorkflowState) (tr : list Event),
    chatHistory (state_of (executeAgentNode R S node apiKeys st tr)) = chatHistory st
    /\ variables (state_of (executeAgentNode R S node apiKeys st tr)) = variables st
    /\ forall res,
         outcome_of (executeAgentNode R S node apiKeys st tr) = Returned res ->
         __variableUpdates res = {[ "lastOutput" := __agentValue res ]}
         /\ exists text,
              __chatHistoryUpdates res = chat_updates (node_data node) text.
Proof.
  intros R S node apiKeys st tr.
  rewrite (frame_executeAgentNode R S node apiKeys st tr).
  repeat split.
  - destruct (executeAgentNode_result R S node apiKeys st tr res H)
      as (v & c & t & f & ->). reflexivity.
  - destruct (executeAgentNode_result R S node apiKeys st tr res H)
      as (v & c & t & f & ->). exists t. reflexivity.
Qed.

(** *** The mock-response short-circuit *)




(** *** Usage accounting of the OpenAI tool loop *)

Lemma run_tool_call_returns R S tools tc st tr :
  exists msg tr', run_tool_call R S tools tc st tr = (Returned msg, st, tr').
Proof.
  unfold run_tool_call, try_catch, bind, lift, call, throw, ret.
  destruct (find _ tools) as [mcpServer |]; [| eauto].
  destruct (js_JSON_parse R (fn_arguments tc)) as [args | e]; [| eauto].
  destruct (tool_post S _ _ _) as [result | e]; [| eauto].
  destruct (js_get result "result"); eauto.
Qed.

Lemma emap_tool_calls_return R S tools calls : forall st tr,
  exists msgs tr', emap (run_tool_call R S tools) calls st tr = (Returned msgs, st, tr').
Proof.
  induction calls as [| tc calls IH]; intros st tr; simpl.
  - unfold ret. eauto.
  - unfold bind.
    destruct (run_tool_call_returns R S tools tc st tr) as (msg & tr1 & ->).
    destruct (IH st tr1) as (msgs & tr2 & ->). unfold ret. eauto.
Qed.

Lemma loop_results_spec R S tools message st tr msgs st' tr' :
  emap (run_tool_call R S tools) (m_tool_calls message) st tr = (Returned msgs, st', tr') ->
  loop_results R S tools message st tr = msgs.
Proof. intros E. unfold loop_results. now rewrite E. Qed.

(** C7. In the OpenAI tool-calling path ([openai_branch] with tools
    configured, a first completion that asks for tool calls, a second
    completion that answers the tool messages the loop produced, and tool
    calls whose bookkeeping goes through), the [usage] the path ends with
    holds, for each of [prompt_tokens], [completion_tokens] and
    [total_tokens], the sum of what the first and the second completion
    call reported (a count a call did not report being 0). *)
Theorem openai_tool_path_sums_usage :
  forall (R : Runtime) (S : Services) (key modelName : string)
         (messages : list Message) (tools : list McpServer)
         (response finalResponse : ChatCompletion) (message : ChoiceMessage)
         (tracked : list JSValue) (st : WorkflowState) (tr : list Event),
    let toolResults := loop_results R S tools message st (tr ++ [EvProvider "openai"])%list in
    let first := usage_or_empty (cc_usage response) in
    let second := usage_or_empty (cc_usage finalResponse) in
    tools <> [] ->
    openai_chat_create S key None (first_request modelName messages tools)
    = Returned response ->
    first_choice response = Returned message ->
    m_tool_calls message <> [] ->
    openai_chat_create S key None (second_request modelName messages message toolResults)
    = Returned finalResponse ->
    choices finalResponse <> [] ->
    track_tool_calls R (m_tool_calls message) toolResults = Returned tracked ->
    exists completion,
      outcome_of (openai_branch R S key modelName messages tools st tr)
      = Returned completion
      /\ prompt_tokens (usage completion)
         = Some (tok (prompt_tokens first) + tok (prompt_tokens second))%Z
      /\ completion_tokens (usage completion)
         = Some (tok (completion_tokens first) + tok (completion_tokens second))%Z
      /\ total_tokens (usage completion)
         = Some (tok (total_tokens first) + tok (total_tokens second))%Z.
Proof.
  intros R S key modelName messages tools response finalResponse message tracked st tr
         toolResults first second Htools Hfirst Hmsg Hcalls Hsecond Hchoice Htrack.
  destruct (emap_tool_calls_return R S tools (m_tool_calls message) st
              (tr ++ [EvProvider "openai"])%list) as (msgs & tr1 & Eloop).
  assert (Hres : toolResults = msgs)
    by exact (loop_results_spec R S tools message st _ msgs st tr1 Eloop).
  clearbody toolResults. subst toolResults.
  unfold openai_branch, openai_tool_round.
  destruct tools as [| tool tools']; [congruence |].
  unfold bind at 1, call. rewrite Hfirst.
  unfold bind at 1, lift. rewrite Hmsg.
  destruct (m_tool_calls message) as [| tc calls]; [congruence |].
  unfold bind at 1. unfold bind at 1. rewrite Eloop.
  unfold bind at 1. rewrite Hsecond.
  unfold bind at 1, first_choice.
  destruct (choices finalResponse) as [| finalMessage others]; [congruence |].
  unfold ret at 1. unfold bind. rewrite Htrack.
  unfold ret, outcome_of. simpl.
  eexists. repeat split.
Qed.

(** *** A provider without a key *)

Lemma dispatch_without_key R S keys provider modelName messages tools :
  key_supplied keys provider = false ->
  dispatch R S keys provider modelName messages tools
  = throw (JsError (no_key_message provider)).
Proof.
  unfold key_supplied, dispatch. intros H.
  repeat match goal with
         | |- context [if ?c then _ else _] =>
             destruct c eqn:?; simpl in H; try discriminate
         end.
  reflexivity.
Qed.

Lemma no_key_message_has_API_key provider :
  includes (no_key_message provider) "API key" = true.
Proof. reflexivity. Qed.

(** C1, as the code has it.  When no mock response is configured and
    [apiKeys] holds no key for the requested provider, the [try] block
    raises [No API key available for provider: <provider>], and the
    [catch] block then decides what the caller sees: with the fallback
    policy enabled a fallback-tagged result is returned; with the policy
    disabled the error thrown carries one of the block's fixed guidance
    texts for a missing key, the same whatever provider was requested. *)
Theorem missing_provider_key_outcome :
  forall (R : Runtime) (S : Services) (node : WorkflowNode) (keys : ApiKeys)
         (st : WorkflowState) (tr : list Event),
    mock_output R node = None ->
    key_supplied keys (requested_provider node) = false ->
    outcome_of (agent_try R S node (Some keys) st tr)
    = Thrown (JsError (no_key_message (requested_provider node)))
    /\ (useFallback (env R) = true ->
        exists res,
          outcome_of (executeAgentNode R S node (Some keys) st tr) = Returned res
          /\ _fallback res = true
          /\ __agentValue res = JStr (fallback_text S (pick_fallback node st)))
    /\ (useFallback (env R) = false ->
        exists msg,
          outcome_of (executeAgentNode R S node (Some keys) st tr)
          = Thrown (JsError msg)
          /\ In msg key_guidance).
Proof.
  intros R S node keys st tr Hmock Hkey.
  unfold requested_provider in *.
  assert (Htry : exists tr',
             agent_try R S node (Some keys) st tr
             = (Thrown (JsError (no_key_message
                  (parse_model (str_or (model (node_data node)) default_model)).1)),
                st, tr')).
  { unfold agent_try, bind, get_state.
    destruct (mcpServerIds (migrateMCPData S (node_data node))); unfold call, ret;
      rewrite Hmock;
      destruct (parse_model _) as [provider modelName]; simpl in *;
      rewrite (dispatch_without_key R S keys provider modelName _ _ Hkey);
      unfold throw; eauto. }
  destruct Htry as [tr' Htry].
  split; [now rewrite Htry |].
  unfold executeAgentNode, try_catch. rewrite Htry.
  unfold agent_catch, exn_message.
  split; intros Hpol; rewrite Hpol.
  - unfold bind, get_state, ret, outcome_of. simpl. eauto.
  - rewrite no_key_message_has_API_key. simpl. eauto.
Qed.

End AgentFacts.

(** ** The HTTP executor *)

Module HTTPFacts.
Import HTTP.

(** C5, as the code has it.  Once [fetch] has answered and the body has
    been read, a 2xx response is returned as
    [{status, statusText, headers, data, url, method}]; any other response
    makes [executeHTTPNode] throw an error whose message is
    [HTTP request failed: HTTP <status>: <statusText>], which carries the
    status line and not the body. *)
Theorem executeHTTPNode_response_handling :
  forall (R : Runtime) (S : Services) (node : WorkflowNode)
         (st : WorkflowState) (tr : list Event)
         (hs : gmap string string) (response : Response) (body : JSValue),
    let nodeData := node_data node in
    let target := substituteVariables R (str_or (httpUrl nodeData) "") st in
    let verb := str_or (httpMethod nodeData) "GET" in
    add_auth R S st nodeData (build_headers R st (httpHeaders nodeData)) = Returned hs ->
    fetch S {| req_url := target; req_method := verb; req_headers := hs;
               req_body := build_body R st nodeData verb |} = Returned response ->
    read_body response = Returned body ->
    (resp_ok response = true ->
       outcome_of (executeHTTPNode R S node st tr)
       = Returned {| status := resp_status response;
                     statusText := resp_statusText response;
                     headers := fold_left (fun o kv => <[kv.1 := kv.2]> o)
                                          (resp_headers response) ∅;
                     data := body;
                     url := target;
                     method := verb |})
    /\ (resp_ok response = false ->
          outcome_of (executeHTTPNode R S node st tr)
          = Thrown (JsError ("HTTP request failed: HTTP "
                             +:+ dec_Z (resp_status response) +:+ ": "
                             +:+ resp_statusText response))).
Proof.
  intros R S node st tr hs response body nodeData target verb Hauth Hfetch Hbody.
  unfold executeHTTPNode, try_catch, bind, get_state, lift, call.
  fold nodeData target verb. rewrite Hauth, Hfetch, Hbody.
  split; intros Hok; rewrite Hok; reflexivity.
Qed.

End HTTPFacts.

(** ** [lastOutput] after a step *)

Module LastOutputFacts.
Import MCP Props ExecFacts MCPFacts.

Section Loop.
Variables (R : Runtime) (S : Services) (nodeData : NodeData).

Lemma last_success_data_snoc rs e :
  last_success_data (rs ++ [e])
  = if success e then entry_data e else last_success_data rs.
Proof. unfold last_success_data. rewrite fold_left_app. reflexivity. Qed.

Lemma generic_branch_inv st0 sc results st tr :
  loop_inv st0 results st ->
  exists results' st' tr',
    generic_branch R sc results st tr = (Returned results', st', tr')
    /\ loop_inv st0 results' st'.
Proof.
  intros Hinv.
  unfold generic_branch, try_catch, bind, get_state, lift, put_var, ret.
  destruct (executeGenericMCPServer R sc st) as [[tool data] | e]; simpl;
    eexists _, _, _; (split; [reflexivity |]);
    unfold loop_inv; rewrite last_success_data_snoc; simpl.
  - apply var_set_var.
  - exact Hinv.
Qed.

Lemma firecrawl_branch_output st tr res :
  outcome_of (firecrawl_branch R S nodeData st tr) = Returned res ->
  exists o, output res = Some o
            /\ var (state_of (firecrawl_branch R S nodeData st tr)) "lastOutput" = o.
Proof.
  unfold firecrawl_branch.
  destruct (str_truthy (firecrawl_key S)); [| discriminate].
  set (key := str_or (firecrawl_key S) "").
  set (action := str_or (mcpAction nodeData) "scrape").
  unfold try_catch, firecrawl_success, bind.
  destruct (firecrawl_call R S key nodeData action st tr)
    as [[[result | e] st1] tr1].
  - unfold lift. destruct (project_output nodeData result) as [outputData | e].
    + unfold put_var, get_state, ret, outcome_of, state_of. simpl.
      intros [= <-]. simpl. eauto using var_set_var.
    + unfold firecrawl_catch.
      destruct (useFallback (env R) && (action =? "search")); [| discriminate].
      unfold bind, get_state, lift.
      destruct (project_output nodeData _) as [outputData |]; [| discriminate].
      unfold put_var, ret, outcome_of, state_of. simpl.
      intros [= <-]. simpl. eauto using var_set_var.
  - unfold firecrawl_catch.
    destruct (useFallback (env R) && (action =? "search")); [| discriminate].
    unfold bind, get_state, lift.
    destruct (project_output nodeData _) as [outputData |]; [| discriminate].
    unfold put_var, ret, outcome_of, state_of. simpl.
    intros [= <-]. simpl. eauto using var_set_var.
Qed.

Lemma run_servers_lastOutput st0 all remaining : forall results st tr res,
  loop_inv st0 results st ->
  outcome_of (run_servers R S nodeData all remaining results st tr) = Returned res ->
  match surfaced_output res with
  | Some o =>
      var (state_of (run_servers R S nodeData all remaining results st tr)) "lastOutput" = o
  | None => state_of (run_servers R S nodeData all remaining results st tr) = st0
  end.
Proof.
  induction remaining as [| sc rest IH]; intros results st tr res Hinv.
  - simpl. unfold ret, outcome_of, state_of. simpl. intros [= <-].
    unfold surfaced_output. simpl. exact Hinv.
  - simpl. unfold bind at 1 3 5, lift.
    destruct (server_name_lower sc) as [lname | e]; [| discriminate].
    destruct (includes lname "firecrawl").
    + intros H. destruct (firecrawl_branch_output st tr res H) as (o & Ho & Hv).
      unfold surfaced_output. rewrite Ho. exact Hv.
    + unfold bind.
      destruct (generic_branch_inv st0 sc results st tr Hinv)
        as (results' & st' & tr' & -> & Hinv').
      apply IH, Hinv'.
Qed.

End Loop.

(** C2. When an executor returns, [lastOutput] matches what the result
    surfaces.  Remote-tool executor: the state's [lastOutput] equals the
    result's [output] (Firecrawl paths) or the data of the last server
    that succeeded (generic path), and a result that surfaces neither
    leaves the state as it was.  Agent executor: the [lastOutput] entry of
    [__variableUpdates] equals [__agentValue]. *)
Theorem lastOutput_equals_surfaced_output :
  forall (R : Runtime) (SM : MCP.Services) (SA : Agent.Services)
         (node : WorkflowNode) (apiKey : option string)
         (apiKeys : option Agent.ApiKeys) (st : WorkflowState) (tr : list Event),
    (forall res,
        outcome_of (executeMCPNode R SM node apiKey st tr) = Returned res ->
        match surfaced_output res with
        | Some out =>
            var (state_of (executeMCPNode R SM node apiKey st tr)) "lastOutput" = out
        | None => state_of (executeMCPNode R SM node apiKey st tr) = st
        end)
    /\ (forall res,
          outcome_of (Agent.executeAgentNode R SA node apiKeys st tr) = Returned res ->
          Agent.__variableUpdates res !! "lastOutput" = Some (Agent.__agentValue res)).
Proof.
  intros R SM SA node apiKey apiKeys st tr. split.
  - intros res. unfold executeMCPNode, bind.
    assert (Hgo : forall tr0,
               outcome_of
                 (match resolved_servers SM (node_data node) with
                  | [] => ret no_server_result
                  | _ :: _ =>
                      run_servers R SM (node_data node)
                        (resolved_servers SM (node_data node))
                        (resolved_servers SM (node_data node)) []
                  end st tr0) = Returned res ->
               match surfaced_output res with
               | Some out =>
                   var (state_of
                          (match resolved_servers SM (node_data node) with
                           | [] => ret no_server_result
                           | _ :: _ =>
                               run_servers R SM (node_data node)
                                 (resolved_servers SM (node_data node))
                                 (resolved_servers SM (node_data node)) []
                           end st tr0)) "lastOutput" = out
               | None =>
                   state_of
                     (match resolved_servers SM (node_data node) with
                      | [] => ret no_server_result
                      | _ :: _ =>
                          run_servers R SM (node_data node)
                            (resolved_servers SM (node_data node))
                            (resolved_servers SM (node_data node)) []
                      end st tr0) = st
               end).
    { intros tr0. destruct (resolved_servers SM (node_data node)) as [| s l] eqn:E.
      - unfold ret, outcome_of, state_of. simpl. intros [= <-]. reflexivity.
      - apply run_servers_lastOutput. reflexivity. }
    destruct (str_truthy (mcpServerId (node_data node))); unfold call, ret; apply Hgo.
  - intros res H.
    destruct (AgentFacts.executeAgentNode_result R SA node apiKeys st tr res H)
      as (v & c & t & f & ->).
    unfold Agent.agent_result. simpl. apply lookup_singleton_eq.
Qed.

End LastOutputFacts.

(** ** Concrete runs *)

Module Scenarios.
Import Demo.

(** C9 on a node whose server id is unknown to the registry. *)
Lemma executeMCPNode_unresolved_returns_error_witness :
  mcpServers (node_data unresolved_step) = []
  /\ exists res msg,
       outcome_of (MCP.executeMCPNode on failing_firecrawl unresolved_step None busy_state [])
       = Returned res
       /\ MCP.error res = Some msg
       /\ state_of (MCP.executeMCPNode on failing_firecrawl unresolved_step None busy_state [])
          = busy_state.
Proof.
  split; [reflexivity |].
  apply (MCPFacts.executeMCPNode_unresolved_returns_error
           on failing_firecrawl unresolved_step None busy_state []).
  - reflexivity.
  - intros id _. reflexivity.
Defined.


(** C2 on a DeepWiki step and on an agent step that falls back. *)
Lemma lastOutput_equals_surfaced_output_witness :
  (exists res out,
      outcome_of (MCP.executeMCPNode on failing_firecrawl deepwiki_step None busy_state [])
      = Returned res
      /\ Props.surfaced_output res = Some out
      /\ var (state_of (MCP.executeMCPNode on failing_firecrawl deepwiki_step None
                          busy_state [])) "lastOutput" = out)
  /\ (exists res,
        outcome_of (Agent.executeAgentNode on agent_services groq_step
                      (Some openai_only) busy_state []) = Returned res
        /\ Agent.__variableUpdates res !! "lastOutput" = Some (Agent.__agentValue res)).
Proof.
  destruct (LastOutputFacts.lastOutput_equals_surfaced_output
              on failing_firecrawl agent_services deepwiki_step None
              (Some openai_only) busy_state []) as [Hmcp _].
  destruct (LastOutputFacts.lastOutput_equals_surfaced_output
              on failing_firecrawl agent_services groq_step None
              (Some openai_only) busy_state []) as [_ Hagent].
  split.
  - eexists _, _. split; [vm_compute; reflexivity |].
    split; [vm_compute; reflexivity |].
    exact (Hmcp _ eq_refl).
  - eexists. split; [vm_compute; reflexivity |].
    apply Hagent. vm_compute. reflexivity.
Defined.

(** C5 as stated fails here: the response is a 404 whose body reads
    [quota exceeded]; the error that [executeHTTPNode] throws carries the
    status line and nothing of the body. *)
Lemma http_error_carries_no_body :
  outcome_of (HTTP.executeHTTPNode on (http_services (Returned not_found))
                items_step busy_state [])
  = Thrown (JsError "HTTP request failed: HTTP 404: Not Found")
  /\ includes "HTTP request failed: HTTP 404: Not Found" "quota exceeded" = false
  /\ includes "HTTP request failed: HTTP 404: Not Found" "detail" = false.
Proof. repeat split; vm_compute; reflexivity. Qed.

(** C5, amended, on a 200 and on a 404. *)
Lemma executeHTTPNode_response_handling_witness :
  (exists res,
      outcome_of (HTTP.executeHTTPNode on (http_services (Returned found))
                    items_step busy_state []) = Returned res
      /\ HTTP.status res = 200%Z /\ HTTP.statusText res = "OK"
      /\ HTTP.data res = JObj [("items", JArr [JNum 1; JNum 2])]
      /\ HTTP.url res = "https://api.example.com/items" /\ HTTP.method res = "GET")
  /\ outcome_of (HTTP.executeHTTPNode on (http_services (Returned not_found))
                   items_step busy_state [])
     = Thrown (JsError "HTTP request failed: HTTP 404: Not Found").
Proof.
  split.
  - eexists. split.
    + apply (HTTPFacts.executeHTTPNode_response_handling
               on (http_services (Returned found)) items_step busy_state []
               ∅ found (JObj [("items", JArr [JNum 1; JNum 2])]));
        reflexivity.
    + repeat split.
  - apply (HTTPFacts.executeHTTPNode_response_handling
             on (http_services (Returned not_found)) items_step busy_state []
             ∅ not_found (JObj [("detail", JStr "quota exceeded")]));
      reflexivity.
Defined.


(** C7 on the example of the specification: 10 prompt tokens reported by
    the first call and 5 by the second give 15. *)
Lemma openai_tool_path_sums_usage_witness :
  exists completion,
    outcome_of (Agent.openai_branch on agent_services "sk-test" "gpt-4o"
                  question [weather_tool] busy_state [])
    = Returned completion
    /\ Agent.prompt_tokens (Agent.usage completion) = Some 15%Z
    /\ Agent.completion_tokens (Agent.usage completion) = Some 0%Z
    /\ Agent.total_tokens (Agent.usage completion) = Some 0%Z.
Proof.
  apply (AgentFacts.openai_tool_path_sums_usage
           on agent_services "sk-test" "gpt-4o" question [weather_tool]
           first_completion final_completion asks_for_tool
           [JObj [("id", JStr "call_1"); ("name", JStr "weather");
                  ("arguments", JObj []); ("output", JStr "sunny")]]
           busy_state []).
  - discriminate.
  - reflexivity.
  - reflexivity.
  - discriminate.
  - reflexivity.
  - discriminate.
  - vm_compute. reflexivity.
Defined.

(** C8 on a step with chat history, run against a state that has some. *)
Lemma executeAgentNode_never_mutates_state_witness :
  chatHistory (state_of (Agent.executeAgentNode on agent_services groq_step
                           (Some openai_only) busy_state []))
  = chatHistory busy_state
  /\ variables (state_of (Agent.executeAgentNode on agent_services groq_step
                            (Some openai_only) busy_state []))
     = variables busy_state
  /\ exists res text,
       outcome_of (Agent.executeAgentNode on agent_services groq_step
                     (Some openai_only) busy_state []) = Returned res
       /\ Agent.__variableUpdates res = {[ "lastOutput" := Agent.__agentValue res ]}
       /\ Agent.__chatHistoryUpdates res
          = [ {| role := "user"; content := "Summarise the input" |};
              {| role := "assistant"; content := text |} ].
Proof.
  destruct (AgentFacts.executeAgentNode_never_mutates_state
              on agent_services groq_step (Some openai_only) busy_state [])
    as (Hc & Hv & Hres).
  split; [exact Hc |]. split; [exact Hv |].
  eexists _, _. split; [vm_compute; reflexivity |].
  split; [| reflexivity].
  apply (Hres _ eq_refl).
Defined.

(** C1 as stated fails here: the model string asks for [groq], the keys
    hold one for [openai] only, and fallback is disabled; the error thrown
    is the fixed text, in which [groq] does not occur. *)
Lemma missing_key_error_omits_provider :
  Props.requested_provider groq_step = "groq"
  /\ outcome_of (Agent.executeAgentNode off agent_services groq_step
                   (Some openai_only) busy_state [])
     = Thrown (JsError "Missing API key. Please add your LLM provider key in Settings.")
  /\ includes "Missing API key. Please add your LLM provider key in Settings." "groq"
     = false.
Proof. repeat split; vm_compute; reflexivity. Qed.

(** The same step with the policy at its default: nothing is thrown. *)
Example missing_key_falls_back_by_default :
  exists res,
    outcome_of (Agent.executeAgentNode on agent_services groq_step
                  (Some openai_only) busy_state []) = Returned res
    /\ Agent._fallback res = true.
Proof. eexists. split; vm_compute; reflexivity. Qed.

(** C1, amended, on that step. *)
Lemma missing_provider_key_outcome_witness :
  outcome_of (Agent.agent_try off agent_services groq_step (Some openai_only)
                busy_state [])
  = Thrown (JsError "No API key available for provider: groq")
  /\ (exists res,
        outcome_of (Agent.executeAgentNode on agent_services groq_step
                      (Some openai_only) busy_state []) = Returned res
        /\ Agent._fallback res = true
        /\ Agent.__agentValue res = JStr "# Stock Analysis Report")
  /\ (exists msg,
        outcome_of (Agent.executeAgentNode off agent_services groq_step
                      (Some openai_only) busy_state []) = Thrown (JsError msg)
        /\ In msg Props.key_guidance).
Proof.
  destruct (AgentFacts.missing_provider_key_outcome
              off agent_services groq_step openai_only busy_state []
              eq_refl eq_refl) as (Htry & _ & Hoff).
  destruct (AgentFacts.missing_provider_key_outcome
              on agent_services groq_step openai_only busy_state []
              eq_refl eq_refl) as (_ & Hon & _).
  split; [exact Htry |]. split; [exact (Hon eq_refl) | exact (Hoff eq_refl)].
Defined.

End Scenarios.

(* ================================================================= *)
(** * Further properties of the executors *)

(** ** Strings *)

Module StringFacts.
Import Props.

Lemma append_cons (x : ascii) (a b : string) :
  String x a +:+ b = String x (a +:+ b).
Proof. reflexivity. Qed.

Lemma append_nil_l (b : string) : "" +:+ b = b.
Proof. reflexivity. Qed.

Lemma append_assoc (a b c : string) : (a +:+ b) +:+ c = a +:+ (b +:+ c).
Proof.
  induction a as [| x a IH]; [reflexivity |].
  rewrite !append_cons. now rewrite IH.
Qed.

Lemma append_nil_r (a : string) : a +:+ "" = a.
Proof.
  induction a as [| x a IH]; [reflexivity |]. rewrite append_cons. now rewrite IH.
Qed.

Lemma length_append (a b : string) :
  String.length (a +:+ b) = String.length a + String.length b.
Proof.
  induction a as [| x a IH]; [reflexivity |]. rewrite append_cons. simpl. now rewrite IH.
Qed.

Lemma prefix_spec (p s : string) :
  String.prefix p s = true <-> exists b, s = p +:+ b.
Proof.
  revert s. induction p as [| x p IH]; intros s; simpl.
  - destruct s; split; eauto.
  - destruct s as [| y s]; [split; [discriminate | intros [b Hb]; discriminate] |].
    simpl. destruct (ascii_dec x y) as [-> | Hxy].
    + rewrite IH. split; intros [b Hb]; exists b.
      * rewrite append_cons. now rewrite Hb.
      * rewrite append_cons in Hb. now injection Hb.
    + split; [discriminate |].
      intros [b Hb]. rewrite append_cons in Hb. injection Hb. congruence.
Qed.

Lemma includes_nil (sub : string) : includes "" sub = (sub =? "").
Proof. destruct sub; reflexivity. Qed.

Lemma includes_cons (c : ascii) (s sub : string) :
  includes (String c s) sub = String.prefix sub (String c s) || includes s sub.
Proof.
  unfold includes.
  change (index 0 sub (String c s))
    with (if String.prefix sub (String c s) then Some 0
          else match index 0 sub s with Some n => Some (S n) | None => None end).
  destruct (String.prefix sub (String c s)); [reflexivity |].
  destruct (index 0 sub s); reflexivity.
Qed.

(** [s.includes(sub)] holds exactly when [sub] occurs in [s]. *)
Lemma includes_spec (s sub : string) :
  includes s sub = true <-> exists a b, s = a +:+ sub +:+ b.
Proof.
  induction s as [| c s IH].
  - rewrite includes_nil, String.eqb_eq. split.
    + intros ->. exists "", "". reflexivity.
    + intros (a & b & H). destruct a; [| discriminate]. destruct sub; [reflexivity | discriminate].
  - rewrite includes_cons, orb_true_iff, prefix_spec, IH. split.
    + intros [[b Hb] | (a & b & ->)].
      * exists "", b. exact Hb.
      * exists (String c a), b. reflexivity.
    + intros (a & b & H). destruct a as [| x a].
      * left. exists b. exact H.
      * right. simpl in H. injection H as _ ->. eauto.
Qed.

Lemma includes_within (s big a sub b : string) :
  big = a +:+ sub +:+ b -> includes s big = true -> includes s sub = true.
Proof.
  intros -> H. apply includes_spec in H as (l & r & ->).
  apply includes_spec. exists (l +:+ a), (b +:+ r).
  now rewrite !append_assoc.
Qed.

Lemma span_split p s a b :
  span p s = (a, b) ->
  s = a +:+ b /\ all_chars p a = true
  /\ (b = "" \/ exists c b', b = String c b' /\ p c = false).
Proof.
  revert a b. induction s as [| c s IH]; intros a b; simpl.
  - intros [= <- <-]. auto.
  - destruct (p c) eqn:Ec.
    + destruct (span p s) as [a' b'] eqn:E. intros [= <- <-].
      destruct (IH a' b' eq_refl) as (-> & Ha & Hb). simpl. rewrite Ec. auto.
    + intros [= <- <-]. simpl. repeat split. right. eauto.
Qed.

Lemma substring_prefix (a b : string) : substring 0 (String.length a) (a +:+ b) = a.
Proof.
  induction a as [| x a IH]; simpl; [destruct b; reflexivity | now rewrite IH].
Qed.

Lemma substring_skip (a b : string) n m :
  substring (String.length a + n) m (a +:+ b) = substring n m b.
Proof. induction a as [| x a IH]; simpl; [reflexivity | exact IH]. Qed.

Lemma substring_all (s : string) : substring 0 (String.length s) s = s.
Proof. rewrite <- (append_nil_r s) at 2. apply substring_prefix. Qed.

End StringFacts.

(** ** Field extraction *)

Module ExtractCoverage.
Import Extract Props Notions StringFacts ExtractFacts MCPFacts.

Lemma span_digits_close digits :
  all_chars is_digit digits = true ->
  span is_digit (digits +:+ "]") = (digits, "]").
Proof. intros H. apply (span_stop is_digit digits "]" "" H eq_refl). Qed.

(** X2. The array-segment pattern [/^(\w+)\[(\d+)\]$/] accepts exactly
    the strings [name[digits]] with a non-empty name of letters, digits
    and underscores and a non-empty run of digits, and captures those two
    parts. *)
Theorem match_array_part_spec :
  forall part name digits : string,
    match_array_part part = Some (name, digits)
    <-> (part = name +:+ "[" +:+ digits +:+ "]"
         /\ is_word name = true
         /\ digits <> ""
         /\ all_chars is_digit digits = true).
Proof.
  intros part name digits. split.
  - unfold match_array_part.
    destruct (span is_word_char part) as [n r] eqn:E1.
    destruct (span_split _ _ _ _ E1) as (-> & Hn & _).
    destruct n as [| x n]; [discriminate |].
    destruct r as [| c r1]; [discriminate |].
    destruct c as [[] [] [] [] [] [] [] []]; try discriminate.
    destruct (span is_digit r1) as [d r2] eqn:E2.
    destruct (span_split _ _ _ _ E2) as (-> & Hd & _).
    destruct d as [| y d]; [discriminate |].
    destruct r2 as [| c2 r3]; [discriminate |].
    destruct c2 as [[] [] [] [] [] [] [] []]; try discriminate.
    destruct r3; [| discriminate].
    intros [= <- <-]. repeat split; auto; discriminate.
  - intros (-> & Hw & Hne & Hd). unfold match_array_part, is_word in *.
    apply andb_true_iff in Hw as [Hn Hw].
    change ("[" +:+ digits +:+ "]") with (String "[" (digits +:+ "]")).
    rewrite (span_stop is_word_char name "[" _ Hw eq_refl).
    destruct name as [| x name]; [discriminate |].
    rewrite (span_digits_close digits Hd).
    destruct digits; [congruence | reflexivity].
Qed.

Lemma match_array_part_needs_bracket part :
  all_chars no_bracket part = true -> match_array_part part = None.
Proof.
  intros H. destruct (match_array_part part) as [[name digits] |] eqn:E; [| reflexivity].
  apply match_array_part_spec in E as (-> & _).
  rewrite all_chars_app in H. apply andb_true_iff in H as [_ H].
  discriminate.
Qed.

Lemma split_on_all_chars p s :
  all_chars p s = true -> Forall (fun part => all_chars p part = true) (split_on "." s).
Proof.
  induction s as [| c s IH]; simpl; intros H.
  - repeat constructor.
  - apply andb_true_iff in H as [Hc Hs]. specialize (IH Hs).
    destruct (Ascii.eqb c ".").
    + constructor; [reflexivity | exact IH].
    + destruct (split_on "." s) as [| h t]; [repeat constructor; simpl; now rewrite Hc |].
      inversion IH; subst. constructor; [simpl; now rewrite Hc | assumption].
Qed.

Lemma walk_parts_plain parts : forall v,
  Forall (fun part => all_chars no_bracket part = true) parts ->
  exists w, walk_parts parts v = Returned w.
Proof.
  induction parts as [| part rest IH]; intros v H; simpl; [eauto |].
  inversion H as [| ? ? Hp Hrest]; subst.
  unfold step_part. rewrite (match_array_part_needs_bracket _ Hp). simpl.
  destruct (is_undefined (js_opt_get v part)); eauto.
Qed.

(** X3. A custom path without array-form segments never throws, whatever
    the data, [null] and [undefined] included: the walk only uses guarded
    reads.  (The reads are taken within the model: none goes through the
    prototype chain, where an accessor may throw.) *)
Theorem extractField_plain_path_never_throws :
  forall (data : JSValue) (path : string),
    path <> "" ->
    all_chars no_bracket path = true ->
    walk_in_model (split_on "." path) data = true ->
    exists v, extractField data "custom" (Some path) = Returned v.
Proof.
  intros data path Hne Hp _. unfold extractField. simpl.
  apply String.eqb_neq in Hne. rewrite Hne. simpl.
  apply walk_parts_plain, split_on_all_chars, Hp.
Qed.

Lemma extractField_plain_path_never_throws_witness :
  exists v, extractField JNull "custom" (Some "a.b.c") = Returned v.
Proof.
  apply (extractField_plain_path_never_throws JNull "a.b.c");
    [discriminate | reflexivity | reflexivity].
Defined.

(** X4. On [null] or [undefined] data every projection other than [full]
    and a custom path throws a [TypeError]: the named projections read a
    member of the data unguarded. *)
Theorem extractField_nullish_data_throws :
  forall (data : JSValue) (field : string) (customPath : option string),
    is_nullish data = true ->
    field <> "full" ->
    (field = "custom" -> str_truthy customPath = false) ->
    exists key, extractField data field customPath = Thrown (type_error_read data key).
Proof.
  intros data field customPath Hn Hfull Hcustom.
  unfold extractField, js_get. rewrite Hn.
  apply String.eqb_neq in Hfull. rewrite Hfull.
  destruct (field =? "custom") eqn:Ec.
  - apply String.eqb_eq in Ec. rewrite (Hcustom Ec). simpl.
    subst field. simpl. eauto.
  - simpl.
    repeat match goal with
           | |- context [if ?c then _ else _] => destruct c
           end; simpl; eauto.
Qed.

Lemma extractField_nullish_data_throws_witness :
  exists key, extractField JNull "markdown" None = Thrown (type_error_read JNull key).
Proof.
  apply (extractField_nullish_data_throws JNull "markdown" None);
    [reflexivity | discriminate | discriminate].
Defined.

(** X5. The [urls] projection prefers [results]: when [data.results] is
    an array of values none of which is [null] or [undefined], the
    projection is the array of their [url] members, one per result in the
    same order, whatever [data.urls] and [data.links] hold. *)
Theorem extractField_urls_prefers_results :
  forall (data : JSValue) (rs : list JSValue) (customPath : option string),
    is_nullish data = false ->
    own_prop data "results" = JArr rs ->
    forallb (fun r => negb (is_nullish r)) rs = true ->
    extractField data "urls" customPath
    = Returned (JArr (map (fun r => own_prop r "url") rs)).
Proof.
  intros data rs customPath Hn Hres Hrs.
  assert (E : omap (fun r => js_get r "url") rs
              = Returned (map (fun r => own_prop r "url") rs)).
  { clear Hres. induction rs as [| r rs IH]; [reflexivity |].
    simpl in Hrs. apply andb_true_iff in Hrs as [Hr Hrs].
    apply negb_true_iff in Hr. simpl. unfold js_get at 1. rewrite Hr. simpl.
    rewrite (IH Hrs). reflexivity. }
  unfold extractField. simpl. unfold js_get at 1. rewrite Hn. simpl. rewrite Hres, E.
  reflexivity.
Qed.

Lemma extractField_urls_prefers_results_witness :
  extractField
    (JObj [("urls", JArr [JStr "other"]);
           ("results", JArr [JObj [("url", JStr "a")]; JObj [("title", JStr "t")]])])
    "urls" None
  = Returned (JArr [JStr "a"; JUndefined]).
Proof.
  apply (extractField_urls_prefers_results
           (JObj [("urls", JArr [JStr "other"]);
                  ("results", JArr [JObj [("url", JStr "a")]; JObj [("title", JStr "t")]])])
           [JObj [("url", JStr "a")]; JObj [("title", JStr "t")]] None);
    reflexivity.
Defined.

(** X1 on a path through an object, an array item and an object. *)
Lemma extractField_custom_agrees_with_manual_indexing_witness :
  extractField
    (JObj [("a", JObj [("b", JArr [JNum 7; JObj [("c", JStr "hit")]])])])
    "custom" (Some "a.b[1].c")
  = Returned (JStr "hit").
Proof.
  apply (extractField_custom_agrees_with_manual_indexing
           (JObj [("a", JObj [("b", JArr [JNum 7; JObj [("c", JStr "hit")]])])])
           [Key "a"; At "b" 1; Key "c"] (JStr "hit"));
    [discriminate | reflexivity | reflexivity].
Defined.

End ExtractCoverage.

(** ** The remote-tool executor *)

Module MCPCoverage.
Import MCP Props Notions StringFacts ExecFacts MCPFacts.

Section Loop.
Variables (R : Runtime) (S : Services) (nodeData : NodeData).

Lemma generic_branch_step sc results st tr :
  exists e st',
    generic_branch R sc results st tr = (Returned (results ++ [e])%list, st', tr).
Proof.
  unfold generic_branch, try_catch, bind, get_state, lift, put_var, ret.
  destruct (executeGenericMCPServer R sc st) as [[tool data] | e]; simpl; eauto.
Qed.

Lemma run_servers_prefix all pre : forall rest results st tr,
  forallb is_generic pre = true ->
  exists results' st',
    run_servers R S nodeData all (pre ++ rest) results st tr
    = run_servers R S nodeData all rest results' st' tr
    /\ length results' = length results + length pre.
Proof.
  induction pre as [| sc pre IH]; intros rest results st tr H.
  - exists results, st. simpl. split; [reflexivity | lia].
  - simpl in H. apply andb_true_iff in H as [Hsc Hpre].
    unfold is_generic in Hsc.
    destruct (srv_name sc) as [n |] eqn:En; [| discriminate].
    apply negb_true_iff in Hsc.
    destruct (generic_branch_step sc results st tr) as (e & st1 & E1).
    destruct (IH rest (results ++ [e])%list st1 tr Hpre) as (r2 & st2 & E2 & Hlen).
    exists r2, st2. split.
    + rewrite <- E2. simpl. unfold server_name_lower. rewrite En.
      unfold bind at 1, lift. rewrite Hsc. unfold bind. rewrite E1. reflexivity.
    + rewrite Hlen, length_app. simpl. lia.
Qed.

Lemma unknown_server_throws sc st :
  is_unknown sc = true ->
  executeGenericMCPServer R sc st
  = Thrown (JsError (default "" (entry_error (not_implemented_entry sc)))).
Proof.
  unfold is_unknown, executeGenericMCPServer, server_name_lower.
  destruct (srv_name sc) as [n |] eqn:En; [| discriminate].
  intros H. apply andb_true_iff in H as [H Hdevin].
  apply andb_true_iff in H as [_ Hdeep].
  apply negb_true_iff in Hdevin, Hdeep. simpl. rewrite Hdeep, Hdevin. simpl.
  unfold not_implemented_entry. rewrite En. reflexivity.
Qed.

Lemma run_servers_unknown all remaining : forall results st tr,
  forallb is_unknown remaining = true ->
  run_servers R S nodeData all remaining results st tr
  = (Returned {| error := None;
                 results := (results ++ map not_implemented_entry remaining)%list;
                 extractedField := None; output := None;
                 mcpServers_out := map srv_name all;
                 toolCalls := []; _fallback := false |}, st, tr).
Proof.
  induction remaining as [| sc rest IH]; intros results st tr H.
  - simpl. rewrite app_nil_r. reflexivity.
  - simpl in H. apply andb_true_iff in H as [Hsc Hrest].
    pose proof (unknown_server_throws sc st Hsc) as Hthrow.
    unfold is_unknown in Hsc.
    destruct (srv_name sc) as [n |] eqn:En; [| discriminate].
    apply andb_true_iff in Hsc as [Hsc _]. apply andb_true_iff in Hsc as [Hfc _].
    apply negb_true_iff in Hfc.
    simpl. unfold server_name_lower. rewrite En.
    unfold bind at 1, lift. rewrite Hfc.
    unfold bind, generic_branch, try_catch, bind, get_state, lift.
    rewrite Hthrow. unfold ret.
    rewrite (IH _ st tr Hrest). rewrite <- app_assoc. reflexivity.
Qed.

End Loop.

Lemma executeMCPNode_unfold R S node apiKey st tr :
  executeMCPNode R S node apiKey st tr
  = match resolved_servers S (node_data node) with
    | [] => (Returned no_server_result, st, (tr ++ resolve_events (node_data node))%list)
    | _ :: _ =>
        run_servers R S (node_data node) (resolved_servers S (node_data node))
          (resolved_servers S (node_data node)) [] st
          (tr ++ resolve_events (node_data node))%list
    end.
Proof.
  unfold executeMCPNode, bind, resolve_events.
  destruct (str_truthy (mcpServerId (node_data node))); unfold call, ret;
    rewrite ?app_nil_r; destruct (resolved_servers S (node_data node)); reflexivity.
Qed.

(** X6. Generic servers never make [executeMCPNode] throw and never take
    it outside the process: with only generic servers resolved, it returns
    a result with one [results] entry per server, in an object that has no
    [output] member, and its only outside call is the registry lookup. *)
Theorem generic_servers_never_throw :
  forall (R : Runtime) (S : Services) (node : WorkflowNode)
         (apiKey : option string) (st : WorkflowState) (tr : list Event),
    resolved_servers S (node_data node) <> [] ->
    forallb is_generic (resolved_servers S (node_data node)) = true ->
    exists res,
      outcome_of (executeMCPNode R S node apiKey st tr) = Returned res
      /\ length (results res) = length (resolved_servers S (node_data node))
      /\ mcpServers_out res = map srv_name (resolved_servers S (node_data node))
      /\ output res = None
      /\ error res = None
      /\ trace_of (executeMCPNode R S node apiKey st tr)
         = (tr ++ resolve_events (node_data node))%list.
Proof.
  intros R S node apiKey st tr Hne Hgen.
  rewrite executeMCPNode_unfold.
  destruct (resolved_servers S (node_data node)) as [| s l] eqn:E; [congruence |].
  destruct (run_servers_prefix R S (node_data node) (s :: l) (s :: l) [] [] st
              (tr ++ resolve_events (node_data node))%list Hgen)
    as (results' & st' & Erun & Hlen).
  rewrite app_nil_r in Erun. rewrite Erun. simpl.
  eexists. repeat split. simpl. simpl in Hlen. exact Hlen.
Qed.

(** X7. Servers without an adapter fail in place: when every resolved
    server is named and is neither Firecrawl nor DeepWiki,
    [executeMCPNode] returns normally, each server has its own failed
    entry carrying the not-implemented message with the server's name and
    URL, and the state is left as it was. *)
Theorem unknown_servers_fail_in_place :
  forall (R : Runtime) (S : Services) (node : WorkflowNode)
         (apiKey : option string) (st : WorkflowState) (tr : list Event),
    resolved_servers S (node_data node) <> [] ->
    forallb is_unknown (resolved_servers S (node_data node)) = true ->
    exists res,
      outcome_of (executeMCPNode R S node apiKey st tr) = Returned res
      /\ results res = map not_implemented_entry (resolved_servers S (node_data node))
      /\ state_of (executeMCPNode R S node apiKey st tr) = st.
Proof.
  intros R S node apiKey st tr Hne Hunk.
  rewrite executeMCPNode_unfold.
  destruct (resolved_servers S (node_data node)) as [| s l] eqn:E; [congruence |].
  rewrite (run_servers_unknown R S (node_data node) (s :: l) (s :: l) [] st _ Hunk).
  eexists. repeat split.
Qed.

(** *** The Firecrawl branch *)

Lemma reaches_firecrawl R S node apiKey st tr pre fc rest :
  resolved_servers S (node_data node) = (pre ++ fc :: rest)%list ->
  forallb is_generic pre = true ->
  is_firecrawl fc = true ->
  executeMCPNode R S node apiKey st tr
  = firecrawl_branch R S (node_data node) (state_after R pre st)
      (tr ++ resolve_events (node_data node))%list.
Proof.
  intros Hres Hpre Hfc. rewrite executeMCPNode_unfold, Hres.
  destruct (run_servers_skip_at R S (node_data node) (pre ++ fc :: rest) pre
              (fc :: rest) [] st (tr ++ resolve_events (node_data node))%list Hpre)
    as (results' & Erun).
  rewrite <- (run_servers_firecrawl R S (node_data node) (pre ++ fc :: rest)
                fc rest results' (state_after R pre st) _ Hfc), <- Erun.
  destruct pre; reflexivity.
Qed.

Lemma firecrawl_call_backend R S nodeData st tr :
  is_backend_action (node_action nodeData) = true ->
  firecrawl_call R S (str_or (firecrawl_key S) "") nodeData (node_action nodeData) st tr
  = (backend_reply R S nodeData st, st,
     (tr ++ [EvFirecrawl (node_action nodeData)])%list).
Proof.
  intros Hact.
  unfold firecrawl_call, backend_reply, bind, get_state, call, is_backend_action in *.
  destruct (node_action nodeData =? "scrape"); [reflexivity |].
  destruct (node_action nodeData =? "search"); [reflexivity |].
  destruct (node_action nodeData =? "map"); [reflexivity |].
  destruct (node_action nodeData =? "crawl"); [reflexivity | discriminate].
Qed.

Lemma firecrawl_call_unknown R S key nodeData action st tr :
  is_backend_action action = false ->
  firecrawl_call R S key nodeData action st tr
  = (Thrown (JsError ("Unknown Firecrawl action: " +:+ action)), st, tr).
Proof.
  intros Hact. unfold firecrawl_call, bind, get_state, is_backend_action in *.
  destruct (action =? "scrape"); [discriminate |].
  destruct (action =? "search"); [discriminate |].
  destruct (action =? "map"); [discriminate |].
  destruct (action =? "crawl"); [discriminate | reflexivity].
Qed.

Lemma firecrawl_branch_keyed R S nodeData st tr :
  str_truthy (firecrawl_key S) = true ->
  firecrawl_branch R S nodeData st tr
  = try_catch
      (firecrawl_success R S (str_or (firecrawl_key S) "") nodeData (node_action nodeData))
      (firecrawl_catch R nodeData (node_action nodeData)) st tr.
Proof. intros H. unfold firecrawl_branch. now rewrite H. Qed.

Lemma not_search_no_fallback R action :
  action <> "search" -> useFallback (env R) && (action =? "search") = false.
Proof.
  intros H. apply String.eqb_neq in H. rewrite H. apply andb_false_r.
Qed.

(** X8. A missing server-side Firecrawl key is always surfaced: when the
    loop reaches a Firecrawl server and no key is configured,
    [executeMCPNode] throws the configuration error whatever the fallback
    policy, and the Firecrawl backend is not called. *)
Theorem firecrawl_without_key_throws :
  forall (R : Runtime) (S : Services) (node : WorkflowNode)
         (apiKey : option string) (st : WorkflowState) (tr : list Event)
         (pre rest : list McpServer) (fc : McpServer),
    resolved_servers S (node_data node) = (pre ++ fc :: rest)%list ->
    forallb is_generic pre = true ->
    is_firecrawl fc = true ->
    str_truthy (firecrawl_key S) = false ->
    outcome_of (executeMCPNode R S node apiKey st tr)
    = Thrown (JsError firecrawl_key_error)
    /\ trace_of (executeMCPNode R S node apiKey st tr)
       = (tr ++ resolve_events (node_data node))%list.
Proof.
  intros R S node apiKey st tr pre rest fc Hres Hpre Hfc Hkey.
  rewrite (reaches_firecrawl R S node apiKey st tr pre fc rest Hres Hpre Hfc).
  unfold firecrawl_branch. rewrite Hkey. split; reflexivity.
Qed.

(** X9. The synthetic fallback is for [search] only: when the [scrape],
    [map] or [crawl] call the step makes throws, [executeMCPNode] throws
    [Firecrawl <action> failed: <message>] whatever the fallback policy. *)
Theorem firecrawl_failure_outside_search_rethrown :
  forall (R : Runtime) (S : Services) (node : WorkflowNode)
         (apiKey : option string) (st : WorkflowState) (tr : list Event)
         (pre rest : list McpServer) (fc : McpServer) (e : Exn),
    resolved_servers S (node_data node) = (pre ++ fc :: rest)%list ->
    forallb is_generic pre = true ->
    is_firecrawl fc = true ->
    str_truthy (firecrawl_key S) = true ->
    is_backend_action (node_action (node_data node)) = true ->
    node_action (node_data node) <> "search" ->
    backend_reply R S (node_data node) (state_after R pre st) = Thrown e ->
    outcome_of (executeMCPNode R S node apiKey st tr)
    = Thrown (JsError ("Firecrawl " +:+ node_action (node_data node)
                       +:+ " failed: " +:+ exn_message e)).
Proof.
  intros R S node apiKey st tr pre rest fc e Hres Hpre Hfc Hkey Hact Hns Hback.
  rewrite (reaches_firecrawl R S node apiKey st tr pre fc rest Hres Hpre Hfc).
  rewrite (firecrawl_branch_keyed R S _ _ _ Hkey).
  unfold try_catch, firecrawl_success, bind.
  rewrite (firecrawl_call_backend R S _ _ _ Hact), Hback.
  unfold firecrawl_catch. rewrite (not_search_no_fallback R _ Hns). reflexivity.
Qed.

(** X10. An action outside [scrape], [search], [map] and [crawl] is
    refused before any backend call: [executeMCPNode] throws
    [Firecrawl <action> failed: Unknown Firecrawl action: <action>]. *)
Theorem firecrawl_unknown_action_throws :
  forall (R : Runtime) (S : Services) (node : WorkflowNode)
         (apiKey : option string) (st : WorkflowState) (tr : list Event)
         (pre rest : list McpServer) (fc : McpServer),
    resolved_servers S (node_data node) = (pre ++ fc :: rest)%list ->
    forallb is_generic pre = true ->
    is_firecrawl fc = true ->
    str_truthy (firecrawl_key S) = true ->
    is_backend_action (node_action (node_data node)) = false ->
    outcome_of (executeMCPNode R S node apiKey st tr)
    = Thrown (JsError ("Firecrawl " +:+ node_action (node_data node)
                       +:+ " failed: Unknown Firecrawl action: "
                       +:+ node_action (node_data node)))
    /\ trace_of (executeMCPNode R S node apiKey st tr)
       = (tr ++ resolve_events (node_data node))%list.
Proof.
  intros R S node apiKey st tr pre rest fc Hres Hpre Hfc Hkey Hact.
  rewrite (reaches_firecrawl R S node apiKey st tr pre fc rest Hres Hpre Hfc).
  rewrite (firecrawl_branch_keyed R S _ _ _ Hkey).
  unfold try_catch, firecrawl_success, bind.
  rewrite (firecrawl_call_unknown R S _ _ _ _ _ Hact).
  unfold firecrawl_catch.
  assert (Hns : node_action (node_data node) <> "search").
  { intros E. rewrite E in Hact. discriminate. }
  rewrite (not_search_no_fallback R _ Hns). split; reflexivity.
Qed.

Lemma firecrawl_branch_single_entry R S nodeData st tr res :
  outcome_of (firecrawl_branch R S nodeData st tr) = Returned res ->
  exists e,
    results res = [e] /\ server e = "Firecrawl"
    /\ tool e = Some (node_action nodeData)
    /\ mcpServers_out res = [Some "Firecrawl"]
    /\ extractedField res = outputField nodeData.
Proof.
  unfold firecrawl_branch.
  destruct (str_truthy (firecrawl_key S)); [| discriminate].
  fold (node_action nodeData).
  set (key := str_or (firecrawl_key S) "").
  set (action := node_action nodeData).
  assert (Hcatch : forall e st' tr',
             outcome_of (firecrawl_catch R nodeData action e st' tr') = Returned res ->
             exists en,
               results res = [en] /\ server en = "Firecrawl"
               /\ tool en = Some action
               /\ mcpServers_out res = [Some "Firecrawl"]
               /\ extractedField res = outputField nodeData).
  { intros e st' tr'. unfold firecrawl_catch.
    destruct (useFallback (env R) && (action =? "search")); [| discriminate].
    unfold bind, get_state, lift.
    destruct (project_output nodeData _) as [outputData |]; [| discriminate].
    unfold put_var, ret, outcome_of. simpl. intros [= <-]. simpl. eauto 10. }
  unfold try_catch, firecrawl_success, bind.
  destruct (firecrawl_call R S key nodeData action st tr)
    as [[[result | e] st1] tr1]; [| apply Hcatch].
  unfold lift. destruct (project_output nodeData result) as [outputData | e];
    [| apply Hcatch].
  unfold put_var, get_state, ret, outcome_of. simpl. intros [= <-]. simpl. eauto 10.
Qed.

(** X11. Once the loop reaches a Firecrawl server its result is all the
    caller gets: [results] holds the single Firecrawl entry and
    [mcpServers] is [['Firecrawl']], the entries of the generic servers
    that ran before it being dropped. *)
Theorem firecrawl_result_drops_generic_entries :
  forall (R : Runtime) (S : Services) (node : WorkflowNode)
         (apiKey : option string) (st : WorkflowState) (tr : list Event)
         (pre rest : list McpServer) (fc : McpServer) (res : MCPResult),
    resolved_servers S (node_data node) = (pre ++ fc :: rest)%list ->
    forallb is_generic pre = true ->
    is_firecrawl fc = true ->
    outcome_of (executeMCPNode R S node apiKey st tr) = Returned res ->
    exists e,
      results res = [e] /\ server e = "Firecrawl"
      /\ tool e = Some (node_action (node_data node))
      /\ mcpServers_out res = [Some "Firecrawl"]
      /\ extractedField res = outputField (node_data node).
Proof.
  intros R S node apiKey st tr pre rest fc res Hres Hpre Hfc.
  rewrite (reaches_firecrawl R S node apiKey st tr pre fc rest Hres Hpre Hfc).
  apply firecrawl_branch_single_entry.
Qed.

(** X12. The success path of the Firecrawl branch: when the backend
    answers the step's call with [result] and the configured projection
    of it (reading [result] within the model) yields [out], the executor
    makes that one backend call, writes [out] to [lastOutput] and returns
    a result that is not marked as fallback, with [output] being [out]
    and the raw [result] as the data of its entry and as the output of
    its tool-call record. *)
Theorem firecrawl_success_contract :
  forall (R : Runtime) (S : Services) (node : WorkflowNode)
         (apiKey : option string) (st : WorkflowState) (tr : list Event)
         (pre rest : list McpServer) (fc : McpServer) (result out : JSValue),
    resolved_servers S (node_data node) = (pre ++ fc :: rest)%list ->
    forallb is_generic pre = true ->
    is_firecrawl fc = true ->
    str_truthy (firecrawl_key S) = true ->
    is_backend_action (node_action (node_data node)) = true ->
    backend_reply R S (node_data node) (state_after R pre st) = Returned result ->
    projection_in_model (node_data node) result = true ->
    project_output (node_data node) result = Returned out ->
    exists res e tc,
      outcome_of (executeMCPNode R S node apiKey st tr) = Returned res
      /\ results res = [e] /\ success e = true /\ entry_data e = Some result
      /\ output res = Some out
      /\ _fallback res = false
      /\ toolCalls res = [tc] /\ tc_output tc = result
      /\ var (state_of (executeMCPNode R S node apiKey st tr)) "lastOutput" = out
      /\ trace_of (executeMCPNode R S node apiKey st tr)
         = (tr ++ resolve_events (node_data node)
               ++ [EvFirecrawl (node_action (node_data node))])%list.
Proof.
  intros R S node apiKey st tr pre rest fc result out
         Hres Hpre Hfc Hkey Hact Hback _ Hproj.
  rewrite (reaches_firecrawl R S node apiKey st tr pre fc rest Hres Hpre Hfc).
  rewrite (firecrawl_branch_keyed R S _ _ _ Hkey).
  unfold try_catch, firecrawl_success, bind.
  rewrite (firecrawl_call_backend R S _ _ _ Hact), Hback.
  unfold lift. rewrite Hproj.
  unfold put_var, get_state, ret, outcome_of, state_of, trace_of. simpl.
  eexists _, _, _. repeat split.
  - apply var_set_var.
  - now rewrite app_assoc.
Qed.

(** X13. A failing projection counts as a failing call: when the backend
    answers but [extractField] throws on the answer, the error is caught
    like a backend error, and (outside a [search] with fallback enabled)
    [executeMCPNode] throws [Firecrawl <action> failed: <message>]
    without writing [lastOutput]. *)
Theorem firecrawl_projection_failure_rethrown :
  forall (R : Runtime) (S : Services) (node : WorkflowNode)
         (apiKey : option string) (st : WorkflowState) (tr : list Event)
         (fc : McpServer) (rest : list McpServer) (result : JSValue) (e : Exn),
    resolved_servers S (node_data node) = fc :: rest ->
    is_firecrawl fc = true ->
    str_truthy (firecrawl_key S) = true ->
    is_backend_action (node_action (node_data node)) = true ->
    backend_reply R S (node_data node) st = Returned result ->
    projection_in_model (node_data node) result = true ->
    project_output (node_data node) result = Thrown e ->
    node_action (node_data node) <> "search" \/ useFallback (env R) = false ->
    outcome_of (executeMCPNode R S node apiKey st tr)
    = Thrown (JsError ("Firecrawl " +:+ node_action (node_data node)
                       +:+ " failed: " +:+ exn_message e))
    /\ state_of (executeMCPNode R S node apiKey st tr) = st.
Proof.
  intros R S node apiKey st tr fc rest result e Hres Hfc Hkey Hact Hback _ Hproj Hno.
  rewrite executeMCPNode_unfold, Hres.
  rewrite (run_servers_firecrawl R S (node_data node) (fc :: rest) fc rest [] st _ Hfc).
  rewrite (firecrawl_branch_keyed R S _ _ _ Hkey).
  unfold try_catch, firecrawl_success, bind.
  rewrite (firecrawl_call_backend R S _ _ _ Hact), Hback.
  unfold lift. rewrite Hproj. unfold firecrawl_catch.
  assert (Hf : useFallback (env R) && (node_action (node_data node) =? "search") = false).
  { destruct Hno as [Hns | Hoff]; [apply not_search_no_fallback, Hns | now rewrite Hoff]. }
  rewrite Hf. split; reflexivity.
Qed.

(** *** Targets, queries and the DeepWiki placeholder *)

(** X14. [getUrl] hands the backend an [http...] string, taken from the
    explicit field, from [lastOutput], from [input] or from the default,
    except in one case: a non-empty string found under [lastOutput.url]
    is returned as it is. *)
Theorem getUrl_is_http_or_lastOutput_url :
  forall (R : Runtime) (nodeData : NodeData) (st : WorkflowState),
    startsWith (getUrl R nodeData st) "http" = true
    \/ (JStr (getUrl R nodeData st) = js_opt_get (var st "lastOutput") "url"
        /\ getUrl R nodeData st <> "").
Proof.
  intros R nodeData st. unfold getUrl.
  set (explicitUrl := if str_truthy (scrapeUrl nodeData) then scrapeUrl nodeData
                      else if str_truthy (mapUrl nodeData) then mapUrl nodeData
                      else crawlUrl nodeData).
  set (substituted := substituteVariables R (str_or explicitUrl "") st).
  assert (Hin : startsWith
                  match var st "input" with
                  | JStr i => if startsWith i "http" then i else "https://example.com"
                  | _ => "https://example.com"
                  end "http" = true).
  { destruct (var st "input"); try reflexivity.
    destruct (startsWith s "http") eqn:E; [exact E | reflexivity]. }
  destruct (str_truthy explicitUrl && negb (substituted =? "")
            && startsWith substituted "http") eqn:E.
  - left. apply andb_true_iff in E as [_ E]. exact E.
  - destruct (var st "lastOutput") as [| | b | n | s | l | fs] eqn:El;
      try (destruct (js_opt_get _ "url") as [| | b' | n' | u | l' | fs'] eqn:Eu;
           try (left; exact Hin);
           destruct (negb (u =? "")) eqn:Ene; [| left; exact Hin];
           right; split; [reflexivity |];
           apply negb_true_iff, String.eqb_neq in Ene; exact Ene).
    destruct (startsWith s "http") eqn:Es; [left; exact Es | left; exact Hin].
Qed.

(** X15. [getSearchQuery] never takes a URL out of the state: its result
    is the substituted explicit query or a string that does not start
    with [http]. *)
Theorem getSearchQuery_never_a_state_url :
  forall (R : Runtime) (nodeData : NodeData) (st : WorkflowState),
    (str_truthy (searchQuery nodeData) = true
     /\ getSearchQuery R nodeData st
        = substituteVariables R (str_or (searchQuery nodeData) "") st)
    \/ startsWith (getSearchQuery R nodeData st) "http" = false.
Proof.
  intros R nodeData st. unfold getSearchQuery.
  destruct (str_truthy (searchQuery nodeData)
            && negb (substituteVariables R (str_or (searchQuery nodeData) "") st =? ""))
    eqn:E.
  - left. apply andb_true_iff in E as [E _]. auto.
  - right.
    assert (Hin : startsWith
                    match var st "input" with
                    | JStr i => if negb (startsWith i "http") then i
                                else "latest tech news"
                    | _ => "latest tech news"
                    end "http" = false).
    { destruct (var st "input"); try reflexivity.
      destruct (startsWith s "http") eqn:Es; [reflexivity | exact Es]. }
    destruct (var st "lastOutput"); try exact Hin.
    destruct (startsWith s "http") eqn:Es; [exact Hin | exact Es].
Qed.

(** X16. The DeepWiki placeholder needs something to read: on a state
    whose [input] is falsy and whose [lastOutput] is not set, it throws
    the [TypeError] of calling [includes] on [undefined]. *)
Theorem deepwiki_without_input_throws :
  forall (R : Runtime) (sc : McpServer) (st : WorkflowState),
    is_deepwiki sc = true ->
    truthy (var st "input") = false ->
    var st "lastOutput" = JUndefined ->
    executeGenericMCPServer R sc st
    = Thrown (JsError "Cannot read properties of undefined (reading 'includes')").
Proof.
  intros R sc st Hdw Hin Hlast.
  unfold is_deepwiki in Hdw. unfold executeGenericMCPServer, server_name_lower.
  destruct (srv_name sc) as [n |]; [| discriminate].
  apply andb_true_iff in Hdw as [_ Hdw]. simpl. rewrite Hdw.
  unfold js_or. rewrite Hin, Hlast. reflexivity.
Qed.

Lemma repo_match_here_form s m :
  repo_match_here s = Some m ->
  exists owner repo post,
    s = m +:+ post /\ m = owner +:+ "/" +:+ repo
    /\ owner <> "" /\ repo <> ""
    /\ all_chars is_repo_char owner = true /\ all_chars is_repo_char repo = true.
Proof.
  unfold repo_match_here.
  destruct (span is_repo_char s) as [owner r] eqn:E1.
  destruct (span_split _ _ _ _ E1) as (-> & Ho & _).
  destruct owner as [| x owner]; [discriminate |].
  destruct r as [| c r1]; [discriminate |].
  destruct c as [[] [] [] [] [] [] [] []]; try discriminate.
  destruct (span is_repo_char r1) as [repo r2] eqn:E2.
  destruct (span_split _ _ _ _ E2) as (-> & Hr & _).
  destruct repo as [| y repo]; [discriminate |].
  intros [= <-]. exists (String x owner), (String y repo), r2.
  repeat split; try discriminate; auto.
  change ("/" +:+ String y repo) with (String "/" (String y repo)).
  change (String "/" (String y repo +:+ r2)) with (String "/" (String y repo) +:+ r2).
  now rewrite append_assoc.
Qed.

(** X17. What the repository pattern extracts: a match of [repo_match] is
    a piece of the text of the form [owner/repo], both parts being
    non-empty runs of letters, digits and hyphens. *)
Theorem repo_match_form :
  forall s m : string,
    repo_match s = Some m ->
    exists pre owner repo post,
      s = pre +:+ m +:+ post /\ m = owner +:+ "/" +:+ repo
      /\ owner <> "" /\ repo <> ""
      /\ all_chars is_repo_char owner = true /\ all_chars is_repo_char repo = true.
Proof.
  induction s as [| c s IH]; intros m.
  - discriminate.
  - change (repo_match (String c s))
      with (match repo_match_here (String c s) with
            | Some m0 => Some m0
            | None => repo_match s
            end).
    destruct (repo_match_here (String c s)) as [m0 |] eqn:E.
    + intros [= <-].
      destruct (repo_match_here_form _ _ E) as (owner & repo & post & Hs & Hm).
      exists "", owner, repo, post. split; [exact Hs | exact Hm].
    + intros H. destruct (IH m H) as (pre & owner & repo & post & -> & Hm).
      exists (String c pre), owner, repo, post. split; [reflexivity | exact Hm].
Qed.

Lemma repo_match_form_witness :
  exists pre owner repo post,
    "docs of rocq-prover/rocq please"
    = pre +:+ "rocq-prover/rocq" +:+ post
    /\ "rocq-prover/rocq" = owner +:+ "/" +:+ repo
    /\ owner <> "" /\ repo <> ""
    /\ all_chars is_repo_char owner = true /\ all_chars is_repo_char repo = true.
Proof.
  apply (repo_match_form "docs of rocq-prover/rocq please" "rocq-prover/rocq").
  reflexivity.
Defined.

(** *** The theorems on concrete steps *)

Lemma generic_servers_never_throw_witness :
  exists res,
    outcome_of (executeMCPNode Demo.on Cases.keyless_firecrawl Cases.generic_step None
                  Demo.busy_state []) = Returned res
    /\ length (results res) = 2
    /\ mcpServers_out res = [Some "DeepWiki"; Some "Slack"]
    /\ output res = None
    /\ error res = None
    /\ trace_of (executeMCPNode Demo.on Cases.keyless_firecrawl Cases.generic_step None
                   Demo.busy_state []) = [].
Proof.
  apply (generic_servers_never_throw Demo.on Cases.keyless_firecrawl
           Cases.generic_step None Demo.busy_state []);
    [discriminate | reflexivity].
Defined.

Lemma unknown_servers_fail_in_place_witness :
  exists res,
    outcome_of (executeMCPNode Demo.on Cases.keyless_firecrawl Cases.unknown_step None
                  Demo.busy_state []) = Returned res
    /\ results res = [not_implemented_entry Cases.slack;
                      not_implemented_entry Cases.notion]
    /\ state_of (executeMCPNode Demo.on Cases.keyless_firecrawl Cases.unknown_step None
                   Demo.busy_state []) = Demo.busy_state.
Proof.
  apply (unknown_servers_fail_in_place Demo.on Cases.keyless_firecrawl
           Cases.unknown_step None Demo.busy_state []);
    [discriminate | reflexivity].
Defined.

Lemma firecrawl_without_key_throws_witness :
  outcome_of (executeMCPNode Demo.on Cases.keyless_firecrawl Cases.scrape_step None
                Demo.busy_state [])
  = Thrown (JsError firecrawl_key_error)
  /\ trace_of (executeMCPNode Demo.on Cases.keyless_firecrawl Cases.scrape_step None
                 Demo.busy_state []) = [].
Proof.
  apply (firecrawl_without_key_throws Demo.on Cases.keyless_firecrawl
           Cases.scrape_step None Demo.busy_state []
           [Demo.deepwiki] [] Demo.firecrawl_server); reflexivity.
Defined.

Lemma firecrawl_failure_outside_search_rethrown_witness :
  outcome_of (executeMCPNode Demo.on Demo.failing_firecrawl Cases.scrape_step None
                Demo.busy_state [])
  = Thrown (JsError "Firecrawl scrape failed: quota exceeded").
Proof.
  apply (firecrawl_failure_outside_search_rethrown Demo.on Demo.failing_firecrawl
           Cases.scrape_step None Demo.busy_state []
           [Demo.deepwiki] [] Demo.firecrawl_server (JsError "quota exceeded"));
    try reflexivity; try discriminate.
Defined.

Lemma firecrawl_unknown_action_throws_witness :
  outcome_of (executeMCPNode Demo.on Cases.working_firecrawl Cases.dance_step None
                Demo.busy_state [])
  = Thrown (JsError "Firecrawl dance failed: Unknown Firecrawl action: dance")
  /\ trace_of (executeMCPNode Demo.on Cases.working_firecrawl Cases.dance_step None
                 Demo.busy_state []) = [].
Proof.
  apply (firecrawl_unknown_action_throws Demo.on Cases.working_firecrawl
           Cases.dance_step None Demo.busy_state []
           [Demo.deepwiki] [] Demo.firecrawl_server); reflexivity.
Defined.

Lemma firecrawl_result_drops_generic_entries_witness :
  exists res e,
    outcome_of (executeMCPNode Demo.on Cases.working_firecrawl Cases.scrape_step None
                  Demo.busy_state []) = Returned res
    /\ results res = [e] /\ server e = "Firecrawl"
    /\ tool e = Some "scrape"
    /\ mcpServers_out res = [Some "Firecrawl"]
    /\ extractedField res = None.
Proof.
  eexists.
  refine (match firecrawl_result_drops_generic_entries Demo.on Cases.working_firecrawl
                  Cases.scrape_step None Demo.busy_state []
                  [Demo.deepwiki] [] Demo.firecrawl_server _
                  eq_refl eq_refl eq_refl eq_refl
          with ex_intro _ e H => ex_intro _ e (conj eq_refl H) end).
Defined.

Lemma firecrawl_success_contract_witness :
  exists res e tc,
    outcome_of (executeMCPNode Demo.on Cases.working_firecrawl Cases.markdown_step None
                  Demo.busy_state []) = Returned res
    /\ results res = [e] /\ success e = true /\ entry_data e = Some Cases.page
    /\ output res = Some (JStr "# Title")
    /\ _fallback res = false
    /\ toolCalls res = [tc] /\ tc_output tc = Cases.page
    /\ var (state_of (executeMCPNode Demo.on Cases.working_firecrawl Cases.markdown_step
                        None Demo.busy_state [])) "lastOutput" = JStr "# Title"
    /\ trace_of (executeMCPNode Demo.on Cases.working_firecrawl Cases.markdown_step None
                   Demo.busy_state []) = [EvFirecrawl "scrape"].
Proof.
  apply (firecrawl_success_contract Demo.on Cases.working_firecrawl
           Cases.markdown_step None Demo.busy_state []
           [] [] Demo.firecrawl_server Cases.page (JStr "# Title"));
    reflexivity.
Defined.

Lemma firecrawl_projection_failure_rethrown_witness :
  outcome_of (executeMCPNode Demo.on Cases.empty_firecrawl Cases.markdown_step None
                Demo.busy_state [])
  = Thrown (JsError ("Firecrawl scrape failed: "
                     +:+ exn_message (type_error_read JNull "markdown")))
  /\ state_of (executeMCPNode Demo.on Cases.empty_firecrawl Cases.markdown_step None
                 Demo.busy_state []) = Demo.busy_state.
Proof.
  apply (firecrawl_projection_failure_rethrown Demo.on Cases.empty_firecrawl
           Cases.markdown_step None Demo.busy_state []
           Demo.firecrawl_server [] JNull (type_error_read JNull "markdown"));
    try reflexivity.
  left. discriminate.
Defined.

Lemma deepwiki_without_input_throws_witness :
  executeGenericMCPServer Demo.on Demo.deepwiki Demo.empty_state
  = Thrown (JsError "Cannot read properties of undefined (reading 'includes')").
Proof.
  apply (deepwiki_without_input_throws Demo.on Demo.deepwiki Demo.empty_state);
    reflexivity.
Defined.

End MCPCoverage.

(** ** The HTTP executor *)

Module HTTPCoverage.
Import HTTP Props Notions StringFacts.

Lemma executeHTTPNode_unfold R S node st tr :
  executeHTTPNode R S node st tr
  = match add_auth R S st (node_data node) (custom_headers R (node_data node) st) with
    | Thrown e => (Thrown (JsError ("HTTP request failed: " +:+ exn_message e)), st, tr)
    | Returned hs =>
        let target := http_target R (node_data node) st in
        let verb := str_or (httpMethod (node_data node)) "GET" in
        let tr' := (tr ++ [EvHttpFetch target])%list in
        match fetch S {| req_url := target; req_method := verb; req_headers := hs;
                         req_body := build_body R st (node_data node) verb |} with
        | Thrown e =>
            (Thrown (JsError ("HTTP request failed: " +:+ exn_message e)), st, tr')
        | Returned response =>
            match read_body response with
            | Thrown e =>
                (Thrown (JsError ("HTTP request failed: " +:+ exn_message e)), st, tr')
            | Returned body =>
                if resp_ok response then
                  (Returned {| status := resp_status response;
                               statusText := resp_statusText response;
                               headers := fold_left (fun o kv => <[kv.1 := kv.2]> o)
                                                    (resp_headers response) ∅;
                               data := body;
                               url := target;
                               method := verb |}, st, tr')
                else
                  (Thrown (JsError ("HTTP request failed: "
                                    +:+ exn_message
                                          (JsError ("HTTP " +:+ dec_Z (resp_status response)
                                                    +:+ ": " +:+ resp_statusText response)))),
                   st, tr')
            end
        end
    end.
Proof.
  unfold executeHTTPNode, try_catch, bind, get_state, lift, call, throw, ret,
    custom_headers, http_target.
  destruct (add_auth R S st (node_data node) _) as [hs | e]; [| reflexivity].
  cbv zeta.
  destruct (fetch S _) as [response | e]; [| reflexivity].
  destruct (read_body response) as [body | e]; [| reflexivity].
  destruct (resp_ok response); reflexivity.
Qed.

(** X18. [executeHTTPNode] leaves the workflow state as it found it and
    reaches the network at most once: it fetches the substituted URL
    exactly once, unless the credentials could not be encoded, in which
    case it fetches nothing. *)
Theorem executeHTTPNode_state_and_fetches :
  forall (R : Runtime) (S : Services) (node : WorkflowNode)
         (st : WorkflowState) (tr : list Event),
    state_of (executeHTTPNode R S node st tr) = st
    /\ trace_of (executeHTTPNode R S node st tr)
       = match add_auth R S st (node_data node) (custom_headers R (node_data node) st) with
         | Returned _ => (tr ++ [EvHttpFetch (http_target R (node_data node) st)])%list
         | Thrown _ => tr
         end.
Proof.
  intros R S node st tr. rewrite executeHTTPNode_unfold.
  destruct (add_auth R S st (node_data node) _) as [hs | e]; [| split; reflexivity].
  cbv zeta.
  destruct (fetch S _) as [response | e]; [| split; reflexivity].
  destruct (read_body response) as [body | e]; [| split; reflexivity].
  destruct (resp_ok response); split; reflexivity.
Qed.

(** X19. Whatever goes wrong inside [executeHTTPNode], the caller sees an
    [Error] whose message starts with [HTTP request failed: ]. *)
Theorem executeHTTPNode_errors_are_wrapped :
  forall (R : Runtime) (S : Services) (node : WorkflowNode)
         (st : WorkflowState) (tr : list Event) (e : Exn),
    outcome_of (executeHTTPNode R S node st tr) = Thrown e ->
    exists m, e = JsError ("HTTP request failed: " +:+ m).
Proof.
  intros R S node st tr e. rewrite executeHTTPNode_unfold.
  destruct (add_auth R S st (node_data node) _) as [hs | e0].
  2:{ intros [= <-]. eauto. }
  cbv zeta.
  destruct (fetch S _) as [response | e0].
  2:{ intros [= <-]. eauto. }
  destruct (read_body response) as [body | e0].
  2:{ intros [= <-]. eauto. }
  destruct (resp_ok response); [discriminate |].
  intros [= <-]. eauto.
Qed.

Lemma executeHTTPNode_errors_are_wrapped_witness :
  exists m, JsError "HTTP request failed: network unreachable"
            = JsError ("HTTP request failed: " +:+ m).
Proof.
  apply (executeHTTPNode_errors_are_wrapped Demo.on
           (Demo.http_services (Thrown Demo.offline)) Demo.items_step
           Demo.busy_state []).
  reflexivity.
Defined.

(** X20. A rejected [fetch] is reported with the message of the
    rejection, and with [Unknown error] when what was thrown is not an
    [Error]. *)
Theorem fetch_rejection_is_wrapped :
  forall (R : Runtime) (S : Services) (node : WorkflowNode)
         (st : WorkflowState) (tr : list Event)
         (hs : gmap string string) (e : Exn),
    let nodeData := node_data node in
    let verb := str_or (httpMethod nodeData) "GET" in
    add_auth R S st nodeData (custom_headers R nodeData st) = Returned hs ->
    fetch S {| req_url := http_target R nodeData st; req_method := verb;
               req_headers := hs; req_body := build_body R st nodeData verb |}
    = Thrown e ->
    outcome_of (executeHTTPNode R S node st tr)
    = Thrown (JsError ("HTTP request failed: "
                       +:+ match e with
                           | JsError m => m
                           | JsNonError _ => "Unknown error"
                           end)).
Proof.
  intros R S node st tr hs e nodeData verb Hauth Hfetch.
  rewrite executeHTTPNode_unfold. fold nodeData. rewrite Hauth. cbv zeta.
  fold verb. rewrite Hfetch. destruct e; reflexivity.
Qed.

Lemma fetch_rejection_is_wrapped_witness :
  outcome_of (executeHTTPNode Demo.on (Demo.http_services (Thrown (JsNonError (JNum 7))))
                Demo.items_step Demo.busy_state [])
  = Thrown (JsError "HTTP request failed: Unknown error").
Proof.
  apply (fetch_rejection_is_wrapped Demo.on
           (Demo.http_services (Thrown (JsNonError (JNum 7)))) Demo.items_step
           Demo.busy_state [] ∅ (JsNonError (JNum 7))); reflexivity.
Defined.

(** X21. The body is read before the status is looked at: when the
    response can be read neither as JSON nor as text, the error of the
    text read is what the caller gets, whatever the status, also for a
    response that is not [ok]. *)
Theorem unreadable_body_masks_status :
  forall (R : Runtime) (S : Services) (node : WorkflowNode)
         (st : WorkflowState) (tr : list Event)
         (hs : gmap string string) (response : Response) (e1 e2 : Exn),
    let nodeData := node_data node in
    let verb := str_or (httpMethod nodeData) "GET" in
    add_auth R S st nodeData (custom_headers R nodeData st) = Returned hs ->
    fetch S {| req_url := http_target R nodeData st; req_method := verb;
               req_headers := hs; req_body := build_body R st nodeData verb |}
    = Returned response ->
    resp_json response = Thrown e1 ->
    resp_text response = Thrown e2 ->
    outcome_of (executeHTTPNode R S node st tr)
    = Thrown (JsError ("HTTP request failed: " +:+ exn_message e2)).
Proof.
  intros R S node st tr hs response e1 e2 nodeData verb Hauth Hfetch Hjson Htext.
  rewrite executeHTTPNode_unfold. fold nodeData. rewrite Hauth. cbv zeta.
  fold verb. rewrite Hfetch.
  unfold read_body. rewrite Hjson, Htext. reflexivity.
Qed.

Lemma unreadable_body_masks_status_witness :
  outcome_of (executeHTTPNode Demo.on (Demo.http_services (Returned Cases.broken))
                Demo.items_step Demo.busy_state [])
  = Thrown (JsError "HTTP request failed: Body is unusable").
Proof.
  apply (unreadable_body_masks_status Demo.on
           (Demo.http_services (Returned Cases.broken)) Demo.items_step
           Demo.busy_state [] ∅ Cases.broken
           (JsError "Unexpected end of JSON input") (JsError "Body is unusable"));
    reflexivity.
Defined.

(** *** Credentials *)

Lemma prefix_append p s : String.prefix p (p +:+ s) = true.
Proof.
  induction p as [| c p IH]; simpl.
  - now destruct s.
  - change (String c p +:+ s) with (String c (p +:+ s)). simpl.
    destruct (ascii_dec c c); [exact IH | congruence].
Qed.

Lemma substring_suffix a b :
  substring (String.length a) (String.length b) (a +:+ b) = b.
Proof.
  induction a as [| c a IH].
  - rewrite append_nil_l. simpl. apply substring_all.
  - rewrite append_cons. simpl. exact IH.
Qed.

Lemma endsWith_append a b : endsWith (a +:+ b) b = true.
Proof.
  unfold endsWith. rewrite length_append.
  replace (String.length a + String.length b - String.length b)
    with (String.length a) by lia.
  rewrite substring_suffix, String.eqb_refl.
  apply andb_true_iff. split; [| reflexivity]. apply Nat.leb_le. lia.
Qed.

Lemma substring_middle name :
  substring 2 (String.length ("${" +:+ name +:+ "}") - 3) ("${" +:+ name +:+ "}") = name.
Proof.
  change ("${" +:+ name +:+ "}") with (String "$" (String "{" (name +:+ "}"))).
  cbn [String.length substring].
  rewrite length_append. cbn [String.length].
  replace (Datatypes.S (Datatypes.S (String.length name + 1)) - 3)
    with (String.length name) by lia.
  apply substring_prefix.
Qed.

(** X22. A credential written [${NAME}] stands for the environment
    variable [NAME]: it is replaced by the variable's value when that is
    set and not empty, and is sent as written otherwise.  ([NAME] is
    taken not to be a name [process.env] inherits.) *)
Theorem resolve_env_token_reads_environment :
  forall (R : Runtime) (name : string),
    inherited_name name = false ->
    resolve_env_token R ("${" +:+ name +:+ "}")
    = str_or (env R name) ("${" +:+ name +:+ "}").
Proof.
  intros R name _. unfold resolve_env_token.
  assert (Hs : startsWith ("${" +:+ name +:+ "}") "${" = true)
    by apply prefix_append.
  assert (He : endsWith ("${" +:+ name +:+ "}") "}" = true).
  { rewrite <- append_assoc. apply endsWith_append. }
  rewrite Hs, He. cbn [andb]. rewrite substring_middle. reflexivity.
Qed.

Lemma resolve_env_token_reads_environment_witness :
  resolve_env_token (Demo.runtime [("API_SECRET", "s3cret")]) "${API_SECRET}"
  = "s3cret".
Proof.
  apply (resolve_env_token_reads_environment
           (Demo.runtime [("API_SECRET", "s3cret")]) "API_SECRET").
  reflexivity.
Defined.

(** *** Bodies *)

Lemma obj_set_fresh k v : forall acc,
  existsb (String.eqb k) (map fst acc) = false ->
  obj_set k v acc = (acc ++ [(k, v)])%list.
Proof.
  induction acc as [| [k' v'] acc IH]; simpl; intros H.
  - reflexivity.
  - apply orb_false_iff in H as [H1 H2].
    rewrite String.eqb_sym, H1. now rewrite IH.
Qed.

Lemma existsb_app_false {A} (p : A -> bool) l1 l2 :
  existsb p (l1 ++ l2)%list = false ->
  existsb p l1 = false /\ existsb p l2 = false.
Proof. rewrite existsb_app. apply orb_false_iff. Qed.

Lemma unique_snoc l : forall x r,
  unique (l ++ x :: r)%list = true ->
  existsb (String.eqb x) l = false /\ unique ((l ++ [x]) ++ r)%list = true.
Proof.
  induction l as [| y l IH]; simpl; intros x r H.
  - split; [reflexivity | exact H].
  - apply andb_true_iff in H as [H1 H2].
    apply negb_true_iff in H1. apply existsb_app_false in H1 as [H1a H1b].
    simpl in H1b. apply orb_false_iff in H1b as [H1b H1c].
    destruct (IH x r H2) as [H3 H4].
    split.
    + apply orb_false_iff. split; [now rewrite String.eqb_sym | exact H3].
    + apply andb_true_iff. split; [| exact H4].
      apply negb_true_iff. rewrite !existsb_app. simpl.
      now rewrite H1a, H1b, H1c.
Qed.

Lemma fold_obj_set_id (f : JSValue -> JSValue) fs : forall acc,
  (forall kv, In kv fs -> f (snd kv) = snd kv) ->
  unique (map fst (acc ++ fs)%list) = true ->
  fold_left (fun result kv => let '(key, value) := kv in obj_set key (f value) result)
            fs acc
  = (acc ++ fs)%list.
Proof.
  induction fs as [| [k v] fs IH]; intros acc Hf Hu; simpl.
  - now rewrite app_nil_r.
  - rewrite map_app in Hu. simpl in Hu.
    destruct (unique_snoc _ _ _ Hu) as [Hfresh Hu'].
    pose proof (Hf (k, v) (or_introl eq_refl)) as Hv. simpl in Hv. rewrite Hv.
    rewrite obj_set_fresh by exact Hfresh.
    rewrite IH.
    + now rewrite <- app_assoc.
    + intros kv Hin. apply Hf. now right.
    + rewrite <- app_assoc in Hu'. rewrite <- app_assoc, map_app. exact Hu'.
Qed.

Lemma fold_left_pointwise {A B} (f g : A -> B -> A) l :
  (forall a b, f a b = g a b) -> forall a, fold_left f l a = fold_left g l a.
Proof.
  intros H. induction l as [| b l IH]; intros a; simpl; [reflexivity |].
  now rewrite H, IH.
Qed.

(** X23. Substitution goes through a parsed body without disturbing it:
    when the substitution leaves every string as it is, arrays keep their
    items and objects keep their keys, values and key order. *)
Theorem substituteInObject_without_placeholders :
  forall (sub : string -> string) (v : JSValue),
    (forall s, sub s = s) ->
    plain_keys v = true ->
    substituteInObject sub v = v.
Proof.
  intros sub v Hsub. revert v.
  fix IH 1. intros [| | b | n | s | l | fs] H; simpl; try reflexivity.
  - now rewrite Hsub.
  - f_equal. simpl in H.
    induction l as [| a l IHl]; simpl; [reflexivity |].
    simpl in H. apply andb_true_iff in H as [Ha Hl].
    f_equal; [apply IH, Ha | apply IHl, Hl].
  - f_equal. simpl in H. apply andb_true_iff in H as [Hu Hv].
    apply andb_true_iff in Hu as [Hu _].
    etransitivity; [| apply (fold_obj_set_id (substituteInObject sub) fs [])].
    + apply fold_left_pointwise. intros acc [k x]. now rewrite Hsub.
    + clear Hu. induction fs as [| [k x] fs IHfs]; intros kv [].
      * subst kv. simpl in Hv. apply andb_true_iff in Hv as [Hx _].
        apply IH, Hx.
      * simpl in Hv. apply andb_true_iff in Hv as [_ Hv]. now apply IHfs.
    + exact Hu.
Qed.

Lemma substituteInObject_without_placeholders_witness :
  substituteInObject (fun s => substituteVariables Demo.on s Demo.busy_state) Cases.order
  = Cases.order.
Proof.
  apply (substituteInObject_without_placeholders
           (fun s => substituteVariables Demo.on s Demo.busy_state) Cases.order);
    reflexivity.
Defined.

End HTTPCoverage.

(** ** The agent executor *)

Module AgentCoverage.
Import Agent Props Notions StringFacts ExecFacts AgentFacts.

(** *** The [catch] block *)

Lemma agent_try_frame R S node apiKeys st tr o st' tr' :
  agent_try R S node apiKeys st tr = (o, st', tr') -> st' = st.
Proof.
  intros E. pose proof (frame_agent_try R S node apiKeys st tr) as H.
  rewrite E in H. exact H.
Qed.

Lemma agent_catch_fallback R S node e st tr :
  useFallback (env R) = true ->
  agent_catch R S node e st tr = (Returned (fallback_result S node st), st, tr).
Proof. intros H. unfold agent_catch. rewrite H. reflexivity. Qed.

(** X24. With the fallback policy enabled [executeAgentNode] never
    throws: it returns what the [try] block produced, or else the canned
    result of the [catch] block, which is the only result tagged
    [_fallback]. *)
Theorem fallback_policy_never_throws :
  forall (R : Runtime) (S : Services) (node : WorkflowNode)
         (apiKeys : option ApiKeys) (st : WorkflowState) (tr : list Event),
    useFallback (env R) = true ->
    exists res,
      outcome_of (executeAgentNode R S node apiKeys st tr) = Returned res
      /\ (_fallback res = true -> res = fallback_result S node st).
Proof.
  intros R S node apiKeys st tr Hpol.
  unfold executeAgentNode, try_catch.
  destruct (agent_try R S node apiKeys st tr) as [[[res | e] st'] tr'] eqn:E.
  - exists res. split; [reflexivity |].
    destruct (agent_try_result R S node apiKeys st tr res) as (v & c & t & ->).
    + now rewrite E.
    + discriminate.
  - rewrite (agent_try_frame _ _ _ _ _ _ _ _ _ E).
    rewrite agent_catch_fallback by exact Hpol.
    exists (fallback_result S node st). split; reflexivity.
Qed.

Lemma fallback_policy_never_throws_witness :
  exists res,
    outcome_of (executeAgentNode Demo.on Demo.agent_services Demo.groq_step
                  (Some Demo.no_keys) Demo.busy_state []) = Returned res
    /\ (_fallback res = true
        -> res = fallback_result Demo.agent_services Demo.groq_step Demo.busy_state).
Proof.
  apply (fallback_policy_never_throws Demo.on Demo.agent_services Demo.groq_step
           (Some Demo.no_keys) Demo.busy_state []).
  reflexivity.
Defined.

Lemma no_key_available_has_API_key m :
  includes m "No API key available" = true -> includes m "API key" = true.
Proof. apply (includes_within m "No API key available" "No " "API key" " available"). reflexivity. Qed.

Lemma agent_catch_thrown R S node e0 st tr e :
  outcome_of (agent_catch R S node e0 st tr) = Thrown e ->
  useFallback (env R) = false
  /\ (e = JsError missing_key_text
      \/ e = JsError rate_limited_text
      \/ e = JsError ("Agent execution failed: " +:+ exn_message e0)).
Proof.
  unfold agent_catch.
  destruct (useFallback (env R)); [discriminate |].
  destruct (includes (exn_message e0) "API key" || includes (exn_message e0) "api_key")
    eqn:Ekey.
  { intros [= <-]. auto. }
  destruct (includes (exn_message e0) "rate limit" || includes (exn_message e0) "429").
  { intros [= <-]. auto. }
  destruct (includes (exn_message e0) "No API key available") eqn:Edead.
  { apply no_key_available_has_API_key in Edead.
    apply orb_false_iff in Ekey as [Ekey _]. congruence. }
  intros [= <-]. auto.
Qed.

(** X25. What [executeAgentNode] can throw: only with the fallback policy
    disabled, and then one of three errors, the missing-key text, the
    rate-limit text, or [Agent execution failed: ] followed by the
    message of the failure.  The text of the [No API key available]
    branch is never thrown: a message holding that phrase also holds
    [API key] and is taken by the first branch. *)
Theorem thrown_errors_are_classified :
  forall (R : Runtime) (S : Services) (node : WorkflowNode)
         (apiKeys : option ApiKeys) (st : WorkflowState) (tr : list Event) (e : Exn),
    outcome_of (executeAgentNode R S node apiKeys st tr) = Thrown e ->
    useFallback (env R) = false
    /\ (e = JsError missing_key_text
        \/ e = JsError rate_limited_text
        \/ exists m, e = JsError ("Agent execution failed: " +:+ m))
    /\ e <> JsError no_key_configured_text.
Proof.
  intros R S node apiKeys st tr e.
  unfold executeAgentNode, try_catch.
  destruct (agent_try R S node apiKeys st tr) as [[[res | e0] st'] tr'];
    [discriminate |].
  intros H. apply agent_catch_thrown in H as [Hpol Hcase].
  split; [exact Hpol |].
  destruct Hcase as [-> | [-> | ->]].
  - split; [auto | discriminate].
  - split; [auto | discriminate].
  - split; [eauto |].
    change ("Agent execution failed: " +:+ exn_message e0)
      with (String "A" ("gent execution failed: " +:+ exn_message e0)).
    discriminate.
Qed.

Lemma thrown_errors_are_classified_witness :
  useFallback (env Demo.off) = false
  /\ (JsError missing_key_text = JsError missing_key_text
      \/ JsError missing_key_text = JsError rate_limited_text
      \/ exists m, JsError missing_key_text = JsError ("Agent execution failed: " +:+ m))
  /\ JsError missing_key_text <> JsError no_key_configured_text.
Proof.
  apply (thrown_errors_are_classified Demo.off Demo.agent_services Demo.groq_step
           (Some Demo.no_keys) Demo.busy_state []).
  reflexivity.
Defined.

(** X26. Without an [apiKeys] argument nothing is asked of any provider
    and the mock response is not consulted: after the tool-server id
    lookup the step fails on the missing argument, which the [catch]
    block turns into the canned result (policy enabled) or into the
    missing-key error (policy disabled). *)
Theorem missing_apiKeys_argument :
  forall (R : Runtime) (S : Services) (node : WorkflowNode)
         (st : WorkflowState) (tr : list Event),
    trace_of (executeAgentNode R S node None st tr) = (tr ++ lookup_events S node)%list
    /\ outcome_of (executeAgentNode R S node None st tr)
       = if useFallback (env R)
         then Returned (fallback_result S node st)
         else Thrown (JsError missing_key_text).
Proof.
  intros R S node st tr.
  assert (Htry : agent_try R S node None st tr
                 = (Thrown (JsError "API keys are required for server-side execution"),
                    st, (tr ++ lookup_events S node)%list)).
  { unfold agent_try, bind, get_state, lookup_events.
    destruct (mcpServerIds (migrateMCPData S (node_data node))); unfold call, ret, throw.
    - now rewrite app_nil_r.
    - reflexivity. }
  unfold executeAgentNode, try_catch. rewrite Htry.
  destruct (useFallback (env R)) eqn:Hpol.
  - rewrite agent_catch_fallback by exact Hpol. split; reflexivity.
  - unfold agent_catch. rewrite Hpol. split; reflexivity.
Qed.

(** *** The model string *)

Lemma prefix_slash c s :
  String.prefix "/" (String c s) = if ascii_dec "/" c then true else false.
Proof. destruct s; cbn -[ascii_dec]; destruct (ascii_dec "/" c); reflexivity. Qed.

Lemma index_slash s :
  match index 0 "/" s with
  | Some i => exists a b, s = a +:+ "/" +:+ b /\ i = String.length a
                          /\ includes a "/" = false
  | None => includes s "/" = false
  end.
Proof.
  induction s as [| c s IH].
  - reflexivity.
  - change (index 0 "/" (String c s))
      with (if String.prefix "/" (String c s) then Some 0
            else match index 0 "/" s with Some n => Some (Datatypes.S n) | None => None end).
    destruct (String.prefix "/" (String c s)) eqn:Ep.
    + apply prefix_spec in Ep as [b Hb]. exists "", b. repeat split. exact Hb.
    + destruct (index 0 "/" s) as [i |] eqn:Ei.
      * destruct IH as (a & b & -> & -> & Ha).
        exists (String c a), b. repeat split.
        rewrite includes_cons, Ha, orb_false_r.
        destruct (String.prefix "/" (String c a)) eqn:Ep'; [| reflexivity].
        rewrite prefix_slash in Ep, Ep'. congruence.
      * rewrite includes_cons, Ep, IH. reflexivity.
Qed.

(** X27. The model string is split at its first slash: the provider is
    what precedes it (and holds no slash), the model name all that
    follows, further slashes included; a string without a slash is an
    OpenAI model. *)
Theorem parse_model_splits_at_first_slash :
  forall s : string,
    if includes s "/"
    then s = (parse_model s).1 +:+ "/" +:+ (parse_model s).2
         /\ includes (parse_model s).1 "/" = false
    else parse_model s = ("openai", s).
Proof.
  intros s. unfold parse_model, includes at 1.
  pose proof (index_slash s) as H.
  destruct (index 0 "/" s) as [i |]; [| reflexivity].
  destruct H as (a & b & -> & -> & Ha). cbn [fst snd].
  rewrite substring_prefix.
  rewrite (substring_skip a ("/" +:+ b) 1).
  rewrite !length_append. cbn [String.length].
  replace (String.length a + (1 + String.length b) - (String.length a + 1))
    with (String.length b) by lia.
  change (substring 1 (String.length b) ("/" +:+ b))
    with (substring 0 (String.length b) b).
  rewrite substring_all. split; [reflexivity | exact Ha].
Qed.

(** *** Providers *)



(** *** The OpenAI tool loop *)



Lemma track_tool_calls_throws R tc calls : forall toolResults,
  In tc calls ->
  JSON_parse R (fn_arguments tc) = None ->
  exists e, track_tool_calls R calls toolResults = Thrown e.
Proof.
  induction calls as [| c calls IH]; intros toolResults Hin Hbad; [destruct Hin |].
  cbn [track_tool_calls].
  destruct Hin as [-> | Hin].
  - unfold js_JSON_parse at 1. rewrite Hbad. simpl. eauto.
  - destruct (js_JSON_parse R (fn_arguments c)) as [args | e]; [| simpl; eauto].
    cbn [obind].
    destruct (match toolResults with
              | r :: _ => js_JSON_parse R (tool_msg_content r)
              | [] => Returned JNull
              end) as [out | e]; [| simpl; eauto].
    cbn [obind].
    destruct (IH (tl toolResults) Hin Hbad) as [e ->]. simpl. eauto.
Qed.

(** X30. Recovery inside the tool loop does not save the step: a tool
    call whose arguments are not JSON is answered with an error message
    by the loop, but the bookkeeping after the second completion call
    parses the same arguments again, outside any [try], so the OpenAI
    tool path throws. *)
Theorem unparsable_tool_arguments_fail_the_path :
  forall (R : Runtime) (S : Services) (key modelName : string)
         (messages : list Message) (tools : list McpServer)
         (response : ChatCompletion) (message : ChoiceMessage) (tc : ToolCall)
         (st : WorkflowState) (tr : list Event),
    tools <> [] ->
    openai_chat_create S key None (first_request modelName messages tools)
    = Returned response ->
    first_choice response = Returned message ->
    In tc (m_tool_calls message) ->
    JSON_parse R (fn_arguments tc) = None ->
    exists e,
      outcome_of (openai_branch R S key modelName messages tools st tr) = Thrown e.
Proof.
  intros R S key modelName messages tools response message tc st tr
         Htools Hfirst Hmsg Hin Hbad.
  destruct (emap_tool_calls_return R S tools (m_tool_calls message) st
              (tr ++ [EvProvider "openai"])%list) as (msgs & tr1 & Eloop).
  destruct (track_tool_calls_throws R tc (m_tool_calls message) msgs Hin Hbad)
    as [e0 Htrack].
  unfold openai_branch, openai_tool_round.
  destruct tools as [| tool tools']; [congruence |].
  unfold bind at 1, call. rewrite Hfirst.
  unfold bind at 1, lift. rewrite Hmsg.
  destruct (m_tool_calls message) as [| c calls]; [destruct Hin |].
  unfold bind at 1. unfold bind at 1. rewrite Eloop.
  unfold bind at 1.
  destruct (openai_chat_create S key None
              (second_request modelName messages message msgs))
    as [finalResponse | e]; [| eauto].
  unfold bind at 1, first_choice.
  destruct (choices finalResponse) as [| finalMessage others]; [eauto |].
  unfold ret at 1. unfold bind. rewrite Htrack. eauto.
Qed.

Lemma unparsable_tool_arguments_fail_the_path_witness :
  exists e,
    outcome_of (openai_branch Demo.on Cases.careless_services "sk-test" "gpt-4o"
                  Demo.question [Demo.weather_tool] Demo.busy_state [])
    = Thrown e.
Proof.
  apply (unparsable_tool_arguments_fail_the_path Demo.on Cases.careless_services
           "sk-test" "gpt-4o" Demo.question [Demo.weather_tool]
           {| choices := [Cases.asks_badly]; cc_usage := None |}
           Cases.asks_badly Cases.bad_call Demo.busy_state []).
  - discriminate.
  - reflexivity.
  - reflexivity.
  - left. reflexivity.
  - reflexivity.
Defined.

End AgentCoverage.
